(** * Process SR Report: the file-intake and column-rewrite pipeline

    A shallow embedding of [watch_and_process.py]: the readiness gate
    ([is_file_fresh_enough], [is_file_stable]), the format normalizer
    ([excel_xls_to_xlsx]), the column transformer
    ([parse_hyperlink_formula], [transform_workbook]) and the per-file
    handler ([NewFileHandler._process]).

    Python strings are modelled as Rocq strings of 8-bit characters with
    the ASCII rules of [str.strip], [str.upper] and of the [re] classes:
    the development speaks about ASCII text.  A worksheet is the finite
    map from (row, column) to cells that openpyxl keeps, and the calls
    into the operating system, Excel and openpyxl's file access are
    answered by an explicit environment. *)

From Stdlib Require Import ZArith Ascii String List Bool Lia DecimalString.
From stdpp Require Import base option gmap strings list.

Local Open Scope Z_scope.
Local Open Scope string_scope.

(* string concatenation unfolds on constructors, as it does without stdpp *)
#[local] Arguments String.append !s1 s2 / : simpl nomatch.

(** ** Python string primitives *)

Module PyStr.

(** [str.isspace] on ASCII: TAB..CR, FS..US and the space. *)
Definition is_space (c : ascii) : bool :=
  let n := N_of_ascii c in
  ((9 <=? n) && (n <=? 13) || (28 <=? n) && (n <=? 32))%N.

Definition is_lower (c : ascii) : bool :=
  let n := N_of_ascii c in ((97 <=? n) && (n <=? 122))%N.

Definition is_upper (c : ascii) : bool :=
  let n := N_of_ascii c in ((65 <=? n) && (n <=? 90))%N.

Definition upper_char (c : ascii) : ascii :=
  if is_lower c then ascii_of_N (N_of_ascii c - 32) else c.

Definition lower_char (c : ascii) : ascii :=
  if is_upper c then ascii_of_N (N_of_ascii c + 32) else c.

(** [s.upper()] and [s.lower()] *)
Fixpoint upper (s : string) : string :=
  match s with
  | EmptyString => EmptyString
  | String c s' => String (upper_char c) (upper s')
  end.

Fixpoint lower (s : string) : string :=
  match s with
  | EmptyString => EmptyString
  | String c s' => String (lower_char c) (lower s')
  end.

(** [s.startswith(p)] *)
Fixpoint startswith (s p : string) {struct p} : bool :=
  match p with
  | EmptyString => true
  | String a p' =>
      match s with
      | String c s' => Ascii.eqb c a && startswith s' p'
      | EmptyString => false
      end
  end.

(** the last character of [s], if any *)
Fixpoint last_char (s : string) : option ascii :=
  match s with
  | EmptyString => None
  | String c EmptyString => Some c
  | String _ s' => last_char s'
  end.

(** [s.endswith(c)] for a one-character suffix *)
Definition endswith_char (s : string) (c : ascii) : bool :=
  match last_char s with
  | Some d => Ascii.eqb d c
  | None => false
  end.

(** [p in s]: the empty string occurs in every string. *)
Fixpoint contains (p s : string) : bool :=
  startswith s p ||
  match s with
  | EmptyString => false
  | String _ s' => contains p s'
  end.

(** [s.lstrip()], [s.rstrip()], [s.strip()] *)
Fixpoint lstrip (s : string) : string :=
  match s with
  | EmptyString => EmptyString
  | String c s' => if is_space c then lstrip s' else s
  end.

Fixpoint rstrip_by (p : ascii -> bool) (s : string) : string :=
  match s with
  | EmptyString => EmptyString
  | String c s' =>
      match rstrip_by p s' with
      | EmptyString => if p c then EmptyString else String c EmptyString
      | r => String c r
      end
  end.

Definition rstrip (s : string) : string := rstrip_by is_space s.

Definition strip (s : string) : string := lstrip (rstrip s).

(** [s.rstrip(")")]-style stripping of one given character *)
Definition rstrip_char (c : ascii) (s : string) : string :=
  rstrip_by (Ascii.eqb c) s.

(** [s.find(c)] for a one-character needle: the first index, or -1. *)
Fixpoint find_char (c : ascii) (s : string) : Z :=
  match s with
  | EmptyString => (-1)%Z
  | String d s' =>
      if Ascii.eqb d c then 0%Z
      else let i := find_char c s' in (if i <? 0 then -1 else i + 1)%Z
  end.

(** [s[n:]] for [n >= 0] *)
Fixpoint drop (n : nat) (s : string) : string :=
  match n, s with
  | O, _ => s
  | S _, EmptyString => EmptyString
  | S n', String _ s' => drop n' s'
  end.

(** [s[:-1]] *)
Fixpoint drop_last (s : string) : string :=
  match s with
  | EmptyString => EmptyString
  | String _ EmptyString => EmptyString
  | String c s' => String c (drop_last s')
  end.

(** [s[1:-1]] *)
Definition slice_1_m1 (s : string) : string := drop_last (drop 1 s).

(** the double quote character, and a string between double quotes *)
Definition dquote : ascii := "034"%char.

Definition quoted (s : string) : string :=
  String dquote (s +:+ String dquote "").

(** every character of [s] satisfies [p] *)
Fixpoint all_chars (p : ascii -> bool) (s : string) : bool :=
  match s with
  | EmptyString => true
  | String c s' => p c && all_chars p s'
  end.

Definition not_dquote (c : ascii) : bool := negb (Ascii.eqb c dquote).

(** [str(n)] for an [int] *)
Definition str_of_Z (n : Z) : string := NilEmpty.string_of_int (Z.to_int n).

(** Python truthiness of a [str]-or-[None] *)
Definition truthy (o : option string) : bool :=
  match o with
  | Some EmptyString => false
  | Some _ => true
  | None => false
  end.

(** [x or None] for a string [x] *)
Definition or_None (s : string) : option string :=
  match s with
  | EmptyString => None
  | _ => Some s
  end.

End PyStr.

(** ** The regular expression [https?://\S+] under [re.IGNORECASE] *)

Module UrlRe.
Import PyStr.

Definition ci_eqb (a b : ascii) : bool := Ascii.eqb (lower_char a) (lower_char b).

(** match the literal [lit] at the head of [s], ignoring case;
    the result is the matched text and what follows it *)
Fixpoint match_lit (lit s : string) : option (string * string) :=
  match lit with
  | EmptyString => Some (EmptyString, s)
  | String a lit' =>
      match s with
      | String c s' =>
          if ci_eqb a c then
            match match_lit lit' s' with
            | Some (m, r) => Some (String c m, r)
            | None => None
            end
          else None
      | EmptyString => None
      end
  end.

(** the longest run of [\S] at the head of [s], and the rest *)
Fixpoint span_nonspace (s : string) : string * string :=
  match s with
  | EmptyString => (EmptyString, EmptyString)
  | String c s' =>
      if is_space c then (EmptyString, s)
      else let (m, r) := span_nonspace s' in (String c m, r)
  end.

(** [://\S+] at the head of [s] *)
Definition match_tail (s : string) : option string :=
  match match_lit "://" s with
  | Some (m, r) =>
      match span_nonspace r with
      | (EmptyString, _) => None
      | (run, _) => Some (m +:+ run)
      end
  | None => None
  end.

(** the whole pattern at the head of [s]: [s?] is greedy and is given
    back when the rest fails *)
Definition match_at (s : string) : option string :=
  match match_lit "http" s with
  | Some (m, r) =>
      let without_s := option_map (fun t => m +:+ t) (match_tail r) in
      match r with
      | String c r' =>
          if ci_eqb "s" c then
            match match_tail r' with
            | Some t => Some (m +:+ String c t)
            | None => without_s
            end
          else without_s
      | EmptyString => without_s
      end
  | None => None
  end.

(** [re.search(r"https?://\S+", s, re.IGNORECASE)]: the leftmost match,
    as [m.group(0)] *)
Fixpoint search (s : string) : option string :=
  match match_at s with
  | Some m => Some m
  | None =>
      match s with
      | EmptyString => None
      | String _ s' => search s'
      end
  end.



End UrlRe.

(** ** [parse_hyperlink_formula] *)

Module Formula.
Import PyStr.

(** the [for ch in inside] loop: [inq] is the in-quotes flag, [buf] the
    current argument, [parts] the arguments closed so far *)
Fixpoint scan (inq : bool) (buf : string) (parts : list string) (s : string)
  : string * list string :=
  match s with
  | EmptyString => (buf, parts)
  | String ch s' =>
      if Ascii.eqb ch dquote then scan (negb inq) (buf +:+ String ch "") parts s'
      else if negb inq && (Ascii.eqb ch "," || Ascii.eqb ch ";")
      then scan inq "" (parts ++ [strip buf])%list s'
      else scan inq (buf +:+ String ch "") parts s'
  end.

(** [clean]: drop one pair of surrounding double quotes *)
Definition clean (t : string) : string :=
  if startswith t (String dquote "") && endswith_char t dquote
  then slice_1_m1 t else t.

Definition parse_hyperlink_formula (formula : string)
  : option string * option string :=
  let s := strip formula in
  if negb (startswith (upper s) "=HYPERLINK(") then (None, None)
  else
    let inside := rstrip_char ")" (drop (Z.to_nat (find_char "(" s + 1)) s) in
    let '(buf, parts) := scan false "" [] inside in
    let parts := match buf with
                 | EmptyString => parts
                 | _ => (parts ++ [strip buf])%list
                 end in
    let url := match parts with
               | p0 :: _ => clean p0
               | [] => ""
               end in
    let text := match parts with
                | _ :: p1 :: _ => clean p1
                | _ => ""
                end in
    (or_None url, or_None text).

(** the text [=HYPERLINK(args)] *)
Definition hyperlink_formula (args : string) : string :=
  "=HYPERLINK(" +:+ args +:+ ")".

(** two quoted arguments, separated by [d] and blanks *)
Definition two_arguments (a1 : string) (d : ascii) (pad a2 : string) : string :=
  quoted a1 +:+ String d pad +:+ quoted a2.

End Formula.

(** ** Exceptions and results *)

(** the exceptions the stages raise, all of class [Exception]:
    [ws.cell] with an index below 1, [worksheets[0]] on no sheet, the
    missing Excel automation, the file system, and the COM calls *)
Inductive exn : Type :=
| ValueError | IndexError | RuntimeError | OSError | ComError.

Inductive result (A : Type) : Type :=
| Ok (a : A)
| Raise (e : exn).
Arguments Ok {A} a.
Arguments Raise {A} e.

(** ** The column transformer *)

Module Sheet.
Import PyStr.

(** What openpyxl hands out as [cell.value]: [None], a [str] (a formula
    is the [str] that starts with [=]), an [int], a [bool], or another
    object (a [float], a [datetime], ...) carried with its [str()]. *)
Inductive pyval : Type :=
| VNone
| VStr (s : string)
| VInt (n : Z)
| VBool (b : bool)
| VOther (repr : string).

(** [str(v)] *)
Definition py_str (v : pyval) : string :=
  match v with
  | VNone => "None"
  | VStr s => s
  | VInt n => str_of_Z n
  | VBool true => "True"
  | VBool false => "False"
  | VOther repr => repr
  end.

Record link : Type := { target : option string }.

Record cell : Type := { value : pyval; hyperlink : option link }.

(** the cell that [ws.cell] creates where the sheet has none *)
Definition blank : cell := {| value := VNone; hyperlink := None |}.

(** [cell.value = v] *)
Definition set_value (c : cell) (v : pyval) : cell :=
  {| value := v; hyperlink := hyperlink c |}.

(** openpyxl's [ws._cells]: cells by (row, column) *)
Abbreviation worksheet := (gmap (Z * Z) cell).

(** [wb.worksheets] *)
Abbreviation workbook := (list (gmap (Z * Z) cell)).

(** [ws.max_row]: 1 on a sheet without cells, otherwise the largest row
    that has a cell *)
Definition max_row (ws : worksheet) : Z :=
  match (map_to_list ws).*1.*1 with
  | [] => 1
  | r :: rs => foldr Z.max r rs
  end.

(** [ws.cell(row=r, column=c)]: the cell there, created blank when the
    sheet has none; indices below 1 are refused *)
Definition ws_cell (ws : worksheet) (r c : Z) : result (worksheet * cell) :=
  if (r <? 1)%Z || (c <? 1)%Z then Raise ValueError
  else match ws !! (r, c) with
       | Some x => Ok (ws, x)
       | None => Ok (<[(r, c) := blank]> ws, blank)
       end.

(** [getattr(cell.hyperlink, "target", None)] behind [cell.hyperlink and] *)
Definition hyperlink_target (c : cell) : option string :=
  match hyperlink c with
  | Some h => target h
  | None => None
  end.

(** line 222: [val = "" if cell.value is None else str(cell.value)] *)
Definition cell_text (c : cell) : string :=
  match value c with
  | VNone => ""
  | v => py_str v
  end.

(** lines 225-232: the native hyperlink, else the [=HYPERLINK(...)]
    formula, whose second argument replaces [val] *)
Definition link_and_text (c : cell) (val : string) : option string * string :=
  if truthy (hyperlink_target c) then (hyperlink_target c, val)
  else if startswith val "=" then
    let '(u, t) := Formula.parse_hyperlink_formula val in
    if truthy u
    then (u, if truthy t then default val t else val)
    else (None, val)
  else (None, val).

(** lines 233-235: the bare URL in [val] when no link was found *)
Definition or_bare_url (url : option string) (val : string) : option string :=
  if negb (truthy url)
  then match UrlRe.search val with
       | Some m => Some m
       | None => url
       end
  else url.

(** lines 222-235 of the loop body: the text [val] and the link [url] *)
Definition text_and_url (c : cell) : string * option string :=
  let '(url, val) := link_and_text c (cell_text c) in
  (val, or_bare_url url val).

(** lines 237-241: the value written back, and whether it counts as a
    change *)
Definition annotate (sep : string) (val : string) (url : option string)
  : pyval * bool :=
  if truthy url && negb (contains sep val)
  then (VStr (val +:+ sep +:+ default "" url), true)
  else (VStr val, false).

Definition rewrite_cell (sep : string) (c : cell) : pyval * bool :=
  let '(val, url) := text_and_url c in annotate sep val url.

(** one iteration of [for r in range(start_row, max_row+1)] *)
Definition row_step (sep : string) (col_b : Z)
    (st : worksheet * Z) (r : Z) : result (worksheet * Z) :=
  let '(ws, changed) := st in
  match ws_cell ws r col_b with
  | Raise e => Raise e
  | Ok (ws1, c) =>
      let '(v, ch) := rewrite_cell sep c in
      Ok (<[(r, col_b) := set_value c v]> ws1,
          if ch then (changed + 1)%Z else changed)
  end.

Fixpoint for_rows (sep : string) (col_b : Z) (rows : list Z)
    (st : worksheet * Z) : result (worksheet * Z) :=
  match rows with
  | [] => Ok st
  | r :: rows' =>
      match row_step sep col_b st r with
      | Ok st' => for_rows sep col_b rows' st'
      | Raise e => Raise e
      end
  end.

(** [transform_workbook]: the workbook handed to [wb.save] and the
    number of changed rows, or the exception that ends the call before
    anything is saved *)
Definition transform_workbook (wb : workbook) (start_row col_b : Z)
    (sep : string) : result (workbook * Z) :=
  match wb with
  | [] => Raise IndexError
  | ws :: others =>
      let max_row := max_row ws in
      if (max_row <? start_row)%Z then Ok (wb, 0%Z)
      else
        match for_rows sep col_b
                (seqZ start_row (max_row + 1 - start_row)) (ws, 0%Z) with
        | Ok (ws', changed) => Ok (ws' :: others, changed)
        | Raise e => Raise e
        end
  end.

(** the document on disk after the call: what was saved, or the
    untouched input when the call raised before [wb.save] *)
Definition saved (wb : workbook) (r : result (workbook * Z)) : workbook :=
  match r with
  | Ok (wb', _) => wb'
  | Raise _ => wb
  end.

(** the cell that [ws.cell(row=r, column=c)] hands out *)
Definition cell_at (ws : worksheet) (r c : Z) : cell :=
  default blank (ws !! (r, c)).

(** the value at (row, column) as a later [ws.cell] would read it *)
Definition value_at (ws : worksheet) (r c : Z) : pyval :=
  value (cell_at ws r c).

(** a cell after its iteration of the loop *)
Definition rewritten (sep : string) (c : cell) : cell :=
  set_value c (rewrite_cell sep c).1.

(** the rows of [rows] whose iteration counts as a change *)
Fixpoint count_changed (sep : string) (col_b : Z) (ws : worksheet)
    (rows : list Z) : Z :=
  match rows with
  | [] => 0
  | r :: rows' =>
      (if (rewrite_cell sep (cell_at ws r col_b)).2 then 1 else 0)
      + count_changed sep col_b ws rows'
  end.

(** the first worksheet, [wb.worksheets[0]], of a workbook that has one *)
Definition first_sheet (wb : workbook) : worksheet := hd ∅ wb.

End Sheet.

(** ** The readiness gate *)

Module Gate.

(** What one round of the polling loop finds: [p.exists()] is false, or
    [p.stat().st_size], or [p.stat()] raises (the file went away or
    became unreadable between the two calls). *)
Inductive sample : Type :=
| Gone
| Size (n : Z)
| StatFails (e : exn).

(** How a run of the loop ends, with the number of [time.sleep(1)]
    calls made; [Polling] is a run still in the loop when the fuel is
    spent. *)
Inductive poll : Type :=
| Returned (b : bool) (sleeps : nat)
| Raised (e : exn) (sleeps : nat)
| Polling.

(** the [while same < stable_secs] loop; [k] counts the sleeps so far,
    and the [k]-th round looks at sample [obs k] *)
Fixpoint stable_loop (fuel : nat) (obs : nat -> sample) (stable_secs : Z)
    (last same : Z) (k : nat) : poll :=
  match fuel with
  | O => Polling
  | S fuel' =>
      if (same <? stable_secs)%Z then
        match obs k with
        | Gone => Returned false k
        | StatFails e => Raised e k
        | Size size =>
            if (size =? last)%Z && (size >? 0)%Z
            then stable_loop fuel' obs stable_secs last (same + 1) (S k)
            else stable_loop fuel' obs stable_secs size 0 (S k)
        end
      else Returned true k
  end.

Definition is_file_stable (fuel : nat) (obs : nat -> sample)
    (stable_secs : Z) : poll :=
  stable_loop fuel obs stable_secs (-1) 0 0.

(** [timedelta(hours=h)], in microseconds *)
Definition timedelta_hours (h : Z) : Z := h * 3600 * 1000000.

(** [is_file_fresh_enough]: [mtime] is the outcome of the [try] block
    [datetime.fromtimestamp(p.stat().st_mtime)] and [now] is
    [datetime.now()], both in microseconds *)
Definition is_file_fresh_enough (mtime : result Z) (now : Z) (max_hours : Z)
  : bool :=
  match mtime with
  | Raise _ => false
  | Ok mtime => let age := now - mtime in (age <=? timedelta_hours max_hours)%Z
  end.

(** *** Notions used to state the facts about the loop *)

Implicit Types (obs : nat -> sample) (fuel k : nat) (last same : Z).

(** how many sleeps a finished run made *)
Definition sleeps_of (r : poll) : option nat :=
  match r with
  | Returned _ k => Some k
  | Raised _ k => Some k
  | Polling => None
  end.

(** What the loop knows between two rounds: before the first sample
    nothing is counted; later, the last [same + 1] samples all had the
    size [last], which is positive once [same] is. *)
Definition window obs last same k : Prop :=
  0 <= same /\
  ((k = 0%nat /\ same = 0 /\ last <= 0)
   \/ (same + 1 <= Z.of_nat k
       /\ (forall i : nat, Z.of_nat k - same - 1 <= Z.of_nat i < Z.of_nat k ->
             obs i = Size last)
       /\ (1 <= same -> 0 < last))).

(** the size never settles: each sample is a size, and a sample equal to
    the one before it is zero (or less) *)
Definition never_settles obs : Prop :=
  forall i, exists a b,
    obs i = Size a /\ obs (S i) = Size b /\ (b <> a \/ b <= 0).

End Gate.

(** ** The per-file pipeline *)

Module Pipeline.
Import PyStr Sheet.

Definition MAX_FILE_AGE_HOURS : Z := 12.
Definition DEFAULT_START_ROW : Z := 19.
Definition DEFAULT_COL_B : Z := 2.
Definition DEFAULT_SEPARATOR : string := " ### ".

Inductive level : Type := INFO | WARNING | ERROR.

Inductive message : Type :=
| SkippingOldFile
| DetectedCandidate
| FileNotStable
| ExcelUnavailable
| ConvertingXls
| ConvertedTo
| UnsupportedExtension
| TransformingWorkbook
| TransformComplete (changed : Z)
| CopiedToSharePoint
| ErrorProcessingFile (e : exn).

(** what the handler does to the outside world, in order *)
Inductive event : Type :=
| Log (l : level) (m : message)
| LogException (m : message)        (* [logging.exception] *)
| Sleep                             (* [time.sleep(1)] *)
| EnsureDispatch                    (* the Excel session is acquired *)
| SetVisible
| WorkbooksOpen
| SaveAs
| WbClose
| AppQuit                           (* the Excel session is released *)
| LoadWorkbook
| SaveWorkbook (wb : workbook)
| CopyProcessed                     (* [shutil.copy2(src, processed_path)] *)
| Mkdir
| CopyToSharePoint.                 (* [shutil.copy2(processed_path, dest)] *)

(** The answers of the outside world to one run of the handler;
    for a call that returns nothing, [None] is success and [Some e] the
    exception it raises. *)
Record env : Type := {
  is_dir : bool;                    (* [p.is_dir()] *)
  matches : bool;                   (* [Path(p.name).match(pattern)] *)
  mtime : result Z;
  now : Z;
  samples : nat -> Gate.sample;
  suffix : string;                  (* [p.suffix] *)
  win32 : bool;                     (* [win32 is not None] *)
  dispatch : option exn;
  wb_open : option exn;
  save_as : option exn;
  wb_close : option exn;
  app_quit : option exn;
  load : result workbook;           (* [load_workbook] *)
  save : option exn;                (* [wb.save] *)
  copy_processed : option exn;
  mkdir : option exn;
  copy_dest : option exn
}.

Record config : Type := { start_row : Z; col_b : Z; sep : string }.

(** *** A monad for traces, exceptions and running out of fuel *)

Inductive outcome (A : Type) : Type :=
| Returns (a : A)
| Raises (e : exn)
| Diverges.
Arguments Returns {A} a.
Arguments Raises {A} e.
Arguments Diverges {A}.

Definition M (A : Type) : Type := list event -> list event * outcome A.

Definition ret {A} (a : A) : M A := fun tr => (tr, Returns a).

Definition bind {A B} (m : M A) (k : A -> M B) : M B :=
  fun tr =>
    match m tr with
    | (tr', Returns a) => k a tr'
    | (tr', Raises e) => (tr', Raises e)
    | (tr', Diverges) => (tr', Diverges)
    end.

Definition raise {A} (e : exn) : M A := fun tr => (tr, Raises e).

Definition emit (ev : event) : M unit := fun tr => ((tr ++ [ev])%list, Returns tt).

(** [try: m  except Exception as e: h e] *)
Definition try_except {A} (m : M A) (h : exn -> M A) : M A :=
  fun tr =>
    match m tr with
    | (tr', Raises e) => h e tr'
    | r => r
    end.

Notation "x <- m ;; k" := (bind m (fun x => k))
  (at level 100, m at next level, right associativity).
Notation "m ;; k" := (bind m (fun _ => k))
  (at level 100, right associativity).

(** an outside call: recorded, then it returns or raises *)
Definition call (ev : event) (answer : option exn) : M unit :=
  emit ev ;;
  match answer with
  | None => ret tt
  | Some e => raise e
  end.

Definition log (l : level) (m : message) : M unit := emit (Log l m).

Fixpoint sleeps (n : nat) : M unit :=
  match n with
  | O => ret tt
  | S n' => emit Sleep ;; sleeps n'
  end.

(** [is_file_stable(p, stable_secs)] inside the handler *)
Definition is_file_stable (fuel : nat) (w : env) (stable_secs : Z) : M bool :=
  match Gate.is_file_stable fuel (samples w) stable_secs with
  | Gate.Returned b k => sleeps k ;; ret b
  | Gate.Raised e k => sleeps k ;; raise e
  | Gate.Polling => fun tr => (tr, Diverges)
  end.

(** [excel_xls_to_xlsx]: returns the suffix of [dst] *)
Definition excel_xls_to_xlsx (w : env) : M string :=
  if negb (win32 w) then raise RuntimeError
  else
    call EnsureDispatch (dispatch w) ;;
    emit SetVisible ;;
    call WorkbooksOpen (wb_open w) ;;
    call SaveAs (save_as w) ;;
    call WbClose (wb_close w) ;;
    call AppQuit (app_quit w) ;;
    ret ".xlsx".

(** [transform_workbook] with its file access *)
Definition transform_workbook (w : env) (cfg : config) : M Z :=
  emit LoadWorkbook ;;
  match load w with
  | Raise e => raise e
  | Ok wb =>
      match Sheet.transform_workbook wb (start_row cfg) (col_b cfg) (sep cfg) with
      | Raise e => raise e
      | Ok (wb', changed) => call (SaveWorkbook wb') (save w) ;; ret changed
      end
  end.

Definition copy_to_sharepoint (w : env) : M unit :=
  call Mkdir (mkdir w) ;;
  call CopyToSharePoint (copy_dest w).

(** lines 292-306: from the extension check to the publish *)
Definition transform_and_publish (w : env) (cfg : config) (src_suffix : string)
  : M unit :=
  if negb (String.eqb (lower src_suffix) ".xlsx")
  then log WARNING UnsupportedExtension
  else
    log INFO TransformingWorkbook ;;
    changed <- transform_workbook w cfg ;;
    log INFO (TransformComplete changed) ;;
    call CopyProcessed (copy_processed w) ;;
    copy_to_sharepoint w ;;
    log INFO CopiedToSharePoint.

(** the body of the [try] in [_process] *)
Definition process_body (fuel : nat) (cfg : config) (w : env) : M unit :=
  if is_dir w then ret tt
  else if negb (matches w) then ret tt
  else if negb (Gate.is_file_fresh_enough (mtime w) (now w) MAX_FILE_AGE_HOURS)
  then log INFO SkippingOldFile
  else
    log INFO DetectedCandidate ;;
    stable <- is_file_stable fuel w 5 ;;
    if negb stable then log WARNING FileNotStable
    else if String.eqb (lower (suffix w)) ".xls" then
      if negb (win32 w) then log ERROR ExcelUnavailable
      else
        log INFO ConvertingXls ;;
        src_suffix <- excel_xls_to_xlsx w ;;
        log INFO ConvertedTo ;;
        transform_and_publish w cfg src_suffix
    else transform_and_publish w cfg (suffix w).

(** [NewFileHandler._process] *)
Definition _process (fuel : nat) (cfg : config) (w : env) : M unit :=
  try_except (process_body fuel cfg w)
    (fun e => emit (LogException (ErrorProcessingFile e))).

(** the handler started on an empty trace *)
Definition run (fuel : nat) (cfg : config) (w : env)
  : list event * outcome unit :=
  _process fuel cfg w [].

(** [m] always comes back: it returns or raises *)
Definition halts {A} (m : M A) : Prop :=
  forall tr, snd (m tr) <> Diverges.


End Pipeline.

(** ** First-run setup: [load_settings] and [ensure_config] *)

Module Config.
Import PyStr.

(** What [json.loads] puts into the settings: [None], a [bool], an
    [int], a [str], or another object (a [float], a list, a dict)
    carried with its truth value. *)
Inductive json : Type :=
| JNull
| JBool (b : bool)
| JNum (n : Z)
| JStr (s : string)
| JOther (truth : bool).

(** Python truthiness *)
Definition json_truthy (j : json) : bool :=
  match j with
  | JNull => false
  | JBool b => b
  | JNum n => negb (n =? 0)%Z
  | JStr s => negb (String.eqb s "")
  | JOther truth => truth
  end.

Abbreviation settings := (gmap string json).

(** [SETTINGS_PATH]: missing, not readable as JSON, or holding a JSON
    document, which is an object ([Some]) or something else ([None]) *)
Inductive settings_file : Type :=
| NoFile
| Unreadable
| Holds (doc : option (gmap string json)).

(** [load_settings]: the document, or [{}] without a file and after any
    exception *)
Definition load_settings (file : settings_file) : option settings :=
  match file with
  | NoFile => Some ∅
  | Unreadable => Some ∅
  | Holds doc => doc
  end.

Definition DEFAULT_WATCH_GLOB : string := "ETSA-TSA-*.xls".

(** the desk of the user: the folders that exist, the answers to the
    dialogs, and whether the settings file can be written *)
Record desk : Type := {
  path_exists : string -> bool;       (* [Path(p).exists()] *)
  picked_sharepoint : string;         (* [askdirectory], empty on cancel *)
  other_watch_folder : bool;          (* [askyesno] *)
  picked_watch : string;              (* [askdirectory], empty on cancel *)
  downloads : string;                 (* [default_downloads()] *)
  write_fails : bool                  (* [write_text] raises *)
}.

Inductive dialog : Type :=
| ShowInfo
| AskSharePointFolder
| ShowWarning
| ShowError
| AskYesNo
| AskWatchFolder
| SaveSettings (cfg : gmap string json).

Inductive setup_error : Type := AttributeError | TypeError | WriteError.

(** how [ensure_config] ends: with the settings, with [sys.exit(code)],
    or with an exception that nothing catches *)
Inductive setup : Type :=
| Configured (cfg : gmap string json)
| Exit (code : Z)
| Crash (e : setup_error).

(** [not cfg.get(key) or not Path(cfg[key]).exists()]; [Path] of a
    value that is no [str] raises [TypeError] ([None] here) *)
Definition folder_missing (d : desk) (cfg : settings) (key : string)
  : option bool :=
  match cfg !! key with
  | None => Some true
  | Some j =>
      if negb (json_truthy j) then Some true
      else match j with
           | JStr s => Some (negb (path_exists d s))
           | _ => None
           end
  end.

(** [prompt_explain_and_pick_sharepoint]: the folder, or exit code 0
    when nothing was picked *)
Definition prompt_explain_and_pick_sharepoint (d : desk)
  : list dialog * (string + Z) :=
  if String.eqb (picked_sharepoint d) ""
  then ([ShowInfo; AskSharePointFolder; ShowWarning], inr 0%Z)
  else ([ShowInfo; AskSharePointFolder], inl (picked_sharepoint d)).

(** [prompt_optional_watch_folder] *)
Definition prompt_optional_watch_folder (d : desk) (default_dl : string)
  : list dialog * string :=
  if other_watch_folder d
  then ([AskYesNo; AskWatchFolder],
        if String.eqb (picked_watch d) "" then default_dl else picked_watch d)
  else ([AskYesNo], default_dl).

(** lines 111-117 *)
Definition sharepoint_step (d : desk) (st : settings * bool)
  : list dialog * (settings * bool + setup) :=
  let '(cfg, changed) := st in
  match folder_missing d cfg "sharepoint_folder" with
  | None => ([], inr (Crash TypeError))
  | Some false => ([], inl st)
  | Some true =>
      match prompt_explain_and_pick_sharepoint d with
      | (asked, inr code) => (asked, inr (Exit code))
      | (asked, inl sp) =>
          if negb (path_exists d sp)
          then ((asked ++ [ShowError])%list, inr (Exit 1%Z))
          else (asked, inl (<["sharepoint_folder" := JStr sp]> cfg, true))
      end
  end.

(** lines 119-126 *)
Definition watch_step (d : desk) (st : settings * bool)
  : list dialog * (settings * bool + setup) :=
  let '(cfg, changed) := st in
  match folder_missing d cfg "watch_folder" with
  | None => ([], inr (Crash TypeError))
  | Some false => ([], inl st)
  | Some true =>
      let '(asked, wf) := prompt_optional_watch_folder d (downloads d) in
      if negb (path_exists d wf)
      then ((asked ++ [ShowError])%list, inr (Exit 1%Z))
      else (asked, inl (<["watch_folder" := JStr wf]> cfg, true))
  end.

(** [if key not in cfg: cfg[key] = v; changed = True] *)
Definition fill_default (key : string) (v : json) (st : settings * bool)
  : settings * bool :=
  match st.1 !! key with
  | Some _ => st
  | None => (<[key := v]> st.1, true)
  end.

(** lines 128-139 *)
Definition fill_defaults (st : settings * bool) : settings * bool :=
  fill_default "separator" (JStr " ### ")
    (fill_default "col_b" (JNum 2)
       (fill_default "start_row" (JNum 19)
          (fill_default "pattern" (JStr DEFAULT_WATCH_GLOB) st))).

(** lines 141-144 *)
Definition save_and_return (d : desk) (st : settings * bool)
  : list dialog * setup :=
  let '(cfg, changed) := st in
  if changed then
    ([SaveSettings cfg],
     if write_fails d then Crash WriteError else Configured cfg)
  else ([], Configured cfg).

(** [ensure_config(reset)]: the dialogs shown and the settings file
    written, in order, and how the call ends *)
Definition ensure_config (d : desk) (file : settings_file) (reset : bool)
  : list dialog * setup :=
  match (if reset then Some ∅ else load_settings file) with
  | None => ([], Crash AttributeError)
  | Some cfg =>
      match sharepoint_step d (cfg, false) with
      | (asked1, inr stop) => (asked1, stop)
      | (asked1, inl st1) =>
          match watch_step d st1 with
          | (asked2, inr stop) => ((asked1 ++ asked2)%list, stop)
          | (asked2, inl st2) =>
              let '(saved, ending) := save_and_return d (fill_defaults st2) in
              ((asked1 ++ asked2 ++ saved)%list, ending)
          end
      end
  end.

(** a folder entry that needs no dialog *)
Definition folder_ready (d : desk) (cfg : gmap string json)
    (key : string) : Prop :=
  exists s, cfg !! key = Some (JStr s) /\ s <> "" /\ path_exists d s = true.

(** what a folder step that goes on has done: the entry is ready, the
    other entries are as before, and either nothing was asked and
    nothing changed, or the user was asked and the change is marked *)
Definition step_done (d : desk) (key : string) (st st' : gmap string json * bool)
    (asked : list dialog) : Prop :=
  folder_ready d st'.1 key
  /\ (forall k, k <> key -> st'.1 !! k = st.1 !! k)
  /\ ((asked = [] /\ st' = st)
      \/ (asked <> [] /\ st'.2 = true
          /\ forall c, ~ In (SaveSettings c) asked)).

(** the four keys that get defaults *)
Definition default_keys : list string :=
  ["pattern"; "start_row"; "col_b"; "separator"].

End Config.

(** ** Sample workbooks, files and environments *)

Module Samples.
Import PyStr Formula Sheet Gate Pipeline.
Local Open Scope Z_scope.

(** a sheet with a hyperlinked cell, a formula cell, a plain-text
    cell and a number in column B, and cells before row 19 and outside
    column B *)
Definition sample_sheet : worksheet :=
  {[ (19, 2) := {| value := VStr "see https://x/y for details";
                   hyperlink := None |};
     (20, 2) := {| value := VInt 42; hyperlink := None |};
     (21, 2) := {| value := VStr "Report";
                   hyperlink := Some {| target := Some "https://sp/r" |} |};
     (3, 2) := {| value := VStr "https://h/0"; hyperlink := None |};
     (20, 1) := {| value := VStr "https://a/1"; hyperlink := None |} ]}.

(** [sample_sheet] with other contents before row 19 and outside
    column B *)
Definition sample_sheet_variant : worksheet :=
  <[(3, 2) := {| value := VStr "other"; hyperlink := None |}]>
    (<[(20, 1) := {| value := VInt 7; hyperlink := None |}]> sample_sheet).

(** the workbook whose cell B19 holds
    [=HYPERLINK("https://x/y", "Label")] *)
Definition label_formula : string :=
  hyperlink_formula (two_arguments "https://x/y" "," " " "Label").

Definition label_sheet : worksheet :=
  {[ (19, 2) := {| value := VStr label_formula; hyperlink := None |} ]}.

(** [=HYPERLINK("https://h/d?ids=1,2")]: a link with a comma in its
    query and no friendly name *)
Definition comma_url_formula : string :=
  hyperlink_formula (quoted "https://h/d?ids=1,2").

(** the workbook whose cell B19 holds that formula *)
Definition comma_url_sheet : worksheet :=
  {[ (19, 2) := {| value := VStr comma_url_formula; hyperlink := None |} ]}.

(** what the first and the second pass leave in B19 *)
Definition after_first_pass : string :=
  comma_url_formula +:+ " ### https://h/d?ids=1,2".

Definition after_second_pass : string :=
  "2 ### " +:+ quoted "https://h/d?ids=1,2" +:+ ") ### https://h/d?ids=1".

(** a file of 10 bytes that is left alone, a file that grows by a byte
    between any two samples, and an empty file *)
Definition steady : nat -> sample := fun _ => Size 10.
Definition growing : nat -> sample := fun i => Size (Z.of_nat i + 1).
Definition empty_file : nat -> sample := fun _ => Size 0.

(** a fresh, stable [.xlsx] candidate on a host where every outside
    call succeeds *)
Definition calm : env :=
  {| is_dir := false; matches := true;
     mtime := Ok 0; now := 0;
     samples := steady;
     suffix := ".xlsx"; win32 := true;
     dispatch := None; wb_open := None; save_as := None;
     wb_close := None; app_quit := None;
     load := Ok [sample_sheet]; save := None;
     copy_processed := None; mkdir := None; copy_dest := None |}.

Definition defaults : config :=
  {| start_row := DEFAULT_START_ROW; col_b := DEFAULT_COL_B;
     sep := DEFAULT_SEPARATOR |}.

Definition with_clock (w : env) (modified : result Z) (current : Z) : env :=
  {| is_dir := is_dir w; matches := matches w;
     mtime := modified; now := current;
     samples := samples w; suffix := suffix w; win32 := win32 w;
     dispatch := dispatch w; wb_open := wb_open w; save_as := save_as w;
     wb_close := wb_close w; app_quit := app_quit w;
     load := load w; save := save w;
     copy_processed := copy_processed w; mkdir := mkdir w;
     copy_dest := copy_dest w |}.

Definition with_samples (w : env) (obs : nat -> Gate.sample) : env :=
  {| is_dir := is_dir w; matches := matches w;
     mtime := mtime w; now := now w;
     samples := obs; suffix := suffix w; win32 := win32 w;
     dispatch := dispatch w; wb_open := wb_open w; save_as := save_as w;
     wb_close := wb_close w; app_quit := app_quit w;
     load := load w; save := save w;
     copy_processed := copy_processed w; mkdir := mkdir w;
     copy_dest := copy_dest w |}.

(** a legacy [.xls] candidate, with the answers of Excel to open, save
    and close *)
Definition with_excel (w : env) (o s c : option exn) : env :=
  {| is_dir := is_dir w; matches := matches w;
     mtime := mtime w; now := now w;
     samples := samples w; suffix := ".xls"; win32 := win32 w;
     dispatch := dispatch w; wb_open := o; save_as := s;
     wb_close := c; app_quit := app_quit w;
     load := load w; save := save w;
     copy_processed := copy_processed w; mkdir := mkdir w;
     copy_dest := copy_dest w |}.

Definition with_copy_dest (w : env) (a : option exn) : env :=
  {| is_dir := is_dir w; matches := matches w;
     mtime := mtime w; now := now w;
     samples := samples w; suffix := suffix w; win32 := win32 w;
     dispatch := dispatch w; wb_open := wb_open w; save_as := save_as w;
     wb_close := wb_close w; app_quit := app_quit w;
     load := load w; save := save w;
     copy_processed := copy_processed w; mkdir := mkdir w;
     copy_dest := a |}.

(** thirteen hours, in microseconds *)
Definition thirteen_hours : Z := Gate.timedelta_hours 13.

(** [calm], last modified thirteen hours ago *)
Definition stale : env := with_clock calm (Ok 0) thirteen_hours.

(** [calm], with metadata that cannot be read *)
Definition unreadable : env := with_clock calm (Raise OSError) 0.

(** a legacy file that Excel cannot open *)
Definition open_fails : env := with_excel calm (Some ComError) None None.

(** an upload that stays empty *)
Definition empty_upload : env := with_samples calm empty_file.

(** a candidate whose publish folder cannot be written *)
Definition publish_fails : env := with_copy_dest calm (Some OSError).

(** a candidate with another extension, let through by a custom pattern *)
Definition text_upload : env :=
  {| is_dir := false; matches := true;
     mtime := Ok 0; now := 0;
     samples := steady;
     suffix := ".TXT"; win32 := true;
     dispatch := None; wb_open := None; save_as := None;
     wb_close := None; app_quit := None;
     load := Ok [sample_sheet]; save := None;
     copy_processed := None; mkdir := None; copy_dest := None |}.

(** a cell with a native hyperlink whose text is a [=HYPERLINK(...)]
    formula with another link *)
Definition linked_formula_sheet : worksheet :=
  {[ (19, 2) := {| value := VStr label_formula;
                   hyperlink := Some {| target := Some "https://sp/r" |} |} ]}.

(** [sample_sheet] after one pass with the defaults *)
Definition sample_sheet_after : worksheet :=
  first_sheet (saved [sample_sheet]
                 (Sheet.transform_workbook [sample_sheet] 19 2 " ### ")).

(** an upload that grows for three samples and then stays at 40 bytes *)
Definition late_settling : nat -> sample :=
  fun i => Size (if (i <? 3)%nat then Z.of_nat i * 10 else 40).

(** a desk with Downloads and a synced library; the user picks the
    library and keeps Downloads *)
Definition office : Config.desk :=
  {| Config.path_exists :=
       fun p => String.eqb p "C:/Users/u/Downloads" || String.eqb p "C:/SP/Lib";
     Config.picked_sharepoint := "C:/SP/Lib";
     Config.other_watch_folder := false;
     Config.picked_watch := "";
     Config.downloads := "C:/Users/u/Downloads";
     Config.write_fails := false |}.

(** the settings of a first run at [office] *)
Definition office_settings : gmap string Config.json :=
  <["separator" := Config.JStr " ### "]>
    (<["col_b" := Config.JNum 2]>
       (<["start_row" := Config.JNum 19]>
          (<["pattern" := Config.JStr "ETSA-TSA-*.xls"]>
             (<["watch_folder" := Config.JStr "C:/Users/u/Downloads"]>
                (<["sharepoint_folder" := Config.JStr "C:/SP/Lib"]> ∅))))).

(** settings of a user who changed the start row and the separator *)
Definition custom_settings : gmap string Config.json :=
  <["separator" := Config.JStr " | "]>
    (<["start_row" := Config.JNum 5]>
       (<["sharepoint_folder" := Config.JStr "C:/SP/Lib"]> ∅)).

(** a desk where the user closes the folder dialog *)
Definition cancelling : Config.desk :=
  {| Config.path_exists := fun _ => true;
     Config.picked_sharepoint := "";
     Config.other_watch_folder := false;
     Config.picked_watch := "";
     Config.downloads := "C:/Users/u/Downloads";
     Config.write_fails := false |}.

End Samples.

(** ** Facts about the string primitives *)

Module PyStrFacts.
Import PyStr.

Lemma startswith_app (s p : string) :
  startswith s p = true <-> exists b, s = p +:+ b.
Proof.
  revert s; induction p as [|a p IH]; intros s; simpl.
  - split; [intros _; exists s; reflexivity | reflexivity].
  - destruct s as [|c s].
    + split; [discriminate | intros [b Hb]; discriminate].
    + destruct (Ascii.eqb_spec c a) as [->|Hne]; simpl.
      * rewrite IH. split; intros [b Hb]; exists b; simpl in *; congruence.
      * split; [discriminate | intros [b Hb]; simpl in Hb; congruence].
Qed.

(** [contains] decides "is a substring of" *)
Lemma contains_spec (p s : string) :
  contains p s = true <-> exists a b, s = a +:+ p +:+ b.
Proof.
  induction s as [|c s IH]; simpl.
  - rewrite orb_false_r, startswith_app. split.
    + intros [b Hb]. exists "", b. exact Hb.
    + intros [a [b Hab]]. destruct a; [exists b; exact Hab | discriminate].
  - rewrite orb_true_iff, startswith_app, IH. split.
    + intros [[b Hb] | [a [b Hab]]].
      * exists "", b. exact Hb.
      * exists (String c a), b. simpl. congruence.
    + intros [a [b Hab]]. destruct a as [|d a]; simpl in Hab.
      * left. exists b. exact Hab.
      * right. exists a, b. congruence.
Qed.

Lemma contains_false (p s : string) :
  contains p s = false <-> ~ exists a b, s = a +:+ p +:+ b.
Proof.
  rewrite <- contains_spec. destruct (contains p s); split; intros H;
    try congruence; try discriminate.
Qed.

Lemma contains_app_r (p a b : string) : contains p (a +:+ p +:+ b) = true.
Proof. apply contains_spec. exists a, b. reflexivity. Qed.

Lemma app_assoc (a b c : string) : (a +:+ b) +:+ c = a +:+ (b +:+ c).
Proof. induction a; simpl; congruence. Qed.

Lemma app_empty_r (a : string) : a +:+ "" = a.
Proof. induction a; simpl; congruence. Qed.

Lemma app_nonempty_r (a b : string) : b <> "" -> a +:+ b <> "".
Proof. destruct a; [trivial | discriminate]. Qed.

Lemma truthy_Some (o : option string) :
  truthy o = true <-> exists u, o = Some u /\ u <> "".
Proof.
  destruct o as [[|c u]|]; simpl; split; try discriminate; try reflexivity.
  - intros [u [Hu Hne]]. congruence.
  - intros _. eexists; split; [reflexivity | discriminate].
  - intros [u [Hu _]]. discriminate.
Qed.

End PyStrFacts.

(** ** Facts about the column transformer *)

Module SheetFacts.
Import PyStr PyStrFacts Sheet Samples.

Implicit Types (sep : string) (col_b start_row r n : Z) (rows : list Z).

Lemma row_step_ok sep col_b (ws : worksheet) n r :
  1 <= r -> 1 <= col_b ->
  row_step sep col_b (ws, n) r =
  Ok (<[(r, col_b) := rewritten sep (cell_at ws r col_b)]> ws,
      n + (if (rewrite_cell sep (cell_at ws r col_b)).2 then 1 else 0)).
Proof.
  intros Hr Hc. unfold row_step, ws_cell, rewritten, cell_at.
  destruct (Z.ltb_spec r 1); [lia|]. destruct (Z.ltb_spec col_b 1); [lia|].
  simpl. destruct (ws !! (r, col_b)) as [x|] eqn:Hx; simpl.
  - destruct (rewrite_cell sep x) as [v [|]]; simpl; do 2 f_equal; lia.
  - destruct (rewrite_cell sep blank) as [v [|]]; simpl;
      rewrite insert_insert_eq; do 2 f_equal; lia.
Qed.

Lemma row_step_raise sep col_b (st : worksheet * Z) r :
  r < 1 \/ col_b < 1 -> row_step sep col_b st r = Raise ValueError.
Proof.
  intros H. destruct st as [ws n]. unfold row_step, ws_cell.
  destruct (Z.ltb_spec r 1); [reflexivity|].
  destruct (Z.ltb_spec col_b 1); [reflexivity|]. lia.
Qed.

Lemma count_changed_ext sep col_b (ws1 ws2 : worksheet) rows :
  (forall r, r ∈ rows -> ws1 !! (r, col_b) = ws2 !! (r, col_b)) ->
  count_changed sep col_b ws1 rows = count_changed sep col_b ws2 rows.
Proof.
  induction rows as [|r rows IH]; intros H; simpl; [reflexivity|].
  unfold cell_at at 1. rewrite (H r) by (left).
  fold (cell_at ws2 r col_b). rewrite IH; [reflexivity|].
  intros r' Hr'. apply H. by right.
Qed.

(** The loop over distinct positive rows: it does not raise, it leaves
    every cell outside the visited ones alone, and each visited cell is
    rewritten from what the cell held before the loop. *)
Lemma for_rows_spec sep col_b rows :
  1 <= col_b -> NoDup rows -> (forall r, r ∈ rows -> 1 <= r) ->
  forall (ws : worksheet) n,
  exists ws' : worksheet,
    for_rows sep col_b rows (ws, n) =
      Ok (ws', n + count_changed sep col_b ws rows)
    /\ (forall r c, c <> col_b \/ r ∉ rows -> ws' !! (r, c) = ws !! (r, c))
    /\ (forall r, r ∈ rows ->
          ws' !! (r, col_b) = Some (rewritten sep (cell_at ws r col_b))).
Proof.
  intros Hc. induction rows as [|r rows IH]; intros Hnd Hpos ws n.
  - exists ws. simpl. split; [f_equal; f_equal; lia|].
    split; [reflexivity|]. intros r Hr. by apply elem_of_nil in Hr.
  - apply NoDup_cons in Hnd as [Hr Hnd].
    assert (Hr1 : 1 <= r) by (apply Hpos; left).
    cbn [for_rows count_changed]. rewrite row_step_ok by assumption.
    set (ws1 := <[(r, col_b) := rewritten sep (cell_at ws r col_b)]> ws).
    destruct (IH Hnd (fun r' H' => Hpos r' (list_elem_of_further _ _ _ H')) ws1
                (n + (if (rewrite_cell sep (cell_at ws r col_b)).2
                      then 1 else 0)))
      as (ws' & Hrun & Hframe & Hrows).
    exists ws'. split; [|split].
    + rewrite Hrun. do 2 f_equal.
      rewrite (count_changed_ext sep col_b ws1 ws rows); [lia|].
      intros r' Hr'. unfold ws1. rewrite lookup_insert_ne; [reflexivity|].
      intros [= ->]. contradiction.
    + intros r' c H. rewrite Hframe.
      * unfold ws1. rewrite lookup_insert_ne; [reflexivity|].
        intros [= -> ->]. destruct H as [H|H]; [congruence|].
        apply H. left.
      * destruct H as [H|H]; [by left|]. right. intros H'. apply H. by right.
    + intros r' Hr'. apply elem_of_cons in Hr' as [->|Hr'].
      * rewrite Hframe by (by right). unfold ws1. apply lookup_insert_eq.
      * rewrite (Hrows r' Hr'). do 2 f_equal. unfold cell_at, ws1.
        rewrite lookup_insert_ne; [reflexivity|].
        intros [= ->]. contradiction.
Qed.

Lemma for_rows_raise sep col_b r rows (st : worksheet * Z) :
  r < 1 \/ col_b < 1 -> for_rows sep col_b (r :: rows) st = Raise ValueError.
Proof. intros H. cbn [for_rows]. by rewrite row_step_raise. Qed.

Lemma elem_of_rows (start_row max_row r : Z) :
  r ∈ seqZ start_row (max_row + 1 - start_row) <-> start_row <= r <= max_row.
Proof. rewrite elem_of_seqZ. lia. Qed.

(** [transform_workbook] on a workbook with a first sheet and indices
    from 1: the call returns, and the saved sheet is the input sheet with
    the target column rewritten on the rows from [start_row] to
    [max_row]. *)
Lemma transform_workbook_spec (ws : worksheet) (others : workbook)
    start_row col_b sep :
  1 <= start_row -> 1 <= col_b ->
  exists ws' : worksheet,
    transform_workbook (ws :: others) start_row col_b sep =
      Ok (ws' :: others,
          count_changed sep col_b ws
            (seqZ start_row (max_row ws + 1 - start_row)))
    /\ (forall r c, c <> col_b \/ ~ (start_row <= r <= max_row ws) ->
          ws' !! (r, c) = ws !! (r, c))
    /\ (forall r, start_row <= r <= max_row ws ->
          ws' !! (r, col_b) = Some (rewritten sep (cell_at ws r col_b))).
Proof.
  intros Hs Hc. unfold transform_workbook.
  destruct (Z.ltb_spec (max_row ws) start_row) as [Hlt|Hge].
  - exists ws. replace (max_row ws + 1 - start_row) with
      (- (start_row - max_row ws - 1)) by lia.
    rewrite seqZ_nil by lia. simpl. split; [reflexivity|].
    split; [reflexivity|]. intros r Hr. lia.
  - destruct (for_rows_spec sep col_b
                (seqZ start_row (max_row ws + 1 - start_row)) Hc
                (NoDup_seqZ _ _)) with (ws := ws) (n := 0)
      as (ws' & Hrun & Hframe & Hrows).
    { intros r Hr. apply elem_of_rows in Hr. lia. }
    exists ws'. rewrite Hrun. split; [reflexivity|]. split.
    + intros r c H. apply Hframe. rewrite elem_of_rows. exact H.
    + intros r Hr. apply Hrows. by apply elem_of_rows.
Qed.

Lemma match_lit_nonempty (a : ascii) (lit s m r : string) :
  UrlRe.match_lit (String a lit) s = Some (m, r) -> m <> "".
Proof.
  simpl. destruct s as [|c s]; [discriminate|].
  destruct (UrlRe.ci_eqb a c); [|discriminate].
  destruct (UrlRe.match_lit lit s) as [[m' r']|]; [|discriminate].
  intros [= <- _]. discriminate.
Qed.

Lemma app_nonempty_l (a b : string) : a <> "" -> a +:+ b <> "".
Proof. destruct a; [congruence | discriminate]. Qed.

Lemma match_at_nonempty (s m : string) : UrlRe.match_at s = Some m -> m <> "".
Proof.
  unfold UrlRe.match_at.
  destruct (UrlRe.match_lit "http" s) as [[m0 r]|] eqn:Hlit; [|discriminate].
  apply match_lit_nonempty in Hlit.
  assert (Hw : forall o, option_map (fun t => m0 +:+ t) o = Some m -> m <> "").
  { intros [t|]; simpl; [|discriminate]. intros [= <-].
    by apply app_nonempty_l. }
  destruct r as [|c r']; [apply Hw|].
  destruct (UrlRe.ci_eqb "s" c); [|apply Hw].
  destruct (UrlRe.match_tail r') as [t|]; [|apply Hw].
  intros [= <-]. by apply app_nonempty_l.
Qed.

(** a match of [https?://\S+] is never empty *)
Lemma search_nonempty (s m : string) : UrlRe.search s = Some m -> m <> "".
Proof.
  induction s as [|c s IH]; cbn [UrlRe.search].
  - discriminate.
  - destruct (UrlRe.match_at (String c s)) eqn:H.
    + intros [= <-]. by apply match_at_nonempty in H.
    + exact IH.
Qed.

(** the [url] of the loop body is [None] or a non-empty string *)
Lemma or_bare_url_truthy (o : option string) (v u : string) :
  o = None \/ truthy o = true -> or_bare_url o v = Some u -> u <> "".
Proof.
  unfold or_bare_url. intros [-> | Ho].
  - simpl. destruct (UrlRe.search v) eqn:Hs; intros [= <-].
    by apply search_nonempty in Hs.
  - rewrite Ho. simpl. intros ->.
    apply truthy_Some in Ho as (u' & [= <-] & Hne). exact Hne.
Qed.

Lemma link_and_text_truthy (c : cell) (val : string) :
  (link_and_text c val).1 = None \/ truthy (link_and_text c val).1 = true.
Proof.
  unfold link_and_text.
  destruct (truthy (hyperlink_target c)) eqn:Hh; [by right|].
  destruct (startswith val "="); [|by left].
  destruct (Formula.parse_hyperlink_formula val) as [pu pt].
  destruct (truthy pu) eqn:Hpu; [by right | by left].
Qed.

(** the [url] of the loop body is [None] or a non-empty string *)
Lemma text_and_url_truthy (c : cell) (t u : string) :
  text_and_url c = (t, Some u) -> u <> "".
Proof.
  unfold text_and_url.
  pose proof (link_and_text_truthy c (cell_text c)) as H.
  destruct (link_and_text c (cell_text c)) as [url val]. simpl in H.
  intros [= _ Hu]. eapply or_bare_url_truthy; eassumption.
Qed.

Lemma text_and_url_None (c : cell) (t : string) :
  text_and_url c = (t, None) -> t = cell_text c.
Proof.
  unfold text_and_url, link_and_text, or_bare_url.
  destruct (truthy (hyperlink_target c)) eqn:Hh.
  - rewrite Hh. simpl. intros [= _ H]. rewrite H in Hh. discriminate.
  - destruct (startswith (cell_text c) "=").
    + destruct (Formula.parse_hyperlink_formula (cell_text c)) as [pu pt].
      destruct (truthy pu) eqn:Hpu.
      * rewrite Hpu. simpl. intros [= _ H]. rewrite H in Hpu. discriminate.
      * intros [= <- _]. reflexivity.
    + intros [= <- _]. reflexivity.
Qed.

Lemma rewrite_cell_annotated sep (c : cell) (t u : string) :
  text_and_url c = (t, Some u) -> contains sep t = false ->
  rewrite_cell sep c = (VStr (t +:+ sep +:+ u), true).
Proof.
  intros Htu Hsep. unfold rewrite_cell, annotate. rewrite Htu, Hsep.
  apply text_and_url_truthy in Htu.
  destruct u; [congruence | reflexivity].
Qed.

Lemma rewrite_cell_plain sep (c : cell) (t : string) (url : option string) :
  text_and_url c = (t, url) -> url = None \/ contains sep t = true ->
  rewrite_cell sep c = (VStr t, false).
Proof.
  intros Htu H. unfold rewrite_cell, annotate. rewrite Htu.
  destruct H as [-> | ->]; [reflexivity|]. by rewrite andb_false_r.
Qed.

(** whatever the cell holds, the loop body writes a [str] *)
Lemma rewrite_cell_str sep (c : cell) : exists s, (rewrite_cell sep c).1 = VStr s.
Proof.
  unfold rewrite_cell, annotate. destruct (text_and_url c) as [t url].
  destruct (truthy url && negb (contains sep t)); eexists; reflexivity.
Qed.

Lemma value_at_rewritten (ws ws' : worksheet) sep r c :
  ws' !! (r, c) = Some (rewritten sep (cell_at ws r c)) ->
  value_at ws' r c = (rewrite_cell sep (cell_at ws r c)).1.
Proof. intros H. unfold value_at, cell_at at 1. by rewrite H. Qed.

(** C1. For every cell text [t] and every discoverable URL [u] such that
    the separator is not a substring of [t], one pass of the column
    transform over that cell sets the cell to exactly
    [t + separator + u]; if no URL is found, or the separator already
    occurs in [t], the text [t] is written back without the
    annotation. *)
Theorem transform_sets_text_sep_url (ws : worksheet) (others : workbook)
    start_row col_b sep r (t : string) (url : option string) :
  1 <= start_row -> 1 <= col_b -> start_row <= r <= max_row ws ->
  text_and_url (cell_at ws r col_b) = (t, url) ->
  exists (ws' : worksheet) n,
    transform_workbook (ws :: others) start_row col_b sep
      = Ok (ws' :: others, n)
    /\ (forall u, url = Some u ->
          ~ (exists a b, t = a +:+ sep +:+ b) ->
          value_at ws' r col_b = VStr (t +:+ sep +:+ u))
    /\ (url = None \/ (exists a b, t = a +:+ sep +:+ b) ->
          value_at ws' r col_b = VStr t).
Proof.
  intros Hs Hc Hr Htu.
  destruct (transform_workbook_spec ws others start_row col_b sep Hs Hc)
    as (ws' & Hrun & _ & Hrows).
  exists ws', (count_changed sep col_b ws
                 (seqZ start_row (max_row ws + 1 - start_row))).
  split; [exact Hrun|].
  rewrite (value_at_rewritten ws ws' sep r col_b (Hrows r Hr)). split.
  - intros u -> Hno. apply contains_false in Hno.
    by rewrite (rewrite_cell_annotated sep _ t u Htu Hno).
  - intros H. rewrite (rewrite_cell_plain sep _ t url Htu); [reflexivity|].
    destruct H as [H|H]; [by left | right]. by apply contains_spec.
Qed.

Lemma transform_workbook_skips (ws : worksheet) (others : workbook)
    start_row col_b sep :
  max_row ws < start_row ->
  transform_workbook (ws :: others) start_row col_b sep = Ok (ws :: others, 0).
Proof.
  intros H. unfold transform_workbook.
  destruct (Z.ltb_spec (max_row ws) start_row); [reflexivity | lia].
Qed.

Lemma transform_workbook_raises (ws : worksheet) (others : workbook)
    start_row col_b sep :
  start_row <= max_row ws -> start_row < 1 \/ col_b < 1 ->
  transform_workbook (ws :: others) start_row col_b sep = Raise ValueError.
Proof.
  intros H Hbad. unfold transform_workbook.
  destruct (Z.ltb_spec (max_row ws) start_row); [lia|].
  rewrite seqZ_cons by lia. by rewrite for_rows_raise.
Qed.

(** the outcome of [transform_workbook] on any workbook and any
    arguments: it raises, or it saves a workbook that differs from the
    input only in the first sheet, in the target column, on the rows
    from [start_row] to [max_row] *)
Lemma transform_workbook_cases (wb : workbook) start_row col_b sep :
  (exists e, transform_workbook wb start_row col_b sep = Raise e)
  \/ (exists (ws ws' : worksheet) (others : workbook) n,
        wb = ws :: others
        /\ transform_workbook wb start_row col_b sep = Ok (ws' :: others, n)
        /\ (forall r c, c <> col_b \/ ~ (start_row <= r <= max_row ws) ->
              ws' !! (r, c) = ws !! (r, c))).
Proof.
  destruct wb as [|ws others]; [left; by exists IndexError|].
  destruct (Z.lt_ge_cases (max_row ws) start_row) as [Hlt|Hge].
  - right. exists ws, ws, others, 0. split; [reflexivity|].
    split; [by apply transform_workbook_skips | reflexivity].
  - destruct (Z.le_gt_cases 1 start_row) as [Hs|Hs];
      [destruct (Z.le_gt_cases 1 col_b) as [Hc|Hc]|].
    + right.
      destruct (transform_workbook_spec ws others start_row col_b sep Hs Hc)
        as (ws' & Hrun & Hframe & _).
      by exists ws, ws', others, (count_changed sep col_b ws
                                 (seqZ start_row (max_row ws + 1 - start_row))).
    + left. exists ValueError. apply transform_workbook_raises; [lia | by right].
    + left. exists ValueError. apply transform_workbook_raises; [lia | left; lia].
Qed.

Lemma sample_sheet_max_row : max_row sample_sheet = 21.
Proof. vm_compute. reflexivity. Qed.

Lemma transform_sets_text_sep_url_witness :
  exists (ws' : worksheet) n,
    transform_workbook [sample_sheet] 19 2 " ### " = Ok ([ws'], n)
    /\ value_at ws' 19 2
       = VStr "see https://x/y for details ### https://x/y".
Proof.
  destruct (transform_sets_text_sep_url sample_sheet [] 19 2 " ### " 19
              "see https://x/y for details" (Some "https://x/y"))
    as (ws' & n & Hrun & Hyes & _).
  - lia.
  - lia.
  - rewrite sample_sheet_max_row. lia.
  - vm_compute. reflexivity.
  - exists ws', n. split; [exact Hrun|].
    apply (Hyes "https://x/y"); [reflexivity|].
    apply contains_false. vm_compute. reflexivity.
Defined.

(** C5. For every sheet size, [transform_workbook] never reads or writes
    a cell in a row strictly before [start_row] or in a column other
    than the target column: after a pass all such cells (and all other
    sheets) are as before, and what the pass does (exception, change
    count, rewritten cells) is the same on two sheets that have the same
    [max_row] and the same target-column cells from [start_row] on. *)
Theorem transform_touches_only_target_column :
  (forall (wb : workbook) start_row col_b sep r c,
      r < start_row \/ c <> col_b ->
      first_sheet (saved wb (transform_workbook wb start_row col_b sep))
        !! (r, c) = first_sheet wb !! (r, c))
  /\ (forall (wb : workbook) start_row col_b sep,
        tail (saved wb (transform_workbook wb start_row col_b sep)) = tail wb)
  /\ (forall (ws1 ws2 : worksheet) (others1 others2 : workbook)
             start_row col_b sep,
        max_row ws1 = max_row ws2 ->
        (forall r, start_row <= r -> ws1 !! (r, col_b) = ws2 !! (r, col_b)) ->
        match transform_workbook (ws1 :: others1) start_row col_b sep,
              transform_workbook (ws2 :: others2) start_row col_b sep with
        | Ok (wb1, n1), Ok (wb2, n2) =>
            n1 = n2 /\
            forall r, start_row <= r ->
              first_sheet wb1 !! (r, col_b) = first_sheet wb2 !! (r, col_b)
        | Raise e1, Raise e2 => e1 = e2
        | _, _ => False
        end).
Proof.
  split; [|split].
  - intros wb start_row col_b sep r c H.
    destruct (transform_workbook_cases wb start_row col_b sep)
      as [[e ->] | (ws & ws' & others & n & -> & -> & Hframe)];
      [reflexivity|].
    simpl. apply Hframe. destruct H as [H|H]; [right; lia | by left].
  - intros wb start_row col_b sep.
    destruct (transform_workbook_cases wb start_row col_b sep)
      as [[e ->] | (ws & ws' & others & n & -> & -> & _)]; reflexivity.
  - intros ws1 ws2 others1 others2 start_row col_b sep Hmax Hagree.
    destruct (Z.lt_ge_cases (max_row ws2) start_row) as [Hlt|Hge].
    { rewrite !transform_workbook_skips by lia.
      split; [reflexivity | exact Hagree]. }
    destruct (Z.le_gt_cases 1 start_row) as [Hs|Hs];
      [destruct (Z.le_gt_cases 1 col_b) as [Hc|Hc]|].
    + destruct (transform_workbook_spec ws1 others1 start_row col_b sep Hs Hc)
        as (w1 & -> & Hf1 & Hr1).
      destruct (transform_workbook_spec ws2 others2 start_row col_b sep Hs Hc)
        as (w2 & -> & Hf2 & Hr2).
      rewrite Hmax in *. split.
      * apply count_changed_ext. intros r Hr. apply elem_of_rows in Hr.
        apply Hagree. lia.
      * intros r Hr. simpl.
        destruct (Z.le_gt_cases r (max_row ws2)) as [Hin|Hout].
        -- rewrite Hr1, Hr2 by lia. unfold cell_at.
           by rewrite (Hagree r Hr).
        -- rewrite Hf1, Hf2 by (right; lia). by apply Hagree.
    + rewrite !transform_workbook_raises by (lia || by right). reflexivity.
    + rewrite !transform_workbook_raises by (lia || (left; lia)). reflexivity.
Qed.

Lemma transform_touches_only_target_column_witness :
  first_sheet (saved [sample_sheet]
                 (transform_workbook [sample_sheet] 19 2 " ### ")) !! (3, 2)
    = sample_sheet !! (3, 2)
  /\ match transform_workbook [sample_sheet] 19 2 " ### ",
           transform_workbook [sample_sheet_variant] 19 2 " ### " with
     | Ok (wb1, n1), Ok (wb2, n2) =>
         n1 = n2 /\
         forall r, 19 <= r ->
           first_sheet wb1 !! (r, 2) = first_sheet wb2 !! (r, 2)
     | Raise e1, Raise e2 => e1 = e2
     | _, _ => False
     end.
Proof.
  destruct transform_touches_only_target_column as (Hwrite & _ & Hread).
  split.
  - apply Hwrite. left. lia.
  - apply (Hread sample_sheet sample_sheet_variant [] [] 19 2 " ### ").
    + vm_compute. reflexivity.
    + intros r Hr. unfold sample_sheet_variant.
      rewrite !lookup_insert_ne; [reflexivity | |]; intros [= ]; lia.
Defined.

(** C9. For every row from [start_row] to the last used row,
    [transform_workbook] writes the cell's value back as a string: a
    target-column cell holding a non-string value (a number, a date)
    with no discoverable URL is replaced by its string representation,
    so a pass does not preserve cell value types in the target
    column. *)
Theorem transform_writes_back_strings (ws : worksheet) (others : workbook)
    start_row col_b sep :
  1 <= start_row -> 1 <= col_b ->
  exists (ws' : worksheet) n,
    transform_workbook (ws :: others) start_row col_b sep
      = Ok (ws' :: others, n)
    /\ (forall r, start_row <= r <= max_row ws ->
          exists s, value_at ws' r col_b = VStr s)
    /\ (forall r v, start_row <= r <= max_row ws ->
          value_at ws r col_b = v ->
          v <> VNone -> (forall s, v <> VStr s) ->
          (text_and_url (cell_at ws r col_b)).2 = None ->
          value_at ws' r col_b = VStr (py_str v)
          /\ value_at ws' r col_b <> v).
Proof.
  intros Hs Hc.
  destruct (transform_workbook_spec ws others start_row col_b sep Hs Hc)
    as (ws' & Hrun & _ & Hrows).
  exists ws', (count_changed sep col_b ws
                 (seqZ start_row (max_row ws + 1 - start_row))).
  split; [exact Hrun|]. split.
  - intros r Hr. rewrite (value_at_rewritten ws ws' sep r col_b (Hrows r Hr)).
    apply rewrite_cell_str.
  - intros r v Hr Hv Hnone Hstr Hurl.
    rewrite (value_at_rewritten ws ws' sep r col_b (Hrows r Hr)).
    destruct (text_and_url (cell_at ws r col_b)) as [t url] eqn:Htu.
    simpl in Hurl. subst url.
    rewrite (rewrite_cell_plain sep _ t None Htu) by (by left). simpl.
    apply text_and_url_None in Htu. subst t.
    unfold value_at in Hv. unfold cell_text. rewrite Hv.
    split; [|apply not_eq_sym, Hstr]. by destruct v.
Qed.

Lemma transform_writes_back_strings_witness :
  exists (ws' : worksheet) n,
    transform_workbook [sample_sheet] 19 2 " ### " = Ok ([ws'], n)
    /\ value_at sample_sheet 20 2 = VInt 42
    /\ value_at ws' 20 2 = VStr "42".
Proof.
  destruct (transform_writes_back_strings sample_sheet [] 19 2 " ### ")
    as (ws' & n & Hrun & _ & Hnum); [lia | lia |].
  exists ws', n. split; [exact Hrun|]. split; [reflexivity|].
  apply (Hnum 20 (VInt 42)).
  - rewrite sample_sheet_max_row. lia.
  - reflexivity.
  - discriminate.
  - discriminate.
  - vm_compute. reflexivity.
Defined.

End SheetFacts.

(** ** Facts about [parse_hyperlink_formula] *)

Module FormulaFacts.
Import PyStr PyStrFacts Formula Sheet Samples.

Lemma last_char_app (a b : string) :
  b <> "" -> last_char (a +:+ b) = last_char b.
Proof.
  intros Hb. induction a as [|c a IH]; [reflexivity|].
  simpl. rewrite IH. destruct (a +:+ b) eqn:E; [|reflexivity].
  destruct a; simpl in E; [congruence | discriminate].
Qed.

Lemma last_char_quoted (s : string) : last_char (quoted s) = Some dquote.
Proof.
  unfold quoted. change (String dquote (s +:+ String dquote ""))
    with (String dquote s +:+ String dquote "").
  by rewrite last_char_app.
Qed.

Lemma rstrip_by_cons (p : ascii -> bool) (c : ascii) (s : string) :
  rstrip_by p (String c s)
  = match rstrip_by p s with
    | EmptyString => if p c then EmptyString else String c EmptyString
    | r => String c r
    end.
Proof. reflexivity. Qed.

(** stripping at the right end stops at a character that is kept *)
Lemma rstrip_by_kept (p : ascii -> bool) (s : string) (c : ascii) :
  last_char s = Some c -> p c = false -> rstrip_by p s = s.
Proof.
  induction s as [|a s IH]; [discriminate|]. intros Hl Hp.
  destruct s as [|b s].
  - simpl in *. injection Hl as ->. by rewrite Hp.
  - change (last_char (String a (String b s))) with (last_char (String b s)) in Hl.
    rewrite rstrip_by_cons, (IH Hl Hp). reflexivity.
Qed.

Lemma rstrip_by_one (p : ascii -> bool) (s : string) (c k : ascii) :
  last_char s = Some k -> p k = false -> p c = true ->
  rstrip_by p (s +:+ String c "") = s.
Proof.
  intros Hl Hk Hc. induction s as [|a s IH]; [discriminate|].
  destruct s as [|b s].
  - simpl in *. injection Hl as ->. by rewrite Hc, Hk.
  - change (last_char (String a (String b s))) with (last_char (String b s)) in Hl.
    change (String a (String b s) +:+ String c "")
      with (String a (String b s +:+ String c "")).
    rewrite rstrip_by_cons, (IH Hl). reflexivity.
Qed.

Lemma lstrip_spaces (pad s : string) :
  all_chars is_space pad = true -> lstrip (pad +:+ s) = lstrip s.
Proof.
  induction pad as [|c pad IH]; [reflexivity|]. simpl.
  intros [Hc Hpad]%andb_true_iff. rewrite Hc. by apply IH.
Qed.

Lemma strip_quoted (s : string) : strip (quoted s) = quoted s.
Proof.
  unfold strip, rstrip.
  rewrite (rstrip_by_kept _ _ dquote (last_char_quoted s)) by reflexivity.
  reflexivity.
Qed.

Lemma strip_padded_quoted (pad s : string) :
  all_chars is_space pad = true -> strip (pad +:+ quoted s) = quoted s.
Proof.
  intros Hpad. unfold strip, rstrip.
  rewrite (rstrip_by_kept _ _ dquote);
    [| rewrite last_char_app; [apply last_char_quoted | discriminate]
     | reflexivity].
  by rewrite lstrip_spaces.
Qed.

Lemma drop_last_one (s : string) (c : ascii) :
  drop_last (s +:+ String c "") = s.
Proof.
  induction s as [|a s IH]; [reflexivity|]. simpl. rewrite IH.
  destruct (s +:+ String c "") eqn:E; [|reflexivity].
  destruct s; discriminate.
Qed.

Lemma clean_quoted (s : string) : clean (quoted s) = s.
Proof.
  unfold clean, endswith_char. rewrite last_char_quoted. simpl.
  unfold slice_1_m1. simpl. apply drop_last_one.
Qed.

(** inside quotes, the scan keeps every character up to the next quote *)
Lemma scan_in_quotes (s : string) :
  all_chars not_dquote s = true ->
  forall buf parts rest,
    scan true buf parts (s +:+ rest) = scan true (buf +:+ s) parts rest.
Proof.
  induction s as [|c s IH]; intros Hs buf parts rest.
  - by rewrite app_empty_r.
  - simpl in Hs. apply andb_true_iff in Hs as [Hc Hs].
    unfold not_dquote in Hc. apply negb_true_iff in Hc.
    simpl. rewrite Hc. simpl. rewrite (IH Hs).
    by rewrite app_assoc.
Qed.

Lemma scan_quoted (s : string) :
  all_chars not_dquote s = true ->
  forall buf parts rest,
    scan false buf parts (quoted s +:+ rest)
    = scan false (buf +:+ quoted s) parts rest.
Proof.
  intros Hs buf parts rest. unfold quoted.
  change (String dquote (s +:+ String dquote "") +:+ rest)
    with (String dquote ((s +:+ String dquote "") +:+ rest)).
  rewrite app_assoc. cbn [scan]. simpl (Ascii.eqb dquote dquote).
  cbv iota. rewrite (scan_in_quotes s Hs). simpl (negb false).
  change (String dquote "" +:+ rest) with (String dquote rest).
  cbn [scan]. simpl (Ascii.eqb dquote dquote). cbv iota. simpl (negb true).
  f_equal. rewrite !app_assoc. reflexivity.
Qed.

Lemma space_is_plain (c : ascii) :
  is_space c = true ->
  Ascii.eqb c dquote = false /\ Ascii.eqb c "," = false
  /\ Ascii.eqb c ";" = false.
Proof.
  destruct c as [[] [] [] [] [] [] [] []]; vm_compute; intros H;
    try discriminate H; repeat split.
Qed.

(** outside quotes, blanks are kept in the current argument *)
Lemma scan_spaces (pad : string) :
  all_chars is_space pad = true ->
  forall buf parts rest,
    scan false buf parts (pad +:+ rest)
    = scan false (buf +:+ pad) parts rest.
Proof.
  induction pad as [|c pad IH]; intros Hpad buf parts rest.
  - by rewrite app_empty_r.
  - simpl in Hpad. apply andb_true_iff in Hpad as [Hc Hpad].
    destruct (space_is_plain c Hc) as (Hq & Hcomma & Hsemi).
    simpl. rewrite Hq, Hcomma, Hsemi. simpl. rewrite (IH Hpad).
    by rewrite app_assoc.
Qed.

(** the scan of two quoted arguments *)
Lemma scan_two_arguments (a1 a2 pad : string) (d : ascii) :
  all_chars not_dquote a1 = true -> all_chars not_dquote a2 = true ->
  all_chars is_space pad = true -> d = ","%char \/ d = ";"%char ->
  scan false "" [] (two_arguments a1 d pad a2)
  = (pad +:+ quoted a2, [quoted a1]).
Proof.
  intros H1 H2 Hpad Hd. unfold two_arguments.
  rewrite (scan_quoted a1 H1).
  change (String d pad +:+ quoted a2) with (String d (pad +:+ quoted a2)).
  assert (Hstep : forall buf parts rest,
             scan false buf parts (String d rest)
             = scan false "" (parts ++ [strip buf])%list rest).
  { intros. destruct Hd as [-> | ->]; reflexivity. }
  rewrite Hstep. rewrite (scan_spaces pad Hpad).
  rewrite <- (app_empty_r (quoted a2)) at 1.
  rewrite (scan_quoted a2 H2). simpl. by rewrite strip_quoted.
Qed.

Lemma strip_hyperlink_formula (args : string) :
  strip (hyperlink_formula args) = hyperlink_formula args.
Proof.
  unfold strip, rstrip, hyperlink_formula.
  rewrite (rstrip_by_kept _ _ ")"%char); [reflexivity | | reflexivity].
  rewrite !last_char_app; try reflexivity; try discriminate.
  by apply app_nonempty_r.
Qed.

Lemma upper_hyperlink_formula (args : string) :
  startswith (upper (hyperlink_formula args)) "=HYPERLINK(" = true.
Proof. reflexivity. Qed.

Lemma inside_hyperlink_formula (args : string) :
  drop (Z.to_nat (find_char "(" (hyperlink_formula args) + 1))
    (hyperlink_formula args) = args +:+ ")".
Proof. reflexivity. Qed.

Lemma last_char_two_arguments (a1 a2 pad : string) (d : ascii) :
  last_char (two_arguments a1 d pad a2) = Some dquote.
Proof.
  unfold two_arguments. rewrite !last_char_app; try discriminate.
  apply last_char_quoted.
Qed.

(** [parse_hyperlink_formula] on a call with two quoted arguments: the
    separators inside the quotes do not split, the quotes are dropped,
    the first argument is the url and the second the text *)
Lemma parse_two_arguments (u l pad : string) (d : ascii) :
  u <> "" -> l <> "" ->
  all_chars not_dquote u = true -> all_chars not_dquote l = true ->
  all_chars is_space pad = true -> d = ","%char \/ d = ";"%char ->
  parse_hyperlink_formula (hyperlink_formula (two_arguments u d pad l))
  = (Some u, Some l).
Proof.
  intros Hu Hl Hqu Hql Hpad Hd. unfold parse_hyperlink_formula.
  rewrite strip_hyperlink_formula, upper_hyperlink_formula,
    inside_hyperlink_formula.
  cbn [negb]. unfold rstrip_char.
  rewrite (rstrip_by_one _ _ _ dquote (last_char_two_arguments u l pad d))
    by reflexivity.
  rewrite (scan_two_arguments u l pad d Hqu Hql Hpad Hd).
  assert (Hbuf : pad +:+ quoted l <> "") by (destruct pad; discriminate).
  destruct (pad +:+ quoted l) as [|b buf] eqn:Ebuf; [congruence|].
  rewrite <- Ebuf. cbn [app]. rewrite (strip_padded_quoted pad l Hpad).
  rewrite !clean_quoted.
  destruct u; [congruence|]. destruct l; [congruence|]. reflexivity.
Qed.

(** the loop body on a cell that holds such a formula and has no
    native hyperlink *)
Lemma text_and_url_two_arguments (c : cell) (u l pad : string) (d : ascii) :
  u <> "" -> l <> "" ->
  all_chars not_dquote u = true -> all_chars not_dquote l = true ->
  all_chars is_space pad = true -> d = ","%char \/ d = ";"%char ->
  value c = VStr (hyperlink_formula (two_arguments u d pad l)) ->
  hyperlink c = None ->
  text_and_url c = (l, Some u).
Proof.
  intros Hu Hl Hqu Hql Hpad Hd Hv Hh.
  unfold text_and_url, link_and_text, hyperlink_target, cell_text.
  rewrite Hh, Hv. cbn [truthy py_str].
  change (startswith (hyperlink_formula (two_arguments u d pad l)) "=")
    with true. cbv iota.
  rewrite (parse_two_arguments u l pad d Hu Hl Hqu Hql Hpad Hd).
  unfold or_bare_url.
  destruct u; [congruence|]. destruct l; [congruence|]. reflexivity.
Qed.

(** C6. For a cell whose value is a hyperlink-construction formula with
    two arguments, the transform parses the argument list respecting
    quoted-string boundaries (commas and semicolons inside quotes are
    not separators), strips the surrounding quotes, takes the first
    argument as the URL and the second as the replacement display text;
    a cell with such a formula and no native hyperlink annotation
    becomes label + separator + url (the separator not occurring in the
    label), in particular for [=HYPERLINK("https://x/y", "Label")]. *)
Theorem hyperlink_formula_cell_becomes_label_sep_url
    (ws : worksheet) (others : workbook) (start_row col_b r : Z)
    (sep u l pad : string) (d : ascii) (c : cell) :
  1 <= start_row -> 1 <= col_b -> start_row <= r <= max_row ws ->
  u <> "" -> l <> "" ->
  all_chars not_dquote u = true -> all_chars not_dquote l = true ->
  all_chars is_space pad = true -> d = ","%char \/ d = ";"%char ->
  ws !! (r, col_b) = Some c ->
  value c = VStr (hyperlink_formula (two_arguments u d pad l)) ->
  hyperlink c = None ->
  ~ (exists a b, l = a +:+ sep +:+ b) ->
  parse_hyperlink_formula (hyperlink_formula (two_arguments u d pad l))
    = (Some u, Some l)
  /\ exists (ws' : worksheet) n,
       transform_workbook (ws :: others) start_row col_b sep
         = Ok (ws' :: others, n)
       /\ value_at ws' r col_b = VStr (l +:+ sep +:+ u).
Proof.
  intros Hs Hc Hr Hu Hl Hqu Hql Hpad Hd Hcell Hv Hh Hsep.
  split; [by apply parse_two_arguments|].
  destruct (SheetFacts.transform_workbook_spec ws others start_row col_b sep
              Hs Hc) as (ws' & Hrun & _ & Hrows).
  exists ws', (count_changed sep col_b ws
                 (seqZ start_row (max_row ws + 1 - start_row))).
  split; [exact Hrun|].
  rewrite (SheetFacts.value_at_rewritten ws ws' sep r col_b (Hrows r Hr)).
  assert (Htu : text_and_url (cell_at ws r col_b) = (l, Some u)).
  { unfold cell_at. rewrite Hcell. simpl.
    by apply (text_and_url_two_arguments c u l pad d). }
  apply contains_false in Hsep.
  by rewrite (SheetFacts.rewrite_cell_annotated sep _ l u Htu Hsep).
Qed.

Lemma hyperlink_formula_cell_becomes_label_sep_url_witness :
  label_formula
    = "=HYPERLINK(" +:+ quoted "https://x/y" +:+ ", " +:+ quoted "Label" +:+ ")"
  /\ parse_hyperlink_formula label_formula = (Some "https://x/y", Some "Label")
  /\ exists (ws' : worksheet) n,
       transform_workbook [label_sheet] 19 2 " ### " = Ok ([ws'], n)
       /\ value_at ws' 19 2 = VStr "Label ### https://x/y".
Proof.
  split; [reflexivity|].
  apply (hyperlink_formula_cell_becomes_label_sep_url label_sheet [] 19 2 19
           " ### " "https://x/y" "Label" " " ","
           {| value := VStr label_formula; hyperlink := None |}).
  - lia.
  - lia.
  - vm_compute. split; discriminate.
  - discriminate.
  - discriminate.
  - reflexivity.
  - reflexivity.
  - reflexivity.
  - left. reflexivity.
  - reflexivity.
  - reflexivity.
  - reflexivity.
  - apply contains_false. vm_compute. reflexivity.
Defined.

End FormulaFacts.

(** ** Facts about the readiness gate *)

Module GateFacts.
Import Gate Samples.
Local Open Scope Z_scope.

Implicit Types (fuel k : nat) (last same : Z).

Section Loop.

(** one file, seen through its samples, and the window asked for *)
Variable obs : nat -> sample.
Variable stable_secs : Z.

Lemma window_start : window obs (-1) 0 0.
Proof. split; [lia|]. left. repeat split; lia. Qed.

Lemma window_same last same k :
  window obs last same k -> obs k = Size last -> 0 < last ->
  window obs last (same + 1) (S k).
Proof.
  intros [H0 [(-> & -> & Hl) | (Hk & Hwin & Hpos)]] Hobs Hlast; [lia|].
  split; [lia|]. right. split; [lia|]. split; [|lia].
  intros i Hi. destruct (decide (i = k)) as [->|Hne]; [exact Hobs|].
  apply Hwin. lia.
Qed.

Lemma window_reset last same k size :
  window obs last same k -> obs k = Size size ->
  window obs size 0 (S k).
Proof.
  intros _ Hobs. split; [lia|]. right. split; [lia|]. split; [|lia].
  intros i Hi. assert (i = k) as -> by lia. exact Hobs.
Qed.

(** the round that looks for a missing file rejects it *)
Lemma stable_loop_round_gone fuel last same k :
  same < stable_secs -> obs k = Gone ->
  stable_loop (S fuel) obs stable_secs last same k = Returned false k.
Proof.
  intros Hlt Hgone. cbn [stable_loop].
  destruct (Z.ltb_spec same stable_secs); [|lia]. by rewrite Hgone.
Qed.

(** a run rejects the file only at a sample where it is missing *)
Lemma stable_loop_false fuel :
  forall last same k k',
    stable_loop fuel obs stable_secs last same k = Returned false k' ->
    obs k' = Gone.
Proof.
  induction fuel as [|fuel IH]; intros last same k k'; [discriminate|].
  cbn [stable_loop]. destruct (same <? stable_secs); [|discriminate].
  destruct (obs k) as [|size|e] eqn:Hobs.
  - by intros [= <-].
  - destruct ((size =? last) && (size >? 0)); apply IH.
  - discriminate.
Qed.

(** a missing file ends the loop at the latest in the round that looks
    for it *)
Lemma stable_loop_gone (d : nat) :
  forall fuel last same k,
    obs (k + d)%nat = Gone -> (d < fuel)%nat ->
    exists k', sleeps_of (stable_loop fuel obs stable_secs last same k) = Some k'
               /\ (k' <= k + d)%nat.
Proof.
  induction d as [|d IH]; intros fuel last same k Hgone Hfuel;
    (destruct fuel as [|fuel]; [lia|]); cbn [stable_loop].
  - rewrite Nat.add_0_r in Hgone. destruct (same <? stable_secs).
    + rewrite Hgone. exists k. split; [reflexivity | lia].
    + exists k. split; [reflexivity | lia].
  - destruct (same <? stable_secs); [|exists k; split; [reflexivity | lia]].
    destruct (obs k) as [|size|e];
      [exists k; split; [reflexivity | lia] | |
       exists k; split; [reflexivity | lia]].
    replace (k + S d)%nat with (S k + d)%nat in * by lia.
    destruct ((size =? last) && (size >? 0));
      (edestruct (IH fuel) as (k' & Hk' & Hle);
       [exact Hgone | lia | exists k'; split; [exact Hk' | lia]]).
Qed.

Hypothesis window_asked : 0 < stable_secs.

(** a run that accepts the file has seen [stable_secs + 1] samples in a
    row of one positive size, and has slept as often *)
Lemma stable_loop_true fuel :
  forall last same k k',
    window obs last same k ->
    stable_loop fuel obs stable_secs last same k = Returned true k' ->
    stable_secs + 1 <= Z.of_nat k'
    /\ exists n, 0 < n /\
         forall i : nat,
           Z.of_nat k' - stable_secs - 1 <= Z.of_nat i < Z.of_nat k' ->
           obs i = Size n.
Proof.
  induction fuel as [|fuel IH]; intros last same k k' Hw; [discriminate|].
  cbn [stable_loop]. destruct (Z.ltb_spec same stable_secs) as [Hlt|Hge].
  - destruct (obs k) as [|size|e] eqn:Hobs; try discriminate.
    destruct ((size =? last) && (size >? 0)) eqn:Hc.
    + apply andb_true_iff in Hc as [He Hp].
      apply Z.eqb_eq in He. subst size. apply IH.
      apply window_same; [exact Hw | exact Hobs | lia].
    + apply IH. by apply (window_reset last same k size).
  - intros [= <-]. destruct Hw as [H0 [(-> & -> & Hl) | (Hk & Hwin & Hpos)]];
      [lia|].
    split; [lia|]. exists last. split; [apply Hpos; lia|].
    intros i Hi. apply Hwin. lia.
Qed.

Lemma stable_loop_never_settles :
  never_settles obs ->
  forall fuel last k,
    (k = 0%nat /\ last <= 0) \/ (exists j, k = S j /\ obs j = Size last) ->
    stable_loop fuel obs stable_secs last 0 k = Polling.
Proof.
  intros Hns. induction fuel as [|fuel IH]; intros last k Hk; [reflexivity|].
  destruct (Hns 0%nat) as (a0 & _ & H0 & _).
  cbn [stable_loop]. destruct (Z.ltb_spec 0 stable_secs); [|lia].
  assert (Hreset : exists size, obs k = Size size
                   /\ (size =? last) && (size >? 0) = false).
  { destruct Hk as [[-> Hl] | (j & -> & Hj)].
    - exists a0. split; [exact H0|].
      destruct (Z.eqb_spec a0 last); [|reflexivity].
      destruct (Z.gtb_spec a0 0); [lia | reflexivity].
    - destruct (Hns j) as (a & b & Ha & Hb & Hab). exists b.
      split; [exact Hb|]. rewrite Hj in Ha. injection Ha as <-.
      destruct (Z.eqb_spec b last); [|reflexivity].
      destruct (Z.gtb_spec b 0); [lia | reflexivity]. }
  destruct Hreset as (size & Hobs & Hc). rewrite Hobs, Hc.
  apply IH. right. by exists k.
Qed.

(** a file whose size never settles keeps [is_file_stable] in its loop,
    whatever the fuel *)
Lemma is_file_stable_never_settles fuel :
  never_settles obs -> is_file_stable fuel obs stable_secs = Polling.
Proof.
  intros Hns. apply stable_loop_never_settles; [exact Hns|].
  left. split; [reflexivity | lia].
Qed.

(** an accepted file was polled for more than the window *)
Lemma is_file_stable_true fuel k :
  is_file_stable fuel obs stable_secs = Returned true k ->
  stable_secs + 1 <= Z.of_nat k
  /\ exists n, 0 < n /\
       forall i : nat,
         Z.of_nat k - stable_secs - 1 <= Z.of_nat i < Z.of_nat k ->
         obs i = Size n.
Proof. apply stable_loop_true, window_start. Qed.

End Loop.

Lemma growing_never_settles : never_settles growing.
Proof.
  intros i. exists (Z.of_nat i + 1), (Z.of_nat (S i) + 1). unfold growing.
  repeat split. left. lia.
Qed.

Lemma empty_file_never_settles : never_settles empty_file.
Proof. intros i. exists 0, 0. repeat split. right. lia. Qed.

(** C3 as stated fails: a file that is left alone is accepted after 6
    sleeps, never within the window of 5, and a file that is still
    growing is never rejected. *)
Lemma stability_poll_exceeds_window :
  is_file_stable 7 steady 5 = Returned true 6
  /\ ~ (exists fuel b k,
          is_file_stable fuel steady 5 = Returned b k /\ (k <= 5)%nat)
  /\ ~ (exists fuel b k, is_file_stable fuel growing 5 = Returned b k).
Proof.
  split; [reflexivity|]. split.
  - intros (fuel & [|] & k & Hrun & Hk).
    + apply is_file_stable_true in Hrun as [Hle _]; lia.
    + apply stable_loop_false in Hrun. discriminate.
  - intros (fuel & b & k & Hrun).
    rewrite (is_file_stable_never_settles growing 5) in Hrun;
      [discriminate | lia | apply growing_never_settles].
Qed.

End GateFacts.

(** ** Facts about the per-file pipeline *)

Module PipelineFacts.
Import PyStr Sheet Pipeline Samples.
Local Open Scope Z_scope.

(** *** The monad *)

Lemma halts_ret {A} (a : A) : halts (ret a).
Proof. intros tr. discriminate. Qed.

Lemma halts_raise {A} (e : exn) : halts (@raise A e).
Proof. intros tr. discriminate. Qed.

Lemma halts_emit (ev : event) : halts (emit ev).
Proof. intros tr. discriminate. Qed.

Lemma halts_bind {A B} (m : M A) (k : A -> M B) :
  halts m -> (forall a, halts (k a)) -> halts (bind m k).
Proof.
  intros Hm Hk tr. unfold bind. specialize (Hm tr).
  destruct (m tr) as [tr' [a|e|]]; simpl in *;
    [apply Hk | discriminate | congruence].
Qed.

Lemma halts_call (ev : event) (answer : option exn) : halts (call ev answer).
Proof.
  unfold call. apply halts_bind; [apply halts_emit|]. intros _.
  destruct answer; [apply halts_raise | apply halts_ret].
Qed.

Lemma halts_log (l : level) (m : message) : halts (log l m).
Proof. apply halts_emit. Qed.

Lemma halts_sleeps (n : nat) : halts (sleeps n).
Proof.
  induction n as [|n IH]; [apply halts_ret|].
  apply halts_bind; [apply halts_emit | intros _; exact IH].
Qed.

Create HintDb halts.
#[local] Hint Resolve halts_ret halts_raise halts_emit halts_call halts_log
  halts_sleeps : halts.

Ltac halts_steps :=
  repeat first
    [ solve [auto with halts]
    | apply halts_bind; [|intros ?] ].

Lemma halts_excel_xls_to_xlsx (w : env) : halts (excel_xls_to_xlsx w).
Proof.
  unfold excel_xls_to_xlsx. destruct (negb (win32 w)); halts_steps.
Qed.

Lemma halts_transform_workbook (w : env) (cfg : config) :
  halts (Pipeline.transform_workbook w cfg).
Proof.
  unfold Pipeline.transform_workbook. apply halts_bind; [halts_steps|].
  intros _. destruct (load w) as [wb|e]; [|halts_steps].
  destruct (Sheet.transform_workbook wb _ _ _) as [[wb' changed]|e];
    halts_steps.
Qed.

Lemma halts_transform_and_publish (w : env) (cfg : config) (sfx : string) :
  halts (transform_and_publish w cfg sfx).
Proof.
  unfold transform_and_publish, copy_to_sharepoint.
  destruct (negb _); [halts_steps|].
  apply halts_bind; [halts_steps|]. intros _.
  apply halts_bind; [apply halts_transform_workbook|]. intros changed.
  halts_steps.
Qed.

(** the stability poll is the only step of the body that can fail to
    come back *)
Lemma process_body_halts (fuel : nat) (cfg : config) (w : env) :
  Gate.is_file_stable fuel (samples w) 5 <> Gate.Polling ->
  halts (process_body fuel cfg w).
Proof.
  intros Hpoll. unfold process_body.
  destruct (is_dir w); [halts_steps|].
  destruct (negb (matches w)); [halts_steps|].
  destruct (negb (Gate.is_file_fresh_enough _ _ _)); [halts_steps|].
  apply halts_bind; [halts_steps|]. intros _.
  apply halts_bind.
  - unfold is_file_stable.
    destruct (Gate.is_file_stable fuel (samples w) 5) as [b k|e k|];
      [halts_steps | halts_steps | congruence].
  - intros stable. destruct (negb stable); [halts_steps|].
    destruct (String.eqb _ _); [|apply halts_transform_and_publish].
    destruct (negb (win32 w)); [halts_steps|].
    apply halts_bind; [halts_steps|]. intros _.
    apply halts_bind; [apply halts_excel_xls_to_xlsx|]. intros sfx.
    apply halts_bind; [halts_steps|]. intros _.
    apply halts_transform_and_publish.
Qed.

(** [try ... except Exception] around a handler that only logs never
    lets an exception out *)
Lemma try_except_log_no_raise (m : M unit) (ev : exn -> event)
    (tr : list event) (e : exn) :
  snd (try_except m (fun e => emit (ev e)) tr) <> Raises e.
Proof.
  unfold try_except. destruct (m tr) as [tr' [[]|e'|]]; discriminate.
Qed.

Lemma try_except_halts (m : M unit) (ev : exn -> event) :
  halts m -> halts (try_except m (fun e => emit (ev e))).
Proof.
  intros Hm tr. unfold try_except. specialize (Hm tr).
  destruct (m tr) as [tr' [[]|e'|]]; simpl in *; congruence.
Qed.

(** C7. A candidate file whose last-modified time is more than
    [MAX_FILE_AGE_HOURS] (12) hours before the current time is rejected
    at the freshness check before any other step: the handler only logs
    "Skipping old file" at level INFO; nothing is polled, opened,
    converted, transformed or published. *)
Theorem stale_file_is_only_logged (fuel : nat) (cfg : config) (w : env)
    (modified : Z) :
  is_dir w = false -> matches w = true ->
  mtime w = Ok modified ->
  Gate.timedelta_hours MAX_FILE_AGE_HOURS < now w - modified ->
  Gate.is_file_fresh_enough (mtime w) (now w) MAX_FILE_AGE_HOURS = false
  /\ run fuel cfg w = ([Log INFO SkippingOldFile], Returns tt).
Proof.
  intros Hdir Hmatch Hm Hage.
  assert (Hstale : Gate.is_file_fresh_enough (mtime w) (now w)
                     MAX_FILE_AGE_HOURS = false).
  { rewrite Hm. unfold Gate.is_file_fresh_enough.
    apply Z.leb_gt. exact Hage. }
  split; [exact Hstale|].
  unfold run, _process, process_body, try_except.
  rewrite Hdir, Hmatch, Hstale. reflexivity.
Qed.

Lemma stale_file_is_only_logged_witness :
  Gate.is_file_fresh_enough (mtime stale) (now stale) MAX_FILE_AGE_HOURS
    = false
  /\ run 10 defaults stale = ([Log INFO SkippingOldFile], Returns tt).
Proof.
  apply (stale_file_is_only_logged 10 defaults stale 0).
  - reflexivity.
  - reflexivity.
  - reflexivity.
  - vm_compute. reflexivity.
Defined.

(** C10. [is_file_fresh_enough] is total: it answers for every input,
    and for a path whose metadata cannot be read it answers [False]
    instead of raising, so that such a candidate is skipped as an old
    file, with the INFO line only. *)
Theorem unreadable_metadata_is_not_fresh :
  (forall (modified : result Z) (current max_hours : Z),
      exists b, Gate.is_file_fresh_enough modified current max_hours = b)
  /\ (forall (e : exn) (current max_hours : Z),
        Gate.is_file_fresh_enough (Raise e) current max_hours = false)
  /\ (forall (fuel : nat) (cfg : config) (w : env) (e : exn),
        is_dir w = false -> matches w = true -> mtime w = Raise e ->
        run fuel cfg w = ([Log INFO SkippingOldFile], Returns tt)).
Proof.
  split; [|split].
  - intros modified current max_hours. eexists. reflexivity.
  - reflexivity.
  - intros fuel cfg w e Hdir Hmatch Hm.
    unfold run, _process, process_body, try_except.
    rewrite Hdir, Hmatch, Hm. reflexivity.
Qed.

Lemma unreadable_metadata_is_not_fresh_witness :
  Gate.is_file_fresh_enough (mtime unreadable) (now unreadable) 12 = false
  /\ run 10 defaults unreadable = ([Log INFO SkippingOldFile], Returns tt).
Proof.
  destruct unreadable_metadata_is_not_fresh as (_ & Hfalse & Hskip).
  split.
  - apply (Hfalse OSError).
  - apply (Hskip 10%nat defaults unreadable OSError); reflexivity.
Defined.

Lemma sleeps_trace (n : nat) (tr : list event) :
  sleeps n tr = ((tr ++ repeat Sleep n)%list, Returns tt).
Proof.
  revert tr. induction n as [|n IH]; intros tr.
  - unfold sleeps, ret. by rewrite app_nil_r.
  - cbn [sleeps]. unfold bind, emit. rewrite IH, <- app_assoc. reflexivity.
Qed.

(** a fresh candidate that the poll rejects is skipped with a warning *)
Lemma unstable_file_is_warned (fuel : nat) (cfg : config) (w : env) (k : nat) :
  is_dir w = false -> matches w = true ->
  Gate.is_file_fresh_enough (mtime w) (now w) MAX_FILE_AGE_HOURS = true ->
  Gate.is_file_stable fuel (samples w) 5 = Gate.Returned false k ->
  run fuel cfg w
  = ((Log INFO DetectedCandidate :: repeat Sleep k
      ++ [Log WARNING FileNotStable])%list, Returns tt).
Proof.
  intros Hdir Hmatch Hfresh Hpoll.
  unfold run, _process, process_body, try_except, is_file_stable.
  rewrite Hdir, Hmatch, Hfresh, Hpoll. cbn [negb].
  unfold bind at 1. unfold log at 1, emit at 1. cbn [app].
  unfold bind at 1. unfold bind at 1. rewrite sleeps_trace.
  reflexivity.
Qed.

(** C3, as the code has it. For every candidate file the stability poll
    accepts the file only after its size was found unchanged and
    non-zero in [stable_secs] samples in a row after a first one, hence
    after at least [stable_secs + 1] one-second sleeps; a file found
    missing at a poll is rejected, and skipped with a warning, and the
    poll rejects nothing else; a file whose size is still changing is
    polled again, without upper bound, rather than rejected. *)
Theorem stability_poll_waits_until_stable (obs : nat -> Gate.sample)
    (stable_secs : Z) :
  0 < stable_secs ->
  (forall fuel k,
      Gate.is_file_stable fuel obs stable_secs = Gate.Returned true k ->
      stable_secs + 1 <= Z.of_nat k
      /\ exists n, 0 < n /\
           forall i : nat,
             Z.of_nat k - stable_secs - 1 <= Z.of_nat i < Z.of_nat k ->
             obs i = Gate.Size n)
  /\ (forall fuel last same k,
        same < stable_secs -> obs k = Gate.Gone ->
        Gate.stable_loop (S fuel) obs stable_secs last same k
        = Gate.Returned false k)
  /\ (forall fuel k,
        Gate.is_file_stable fuel obs stable_secs = Gate.Returned false k ->
        obs k = Gate.Gone)
  /\ (forall fuel k,
        obs k = Gate.Gone -> (k < fuel)%nat ->
        exists k',
          Gate.sleeps_of (Gate.is_file_stable fuel obs stable_secs) = Some k'
          /\ (k' <= k)%nat)
  /\ (Gate.never_settles obs ->
      forall fuel, Gate.is_file_stable fuel obs stable_secs = Gate.Polling)
  /\ (forall fuel cfg w k,
        is_dir w = false -> matches w = true ->
        Gate.is_file_fresh_enough (mtime w) (now w) MAX_FILE_AGE_HOURS = true ->
        Gate.is_file_stable fuel (samples w) 5 = Gate.Returned false k ->
        run fuel cfg w
        = ((Log INFO DetectedCandidate :: repeat Sleep k
            ++ [Log WARNING FileNotStable])%list, Returns tt)).
Proof.
  intros Hs. split; [|split; [|split; [|split; [|split]]]].
  - intros fuel k. by apply GateFacts.is_file_stable_true.
  - intros fuel last same k. apply GateFacts.stable_loop_round_gone.
  - intros fuel k. apply GateFacts.stable_loop_false.
  - intros fuel k Hgone Hfuel. unfold Gate.is_file_stable.
    destruct (GateFacts.stable_loop_gone obs stable_secs k fuel (-1) 0 0%nat)
      as (k' & Hk' & Hle); [exact Hgone | exact Hfuel |].
    exists k'. split; [exact Hk' | lia].
  - intros Hns fuel. by apply GateFacts.is_file_stable_never_settles.
  - intros fuel cfg w k. apply unstable_file_is_warned.
Qed.

Lemma stability_poll_waits_until_stable_witness :
  0 < 5
  /\ (Gate.is_file_stable 7 steady 5 = Gate.Returned true 6 ->
      5 + 1 <= Z.of_nat 6
      /\ exists n, 0 < n /\
           forall i : nat,
             Z.of_nat 6 - 5 - 1 <= Z.of_nat i < Z.of_nat 6 ->
             steady i = Gate.Size n)
  /\ Gate.is_file_stable 7 steady 5 = Gate.Returned true 6.
Proof.
  split; [lia|].
  destruct (stability_poll_waits_until_stable steady 5) as (Htrue & _);
    [lia|].
  split; [apply (Htrue 7%nat 6%nat) | reflexivity].
Defined.

(** C4 as stated fails: when Excel cannot open the file, the session was acquired and the exception leaves
    the call before the workbook is closed or Excel is quit *)
Lemma excel_open_failure_skips_release :
  excel_xls_to_xlsx open_fails []
    = ([EnsureDispatch; SetVisible; WorkbooksOpen], Raises ComError)
  /\ In EnsureDispatch (excel_xls_to_xlsx open_fails []).1
  /\ ~ In WbClose (excel_xls_to_xlsx open_fails []).1
  /\ ~ In AppQuit (excel_xls_to_xlsx open_fails []).1.
Proof.
  split; [reflexivity|]. simpl. split; [by left|].
  split; intros H; repeat destruct H as [H|H]; try discriminate H; exact H.
Qed.

(** C4, as the code has it. The format normalizer closes the workbook
    and quits the Excel session when opening, saving and closing
    succeed; when opening, saving or closing raises, the exception
    leaves the call at once and the later calls, the quit among them,
    are not made. *)
Theorem excel_released_on_success_path_only (w : env) :
  win32 w = true -> dispatch w = None ->
  (wb_open w = None -> save_as w = None -> wb_close w = None ->
     excel_xls_to_xlsx w []
     = ([EnsureDispatch; SetVisible; WorkbooksOpen; SaveAs; WbClose; AppQuit],
        match app_quit w with
        | None => Returns ".xlsx"
        | Some e => Raises e
        end))
  /\ (forall e, wb_open w = Some e ->
        excel_xls_to_xlsx w []
        = ([EnsureDispatch; SetVisible; WorkbooksOpen], Raises e))
  /\ (forall e, wb_open w = None -> save_as w = Some e ->
        excel_xls_to_xlsx w []
        = ([EnsureDispatch; SetVisible; WorkbooksOpen; SaveAs], Raises e))
  /\ (forall e, wb_open w = None -> save_as w = None -> wb_close w = Some e ->
        excel_xls_to_xlsx w []
        = ([EnsureDispatch; SetVisible; WorkbooksOpen; SaveAs; WbClose],
           Raises e))
  /\ (In AppQuit (excel_xls_to_xlsx w []).1 <->
      wb_open w = None /\ save_as w = None /\ wb_close w = None).
Proof.
  intros Hwin Hdisp. unfold excel_xls_to_xlsx, call, bind, emit, ret, raise.
  rewrite Hwin, Hdisp. cbn [negb app].
  split; [|split; [|split; [|split]]].
  - intros -> -> ->. by destruct (app_quit w).
  - by intros e ->.
  - by intros e -> ->.
  - by intros e -> -> ->.
  - destruct (wb_open w) as [eo|], (save_as w) as [es|],
      (wb_close w) as [ec|], (app_quit w) as [eq|]; cbn;
      (split;
       [ intros H;
         first [ by repeat split
               | repeat (destruct H as [H|H]; [discriminate H|]);
                 contradiction ]
       | intros (Ho & Hs & Hc);
         first [ discriminate | do 5 right; by left ] ]).
Qed.

Lemma excel_released_on_success_path_only_witness :
  excel_xls_to_xlsx open_fails []
    = ([EnsureDispatch; SetVisible; WorkbooksOpen], Raises ComError)
  /\ excel_xls_to_xlsx (with_excel calm None None None) []
     = ([EnsureDispatch; SetVisible; WorkbooksOpen; SaveAs; WbClose; AppQuit],
        Returns ".xlsx").
Proof.
  split.
  - destruct (excel_released_on_success_path_only open_fails)
      as (_ & Hopen & _); [reflexivity | reflexivity |].
    apply (Hopen ComError). reflexivity.
  - destruct (excel_released_on_success_path_only
                (with_excel calm None None None))
      as (Hok & _); [reflexivity | reflexivity |].
    apply Hok; reflexivity.
Defined.

(** C8 as stated fails: for an upload that stays empty the stability poll never ends, so the
    handler does not return, whatever the fuel *)
Lemma handler_never_returns_on_empty_upload :
  ~ (exists fuel, snd (run fuel defaults empty_upload) = Returns tt).
Proof.
  intros [fuel H]. revert H.
  unfold run, _process, process_body, try_except, is_file_stable.
  cbn [is_dir matches mtime now samples empty_upload with_samples calm negb].
  rewrite (GateFacts.is_file_stable_never_settles empty_file 5);
    [discriminate | lia | apply GateFacts.empty_file_never_settles].
Qed.

(** C8, as the code has it. Every exception raised at any stage of one
    file's pipeline (gate, normalize, transform, publish) is caught at
    the top of that pipeline invocation, logged and swallowed: the
    handler never raises, and it returns normally whenever the
    stability poll ends. *)
Theorem handler_swallows_every_exception (fuel : nat) (cfg : config)
    (w : env) :
  (forall e, snd (run fuel cfg w) <> Raises e)
  /\ (Gate.is_file_stable fuel (samples w) 5 <> Gate.Polling ->
      snd (run fuel cfg w) = Returns tt)
  /\ (forall tr e,
        process_body fuel cfg w [] = (tr, Raises e) ->
        run fuel cfg w
        = ((tr ++ [LogException (ErrorProcessingFile e)])%list, Returns tt)).
Proof.
  split; [|split].
  - intros e. apply try_except_log_no_raise.
  - intros Hpoll.
    pose proof (process_body_halts fuel cfg w Hpoll) as Hbody.
    pose proof (try_except_halts _ (fun e => LogException (ErrorProcessingFile e))
                  Hbody []) as Hhalt.
    pose proof (try_except_log_no_raise (process_body fuel cfg w)
                  (fun e => LogException (ErrorProcessingFile e)) []) as Hno.
    unfold run, _process.
    destruct (try_except _ _ []) as [tr [[]|e|]]; simpl in *;
      [reflexivity | by destruct (Hno e) | congruence].
  - intros tr e Hbody. unfold run, _process, try_except. rewrite Hbody.
    reflexivity.
Qed.

Lemma handler_swallows_every_exception_witness :
  Gate.is_file_stable 10 (samples publish_fails) 5 <> Gate.Polling
  /\ snd (run 10 defaults publish_fails) = Returns tt
  /\ In (LogException (ErrorProcessingFile OSError))
        (run 10 defaults publish_fails).1.
Proof.
  destruct (handler_swallows_every_exception 10 defaults publish_fails)
    as (_ & Hret & _).
  assert (Hpoll : Gate.is_file_stable 10 (samples publish_fails) 5
                  <> Gate.Polling) by (vm_compute; discriminate).
  split; [exact Hpoll|]. split; [exact (Hret Hpoll)|].
  vm_compute. do 14 right. by left.
Defined.

End PipelineFacts.

(** ** Running the transform twice *)

Module TwicePass.
Import PyStr PyStrFacts Formula Sheet Samples.
Local Open Scope Z_scope.

Implicit Types (sep : string).

(** *** When a second pass changes nothing *)

(** the cell holds its own text again after a pass *)
Lemma cell_text_rewritten sep (c : cell) :
  VStr (cell_text (rewritten sep c)) = (rewrite_cell sep c).1.
Proof.
  unfold rewritten, cell_text. simpl.
  destruct (SheetFacts.rewrite_cell_str sep c) as [s ->]. reflexivity.
Qed.

(** A second pass over a cell leaves it alone when the cell has a
    native hyperlink, or when the text written by the first pass does
    not start with [=]. *)
Lemma rewrite_cell_again sep (c : cell) :
  truthy (hyperlink_target c) = true
  \/ startswith (cell_text (rewritten sep c)) "=" = false ->
  rewrite_cell sep (rewritten sep c) = ((rewrite_cell sep c).1, false).
Proof.
  intros Hside. rewrite <- cell_text_rewritten.
  set (c1 := rewritten sep c).
  assert (Hlink : hyperlink_target c1 = hyperlink_target c) by reflexivity.
  assert (Hpass2 : exists url2,
             text_and_url c1 = (cell_text c1, url2)
             /\ (truthy (hyperlink_target c) = false ->
                 url2 = UrlRe.search (cell_text c1))).
  { unfold text_and_url, link_and_text. rewrite Hlink.
    destruct (truthy (hyperlink_target c)) eqn:Hh.
    - eexists. split; [reflexivity | discriminate].
    - destruct Hside as [Hside | Hside]; [discriminate|].
      fold c1 in Hside. rewrite Hside. eexists. split; [reflexivity|].
      intros _. unfold or_bare_url. simpl.
      by destruct (UrlRe.search (cell_text c1)). }
  destruct Hpass2 as (url2 & Htu2 & Hurl2).
  assert (Hplain : url2 = None \/ contains sep (cell_text c1) = true);
    [|by apply SheetFacts.rewrite_cell_plain with (url := url2)].
  assert (Htext : VStr (cell_text c1) = (rewrite_cell sep c).1)
    by apply cell_text_rewritten.
  revert Htext. unfold rewrite_cell at 1, annotate.
  destruct (text_and_url c) as [t url] eqn:Htu.
  destruct (truthy url) eqn:Hurl; simpl.
  - destruct (contains sep t) eqn:Hsep; simpl; intros [= ->].
    + by right.
    + right. apply contains_app_r.
  - intros [= Ht]. rewrite Ht.
    destruct (contains sep t) eqn:Hsep; [by right | left].
    (* no link was found by the first pass: none is found now *)
    assert (Hfirst : truthy (hyperlink_target c) = false
                     /\ t = cell_text c /\ UrlRe.search t = None).
    { revert Htu. unfold text_and_url, link_and_text, or_bare_url.
      destruct (truthy (hyperlink_target c)) eqn:Hh.
      - rewrite Hh. simpl. intros [= _ <-]. congruence.
      - destruct (startswith (cell_text c) "=").
        + destruct (parse_hyperlink_formula (cell_text c)) as [pu pt].
          destruct (truthy pu) eqn:Hpu.
          * rewrite Hpu. simpl. intros [= _ <-]. congruence.
          * simpl. destruct (UrlRe.search (cell_text c)) as [m|] eqn:Hs;
              intros [= <- <-]; [|done].
            apply SheetFacts.search_nonempty in Hs.
            destruct m; [congruence | discriminate].
        + simpl. destruct (UrlRe.search (cell_text c)) as [m|] eqn:Hs;
            intros [= <- <-]; [|done].
          apply SheetFacts.search_nonempty in Hs.
          destruct m; [congruence | discriminate]. }
    destruct Hfirst as (Hh & _ & Hsearch).
    rewrite (Hurl2 Hh), Ht. exact Hsearch.
Qed.

Lemma rewritten_again sep (c : cell) :
  truthy (hyperlink_target c) = true
  \/ startswith (cell_text (rewritten sep c)) "=" = false ->
  rewritten sep (rewritten sep c) = rewritten sep c.
Proof.
  intros H. unfold rewritten at 1. rewrite (rewrite_cell_again sep c H).
  reflexivity.
Qed.

(** *** [max_row] after a pass *)

Lemma foldr_max_spec (r : Z) (rs : list Z) :
  foldr Z.max r rs ∈ r :: rs /\ forall x, x ∈ r :: rs -> x <= foldr Z.max r rs.
Proof.
  induction rs as [|a rs [IHin IHle]]; simpl.
  - split; [left|]. intros x Hx. apply list_elem_of_singleton in Hx. lia.
  - split.
    + destruct (Z.max_spec a (foldr Z.max r rs)) as [[_ ->] | [_ ->]].
      * apply elem_of_cons in IHin as [-> | Hin]; [left|].
        do 2 right. exact Hin.
      * right. left.
    + intros x Hx. apply elem_of_cons in Hx as [-> | Hx].
      * specialize (IHle r (list_elem_of_here _ _)). lia.
      * apply elem_of_cons in Hx as [-> | Hx]; [lia|].
        specialize (IHle x (list_elem_of_further _ _ _ Hx)). lia.
Qed.

Lemma elem_of_rows_of (ws : worksheet) (r : Z) :
  r ∈ (map_to_list ws).*1.*1 <-> exists c x, ws !! (r, c) = Some x.
Proof.
  rewrite list_elem_of_fmap. split.
  - intros ([r' c] & -> & Hk). apply list_elem_of_fmap in Hk
      as ([k x] & [= <-] & Hkx). apply elem_of_map_to_list in Hkx.
    by exists c, x.
  - intros (c & x & Hkx). exists (r, c). split; [reflexivity|].
    apply list_elem_of_fmap. exists ((r, c), x). split; [reflexivity|].
    by apply elem_of_map_to_list.
Qed.

Lemma max_row_empty : max_row (∅ : worksheet) = 1.
Proof. unfold max_row. by rewrite map_to_list_empty. Qed.

(** on a sheet with cells, [max_row] is the largest row of a cell *)
Lemma max_row_unique (ws : worksheet) (m : Z) :
  (exists c x, ws !! (m, c) = Some x) ->
  (forall r c x, ws !! (r, c) = Some x -> r <= m) ->
  max_row ws = m.
Proof.
  intros Hin Hle. unfold max_row.
  destruct ((map_to_list ws).*1.*1) as [|r rs] eqn:E.
  - apply elem_of_rows_of in Hin. rewrite E in Hin.
    by apply elem_of_nil in Hin.
  - destruct (foldr_max_spec r rs) as [Hmax Hub]. rewrite <- E in Hmax, Hub.
    apply elem_of_rows_of in Hmax as (c & x & Hmax).
    apply Hle in Hmax. apply elem_of_rows_of in Hin. apply Hub in Hin. lia.
Qed.

Lemma max_row_bounds (ws : worksheet) :
  ws <> ∅ ->
  (exists c x, ws !! (max_row ws, c) = Some x)
  /\ (forall r c x, ws !! (r, c) = Some x -> r <= max_row ws).
Proof.
  intros Hne. unfold max_row.
  destruct ((map_to_list ws).*1.*1) as [|r rs] eqn:E.
  - destruct (map_to_list ws) eqn:E'; [|discriminate].
    by apply map_to_list_empty_iff in E'.
  - destruct (foldr_max_spec r rs) as [Hmax Hub]. rewrite <- E in Hmax, Hub.
    split; [by apply elem_of_rows_of|].
    intros r' c x Hx. apply Hub. apply elem_of_rows_of. by exists c, x.
Qed.

(** a pass creates cells only up to [max_row], which therefore stays *)
Lemma max_row_after_pass (ws ws' : worksheet) sep (start_row col_b : Z) :
  1 <= start_row ->
  (forall r c, c <> col_b \/ ~ (start_row <= r <= max_row ws) ->
     ws' !! (r, c) = ws !! (r, c)) ->
  (forall r, start_row <= r <= max_row ws ->
     ws' !! (r, col_b) = Some (rewritten sep (cell_at ws r col_b))) ->
  max_row ws' = max_row ws.
Proof.
  intros Hs Hframe Hrows.
  destruct (Z.lt_ge_cases (max_row ws) start_row) as [Hlt|Hge].
  { f_equal. apply map_eq. intros [r c]. apply Hframe. right. lia. }
  assert (Hcases : forall r c x, ws' !! (r, c) = Some x ->
             start_row <= r <= max_row ws \/ ws !! (r, c) = Some x).
  { intros r c x Hx.
    destruct (decide (start_row <= r <= max_row ws)) as [Hin|Hout];
      [by left | right]. rewrite <- Hx. symmetry. apply Hframe. by right. }
  destruct (decide (ws = ∅)) as [-> | Hne].
  - rewrite max_row_empty in *. apply max_row_unique.
    + exists col_b. eexists. apply Hrows. lia.
    + intros r c x Hx. apply Hcases in Hx as [Hx|Hx]; [lia|].
      by rewrite lookup_empty in Hx.
  - destruct (max_row_bounds ws Hne) as [(c & x & Hmax) Hub].
    apply max_row_unique.
    + destruct (decide (c = col_b)) as [->|Hc].
      * exists col_b. eexists. apply Hrows. lia.
      * exists c, x. rewrite Hframe; [exact Hmax | by left].
    + intros r c' x' Hx. apply Hcases in Hx as [Hx|Hx]; [lia|].
      by apply Hub in Hx.
Qed.

Lemma count_changed_zero sep (col_b : Z) (ws : worksheet) (rows : list Z) :
  (forall r, r ∈ rows -> (rewrite_cell sep (cell_at ws r col_b)).2 = false) ->
  count_changed sep col_b ws rows = 0.
Proof.
  induction rows as [|r rows IH]; intros H; simpl; [reflexivity|].
  rewrite (H r) by left. rewrite IH; [reflexivity|].
  intros r' Hr'. apply H. by right.
Qed.

(** Where every rewritten target cell has a native hyperlink or a text
    that does not start with [=], the second pass saves the workbook of
    the first pass again and counts no change. *)
Lemma second_pass_changes_nothing (ws : worksheet) (others : workbook)
    sep (start_row col_b : Z) :
  1 <= start_row -> 1 <= col_b ->
  (forall r, start_row <= r <= max_row ws ->
     truthy (hyperlink_target (cell_at ws r col_b)) = true
     \/ startswith (cell_text (rewritten sep (cell_at ws r col_b))) "="
        = false) ->
  exists (ws' : worksheet) n,
    transform_workbook (ws :: others) start_row col_b sep
      = Ok (ws' :: others, n)
    /\ transform_workbook (ws' :: others) start_row col_b sep
       = Ok (ws' :: others, 0).
Proof.
  intros Hs Hc Hside.
  destruct (SheetFacts.transform_workbook_spec ws others start_row col_b sep
              Hs Hc) as (ws' & Hrun & Hframe & Hrows).
  destruct (SheetFacts.transform_workbook_spec ws' others start_row col_b sep
              Hs Hc) as (ws'' & Hrun' & Hframe' & Hrows').
  pose proof (max_row_after_pass ws ws' sep start_row col_b Hs Hframe Hrows)
    as Hmax.
  rewrite Hmax in *.
  assert (Hcell : forall r, start_row <= r <= max_row ws ->
             cell_at ws' r col_b = rewritten sep (cell_at ws r col_b)).
  { intros r Hr. unfold cell_at at 1. by rewrite (Hrows r Hr). }
  eexists ws', _. split; [exact Hrun|]. rewrite Hrun'. do 2 f_equal.
  - f_equal. apply map_eq. intros [r c].
    destruct (decide (c = col_b /\ start_row <= r <= max_row ws))
      as [[-> Hr] | Hout].
    + rewrite (Hrows' r Hr), (Hrows r Hr), (Hcell r Hr).
      f_equal. apply rewritten_again. by apply Hside.
    + apply Hframe'. destruct (decide (c = col_b)); [right | left]; tauto.
  - apply count_changed_zero. intros r Hr.
    apply SheetFacts.elem_of_rows in Hr. rewrite (Hcell r Hr).
    rewrite rewrite_cell_again; [reflexivity | by apply Hside].
Qed.

(** the second pass reads its own output as a formula *)
Lemma parse_after_first_pass :
  parse_hyperlink_formula comma_url_formula
    = (Some "https://h/d?ids=1,2", None)
  /\ parse_hyperlink_formula after_first_pass
     = (Some (quoted "https://h/d?ids=1,2" +:+ ") ### https://h/d?ids=1"),
        Some "2").
Proof. split; vm_compute; reflexivity. Qed.

(** C2 on the code. With the default start row, column and separator,
    the first pass over [comma_url_sheet] annotates B19 and counts one
    change; the second pass over the saved workbook does not leave it
    alone: it takes the text after the comma as the label, annotates
    again and counts one change more. *)
Theorem second_pass_rewrites_annotated_formula :
  exists ws1 ws2 : worksheet,
    transform_workbook [comma_url_sheet] 19 2 " ### " = Ok ([ws1], 1)
    /\ value_at ws1 19 2 = VStr after_first_pass
    /\ contains " ### " after_first_pass = true
    /\ transform_workbook [ws1] 19 2 " ### " = Ok ([ws2], 1)
    /\ value_at ws2 19 2 = VStr after_second_pass
    /\ after_second_pass <> after_first_pass.
Proof.
  eexists _, _. split; [vm_compute; reflexivity|].
  split; [vm_compute; reflexivity|].
  split; [vm_compute; reflexivity|].
  split; [vm_compute; reflexivity|].
  split; [vm_compute; reflexivity|].
  vm_compute. discriminate.
Qed.

End TwicePass.

(** ** More facts about the column transformer *)

Module TransformFacts.
Import PyStr PyStrFacts Formula Sheet Samples.
Local Open Scope Z_scope.

Implicit Types (sep : string) (col_b start_row r n : Z) (rows : list Z).

(** a call that returns: either the range of rows is empty and the
    workbook is saved as it was, or the indices are from 1 and the
    target cells of the range are rewritten *)
Lemma transform_workbook_ok_inv (wb wb' : workbook) start_row col_b sep n :
  transform_workbook wb start_row col_b sep = Ok (wb', n) ->
  exists (ws ws' : worksheet) (others : workbook),
    wb = ws :: others /\ wb' = ws' :: others
    /\ n = count_changed sep col_b ws
             (seqZ start_row (max_row ws + 1 - start_row))
    /\ ((max_row ws < start_row /\ ws' = ws)
        \/ (1 <= start_row <= max_row ws /\ 1 <= col_b
            /\ (forall r c, c <> col_b \/ ~ (start_row <= r <= max_row ws) ->
                  ws' !! (r, c) = ws !! (r, c))
            /\ (forall r, start_row <= r <= max_row ws ->
                  ws' !! (r, col_b)
                  = Some (rewritten sep (cell_at ws r col_b))))).
Proof.
  destruct wb as [|ws others]; [discriminate|]. intros Hrun.
  exists ws. destruct (Z.lt_ge_cases (max_row ws) start_row) as [Hlt|Hge].
  - rewrite SheetFacts.transform_workbook_skips in Hrun by exact Hlt.
    injection Hrun as <- <-. exists ws, others.
    rewrite seqZ_nil by lia. repeat split; try reflexivity. by left.
  - destruct (Z.le_gt_cases 1 start_row) as [Hs|Hs];
      [destruct (Z.le_gt_cases 1 col_b) as [Hc|Hc]|].
    + destruct (SheetFacts.transform_workbook_spec ws others start_row col_b
                  sep Hs Hc) as (ws' & Hrun' & Hframe & Hrows).
      rewrite Hrun' in Hrun. injection Hrun as <- <-.
      exists ws', others. repeat split; try reflexivity.
      right. repeat split; try assumption; lia.
    + rewrite SheetFacts.transform_workbook_raises in Hrun;
        [discriminate | lia | by right].
    + rewrite SheetFacts.transform_workbook_raises in Hrun;
        [discriminate | lia | left; lia].
Qed.

Lemma count_changed_bounds sep col_b (ws : worksheet) rows :
  0 <= count_changed sep col_b ws rows <= Z.of_nat (length rows).
Proof.
  induction rows as [|r rows IH]; simpl; [lia|].
  destruct (rewrite_cell sep (cell_at ws r col_b)).2; lia.
Qed.

Lemma count_changed_zero_iff sep col_b (ws : worksheet) rows :
  count_changed sep col_b ws rows = 0
  <-> forall r, r ∈ rows -> (rewrite_cell sep (cell_at ws r col_b)).2 = false.
Proof.
  induction rows as [|r rows IH]; simpl.
  - split; [|reflexivity]. intros _ r Hr. by apply elem_of_nil in Hr.
  - pose proof (count_changed_bounds sep col_b ws rows) as Hb. split.
    + intros Hsum r' Hr'.
      destruct (rewrite_cell sep (cell_at ws r col_b)).2 eqn:E; [lia|].
      apply elem_of_cons in Hr' as [-> | Hr']; [exact E|].
      apply IH; [lia | exact Hr'].
    + intros H. rewrite (H r) by left.
      assert (count_changed sep col_b ws rows = 0) as ->; [|reflexivity].
      apply IH. intros r' Hr'. apply H. by right.
Qed.

(** The returned count lies between 0 and the number of rows from
    [start_row] to [max_row], and it is 0 exactly when no row of that
    range was annotated. *)
Theorem change_count_bounds (wb wb' : workbook) start_row col_b sep n :
  transform_workbook wb start_row col_b sep = Ok (wb', n) ->
  0 <= n <= Z.max 0 (max_row (first_sheet wb) + 1 - start_row)
  /\ (n = 0 <->
      forall r, start_row <= r <= max_row (first_sheet wb) ->
        (rewrite_cell sep (cell_at (first_sheet wb) r col_b)).2 = false).
Proof.
  intros Hrun.
  apply transform_workbook_ok_inv in Hrun
    as (ws & ws' & others & -> & -> & -> & _).
  simpl. split.
  - pose proof (count_changed_bounds sep col_b ws
                  (seqZ start_row (max_row ws + 1 - start_row))) as Hb.
    rewrite length_seqZ in Hb. lia.
  - rewrite count_changed_zero_iff. split; intros H r Hr; apply H.
    + by apply SheetFacts.elem_of_rows.
    + by apply SheetFacts.elem_of_rows in Hr.
Qed.

Lemma sample_sheet_pass :
  transform_workbook [sample_sheet] 19 2 " ### " = Ok ([sample_sheet_after], 2).
Proof. vm_compute. reflexivity. Qed.

Lemma change_count_bounds_witness :
  0 <= 2 <= Z.max 0 (max_row (first_sheet [sample_sheet]) + 1 - 19).
Proof.
  apply (change_count_bounds [sample_sheet] [sample_sheet_after] 19 2 " ### " 2).
  vm_compute. reflexivity.
Defined.



Lemma rewrite_cell_blank sep : rewrite_cell sep blank = (VStr "", false).
Proof. reflexivity. Qed.

(** A pass removes no cell and changes no cell's hyperlink; the only
    cells it creates are in the target column, in the rows from
    [start_row] to [max_row], and they hold the empty string. *)
Theorem transform_keeps_cells_and_hyperlinks (wb wb' : workbook)
    start_row col_b sep n :
  transform_workbook wb start_row col_b sep = Ok (wb', n) ->
  (forall r c x, first_sheet wb !! (r, c) = Some x ->
     exists x', first_sheet wb' !! (r, c) = Some x'
                /\ hyperlink x' = hyperlink x)
  /\ (forall r c x', first_sheet wb !! (r, c) = None ->
        first_sheet wb' !! (r, c) = Some x' ->
        c = col_b /\ start_row <= r <= max_row (first_sheet wb)
        /\ x' = {| value := VStr ""; hyperlink := None |}).
Proof.
  intros Hrun.
  apply transform_workbook_ok_inv in Hrun
    as (ws & ws' & others & -> & -> & _ & Hcases).
  simpl. destruct Hcases as [[_ ->] | (Hs & Hc & Hframe & Hrows)].
  - split; [intros r c x Hx; by exists x | intros r c x' H1 H2; congruence].
  - assert (Hdec : forall r c,
               (c = col_b /\ start_row <= r <= max_row ws)
               \/ (c <> col_b \/ ~ (start_row <= r <= max_row ws))).
    { intros r c. destruct (decide (c = col_b)); [|by right; left].
      destruct (decide (start_row <= r <= max_row ws)); [by left|].
      by right; right. }
    split.
    + intros r c x Hx. destruct (Hdec r c) as [[-> Hr] | Hout].
      * eexists. split; [apply (Hrows r Hr)|].
        unfold cell_at. rewrite Hx. reflexivity.
      * exists x. by rewrite (Hframe r c Hout).
    + intros r c x' Hnone Hsome. destruct (Hdec r c) as [[-> Hr] | Hout].
      * split; [reflexivity|]. split; [exact Hr|].
        rewrite (Hrows r Hr) in Hsome. injection Hsome as <-.
        unfold cell_at. rewrite Hnone. reflexivity.
      * rewrite (Hframe r c Hout) in Hsome. congruence.
Qed.

Lemma transform_keeps_cells_and_hyperlinks_witness :
  exists x', first_sheet [sample_sheet_after] !! (21, 2) = Some x'
             /\ hyperlink x' = Some {| target := Some "https://sp/r" |}.
Proof.
  destruct (transform_keeps_cells_and_hyperlinks [sample_sheet]
              [sample_sheet_after] 19 2 " ### " 2) as [Hkeep _].
  - vm_compute. reflexivity.
  - apply (Hkeep 21 2 {| value := VStr "Report";
                         hyperlink := Some {| target := Some "https://sp/r" |} |}).
    vm_compute. reflexivity.
Defined.

(** A pass leaves [max_row] as it was: the cells it creates are at
    most in row [max_row]. *)
Theorem transform_keeps_max_row (wb wb' : workbook) start_row col_b sep n :
  transform_workbook wb start_row col_b sep = Ok (wb', n) ->
  max_row (first_sheet wb') = max_row (first_sheet wb).
Proof.
  intros Hrun.
  apply transform_workbook_ok_inv in Hrun
    as (ws & ws' & others & -> & -> & _ & Hcases).
  simpl. destruct Hcases as [[_ ->] | (Hs & Hc & Hframe & Hrows)];
    [reflexivity|].
  apply (TwicePass.max_row_after_pass ws ws' sep start_row col_b);
    [lia | exact Hframe | exact Hrows].
Qed.

Lemma transform_keeps_max_row_witness :
  max_row (first_sheet [sample_sheet_after]) = max_row (first_sheet [sample_sheet]).
Proof.
  apply (transform_keeps_max_row [sample_sheet] [sample_sheet_after]
           19 2 " ### " 2).
  vm_compute. reflexivity.
Defined.

Lemma second_pass_changes_nothing_witness :
  exists (ws' : worksheet) n,
    transform_workbook [sample_sheet] 19 2 " ### " = Ok ([ws'], n)
    /\ transform_workbook [ws'] 19 2 " ### " = Ok ([ws'], 0).
Proof.
  apply (TwicePass.second_pass_changes_nothing sample_sheet [] " ### " 19 2).
  - lia.
  - lia.
  - intros r Hr. rewrite SheetFacts.sample_sheet_max_row in Hr.
    assert (r = 19 \/ r = 20 \/ r = 21) as [-> | [-> | ->]] by lia;
      vm_compute; auto.
Defined.

(** A native hyperlink wins: a cell whose hyperlink has a non-empty
    target gets that target as its url and keeps its own text, whatever
    formula or other URL the text holds; the saved cell is the text
    followed by separator and target, or the text alone when it already
    contains the separator. *)
Theorem native_hyperlink_takes_precedence (ws : worksheet) (others : workbook)
    start_row col_b sep r (c : cell) (u : string) :
  1 <= start_row -> 1 <= col_b -> start_row <= r <= max_row ws ->
  ws !! (r, col_b) = Some c ->
  hyperlink_target c = Some u -> u <> "" ->
  text_and_url c = (cell_text c, Some u)
  /\ exists (ws' : worksheet) n,
       transform_workbook (ws :: others) start_row col_b sep
         = Ok (ws' :: others, n)
       /\ value_at ws' r col_b
          = VStr (if contains sep (cell_text c) then cell_text c
                  else cell_text c +:+ sep +:+ u).
Proof.
  intros Hs Hc Hr Hcell Hlink Hu.
  assert (Htu : text_and_url c = (cell_text c, Some u)).
  { unfold text_and_url, link_and_text, or_bare_url. rewrite Hlink.
    destruct u; [congruence | reflexivity]. }
  split; [exact Htu|].
  destruct (SheetFacts.transform_workbook_spec ws others start_row col_b sep
              Hs Hc) as (ws' & Hrun & _ & Hrows).
  eexists ws', _. split; [exact Hrun|].
  rewrite (SheetFacts.value_at_rewritten ws ws' sep r col_b (Hrows r Hr)).
  unfold cell_at. rewrite Hcell. simpl.
  destruct (contains sep (cell_text c)) eqn:Hsep.
  - by rewrite (SheetFacts.rewrite_cell_plain sep c _ _ Htu (or_intror Hsep)).
  - by rewrite (SheetFacts.rewrite_cell_annotated sep c _ _ Htu Hsep).
Qed.

Lemma native_hyperlink_takes_precedence_witness :
  exists (ws' : worksheet) n,
    transform_workbook [linked_formula_sheet] 19 2 " ### " = Ok ([ws'], n)
    /\ value_at ws' 19 2 = VStr (label_formula +:+ " ### https://sp/r").
Proof.
  destruct (native_hyperlink_takes_precedence linked_formula_sheet [] 19 2
              " ### " 19
              {| value := VStr label_formula;
                 hyperlink := Some {| target := Some "https://sp/r" |} |}
              "https://sp/r")
    as (_ & ws' & n & Hrun & Hval).
  - lia.
  - lia.
  - vm_compute. split; discriminate.
  - reflexivity.
  - reflexivity.
  - discriminate.
  - exists ws', n. split; [exact Hrun|]. rewrite Hval. reflexivity.
Defined.

(** the scan of a single quoted argument *)
Lemma parse_one_argument (u : string) :
  u <> "" -> all_chars not_dquote u = true ->
  parse_hyperlink_formula (hyperlink_formula (quoted u)) = (Some u, None).
Proof.
  intros Hu Hq. unfold parse_hyperlink_formula.
  rewrite FormulaFacts.strip_hyperlink_formula,
    FormulaFacts.upper_hyperlink_formula,
    FormulaFacts.inside_hyperlink_formula.
  cbn [negb]. unfold rstrip_char.
  rewrite (FormulaFacts.rstrip_by_one _ _ _ dquote
             (FormulaFacts.last_char_quoted u)) by reflexivity.
  rewrite <- (app_empty_r (quoted u)) at 1.
  rewrite (FormulaFacts.scan_quoted u Hq). cbn [String.append scan].
  assert (Hne : quoted u <> "") by discriminate.
  destruct (quoted u) as [|b buf] eqn:E; [congruence|].
  rewrite <- E. cbn [app]. rewrite FormulaFacts.strip_quoted,
    FormulaFacts.clean_quoted.
  destruct u; [congruence | reflexivity].
Qed.

(** A [=HYPERLINK("u")] formula without a friendly name gives the url
    [u] and no text: the cell keeps the formula text and gets separator
    and url appended to it. *)
Theorem one_argument_formula_keeps_formula_text (ws : worksheet)
    (others : workbook) start_row col_b sep r (c : cell) (u : string) :
  1 <= start_row -> 1 <= col_b -> start_row <= r <= max_row ws ->
  u <> "" -> all_chars not_dquote u = true ->
  ws !! (r, col_b) = Some c ->
  value c = VStr (hyperlink_formula (quoted u)) -> hyperlink c = None ->
  contains sep (hyperlink_formula (quoted u)) = false ->
  parse_hyperlink_formula (hyperlink_formula (quoted u)) = (Some u, None)
  /\ exists (ws' : worksheet) n,
       transform_workbook (ws :: others) start_row col_b sep
         = Ok (ws' :: others, n)
       /\ value_at ws' r col_b
          = VStr (hyperlink_formula (quoted u) +:+ sep +:+ u).
Proof.
  intros Hs Hc Hr Hu Hq Hcell Hv Hh Hsep.
  split; [by apply parse_one_argument|].
  assert (Htu : text_and_url c = (hyperlink_formula (quoted u), Some u)).
  { unfold text_and_url, link_and_text, hyperlink_target, cell_text.
    rewrite Hh, Hv. cbn [truthy py_str].
    change (startswith (hyperlink_formula (quoted u)) "=") with true.
    cbv iota. rewrite (parse_one_argument u Hu Hq). unfold or_bare_url.
    destruct u; [congruence | reflexivity]. }
  destruct (SheetFacts.transform_workbook_spec ws others start_row col_b sep
              Hs Hc) as (ws' & Hrun & _ & Hrows).
  eexists ws', _. split; [exact Hrun|].
  rewrite (SheetFacts.value_at_rewritten ws ws' sep r col_b (Hrows r Hr)).
  unfold cell_at. rewrite Hcell. simpl.
  by rewrite (SheetFacts.rewrite_cell_annotated sep c _ _ Htu Hsep).
Qed.

Lemma one_argument_formula_keeps_formula_text_witness :
  exists (ws' : worksheet) n,
    transform_workbook [comma_url_sheet] 19 2 " ### " = Ok ([ws'], n)
    /\ value_at ws' 19 2 = VStr after_first_pass.
Proof.
  destruct (one_argument_formula_keeps_formula_text comma_url_sheet [] 19 2
              " ### " 19
              {| value := VStr comma_url_formula; hyperlink := None |}
              "https://h/d?ids=1,2")
    as (_ & ws' & n & Hrun & Hval).
  - lia.
  - lia.
  - vm_compute. split; discriminate.
  - discriminate.
  - reflexivity.
  - reflexivity.
  - reflexivity.
  - reflexivity.
  - vm_compute. reflexivity.
  - exists ws', n. split; [exact Hrun | exact Hval].
Defined.

End TransformFacts.

(** ** Facts about the URL pattern *)

Module UrlReFacts.
Import PyStr PyStrFacts UrlRe Sheet Samples.
Local Open Scope Z_scope.



















End UrlReFacts.

(** ** More facts about [parse_hyperlink_formula] *)

Module ParseFacts.
Import PyStr PyStrFacts Formula Samples.

Lemma rstrip_by_all (p : ascii -> bool) (pad : string) :
  all_chars p pad = true -> rstrip_by p pad = "".
Proof.
  induction pad as [|c pad IH]; [reflexivity|]. simpl.
  intros [Hc Hpad]%andb_true_iff. by rewrite (IH Hpad), Hc.
Qed.

Lemma rstrip_by_app_all (p : ascii -> bool) (s pad : string) :
  all_chars p pad = true -> rstrip_by p (s +:+ pad) = rstrip_by p s.
Proof.
  intros Hpad. induction s as [|c s IH].
  - simpl. by apply rstrip_by_all.
  - change (String c s +:+ pad) with (String c (s +:+ pad)).
    by rewrite !FormulaFacts.rstrip_by_cons, IH.
Qed.

Lemma rstrip_by_app_kept (p : ascii -> bool) (a b : string) (k : ascii) :
  last_char a = Some k -> p k = false ->
  rstrip_by p (a +:+ b) = a +:+ rstrip_by p b.
Proof.
  intros Hl Hk. induction a as [|c a IH]; [discriminate|].
  change (String c a +:+ b) with (String c (a +:+ b)).
  rewrite FormulaFacts.rstrip_by_cons. destruct a as [|d a].
  - simpl in Hl. injection Hl as ->. simpl. rewrite Hk.
    by destruct (rstrip_by p b).
  - change (last_char (String c (String d a))) with (last_char (String d a)) in Hl.
    rewrite (IH Hl). reflexivity.
Qed.

Lemma lstrip_rstrip (s : string) : lstrip (rstrip s) = rstrip (lstrip s).
Proof.
  unfold rstrip. induction s as [|c s IH]; [reflexivity|].
  rewrite FormulaFacts.rstrip_by_cons. cbn [lstrip].
  destruct (is_space c) eqn:Hc.
  - rewrite <- IH. destruct (rstrip_by is_space s); [reflexivity|].
    cbn [lstrip]. by rewrite Hc.
  - rewrite FormulaFacts.rstrip_by_cons.
    destruct (rstrip_by is_space s); cbn [lstrip]; by rewrite Hc.
Qed.

Lemma strip_padded (pad1 s pad2 : string) :
  all_chars is_space pad1 = true -> all_chars is_space pad2 = true ->
  strip (pad1 +:+ s +:+ pad2) = strip s.
Proof.
  intros H1 H2. unfold strip, rstrip.
  rewrite <- app_assoc, (rstrip_by_app_all _ _ pad2 H2).
  fold (rstrip (pad1 +:+ s)). rewrite lstrip_rstrip.
  rewrite (FormulaFacts.lstrip_spaces pad1 s H1), <- lstrip_rstrip.
  reflexivity.
Qed.

(** Blanks around a formula do not matter to [parse_hyperlink_formula]:
    it works on the stripped text. *)
Theorem parse_ignores_surrounding_blanks (pad1 f pad2 : string) :
  all_chars is_space pad1 = true -> all_chars is_space pad2 = true ->
  parse_hyperlink_formula (pad1 +:+ f +:+ pad2) = parse_hyperlink_formula f.
Proof.
  intros H1 H2. unfold parse_hyperlink_formula.
  by rewrite (strip_padded pad1 f pad2 H1 H2).
Qed.

Lemma parse_ignores_surrounding_blanks_witness :
  parse_hyperlink_formula ("  " +:+ label_formula +:+ " ")
  = parse_hyperlink_formula label_formula.
Proof.
  apply (parse_ignores_surrounding_blanks "  " label_formula " ");
    reflexivity.
Defined.

Lemma upper_app (a b : string) : upper (a +:+ b) = upper a +:+ upper b.
Proof. induction a as [|c a IH]; simpl; [reflexivity | by rewrite IH]. Qed.

Lemma is_space_upper_char (c : ascii) : is_space (upper_char c) = is_space c.
Proof. destruct c as [[] [] [] [] [] [] [] []]; reflexivity. Qed.

Lemma upper_char_paren (c : ascii) : upper_char c = "("%char -> c = "("%char.
Proof.
  destruct c as [[] [] [] [] [] [] [] []]; vm_compute; intros H;
    first [reflexivity | discriminate H].
Qed.

Lemma upper_char_not_paren (c x : ascii) :
  upper_char c = x -> x <> "("%char -> Ascii.eqb c "(" = false.
Proof.
  intros Hc Hx. destruct (Ascii.eqb_spec c "("%char) as [->|]; [|reflexivity].
  vm_compute in Hc. congruence.
Qed.

(** the text after the opening parenthesis, for a function name written
    in any case *)
Lemma inside_any_case (name x : string) :
  upper name = "=HYPERLINK(" ->
  lstrip (name +:+ x) = name +:+ x
  /\ startswith (upper (name +:+ x)) "=HYPERLINK(" = true
  /\ drop (Z.to_nat (find_char "(" (name +:+ x) + 1)) (name +:+ x) = x
  /\ exists k, last_char name = Some k /\ is_space k = false.
Proof.
  intros Hname.
  destruct name as [|c0 [|c1 [|c2 [|c3 [|c4 [|c5 [|c6 [|c7 [|c8 [|c9 [|c10
    [|c11 tl]]]]]]]]]]]]; try discriminate.
  simpl in Hname. injection Hname as H0 H1 H2 H3 H4 H5 H6 H7 H8 H9 H10.
  apply upper_char_paren in H10 as ->.
  split; [|split; [|split]].
  - simpl. assert (is_space c0 = false) as ->; [|reflexivity].
    by rewrite <- is_space_upper_char, H0.
  - rewrite upper_app. simpl. rewrite H0, H1, H2, H3, H4, H5, H6, H7, H8, H9.
    reflexivity.
  - simpl.
    rewrite (upper_char_not_paren c0 _ H0), (upper_char_not_paren c1 _ H1),
      (upper_char_not_paren c2 _ H2), (upper_char_not_paren c3 _ H3),
      (upper_char_not_paren c4 _ H4), (upper_char_not_paren c5 _ H5),
      (upper_char_not_paren c6 _ H6), (upper_char_not_paren c7 _ H7),
      (upper_char_not_paren c8 _ H8), (upper_char_not_paren c9 _ H9)
      by discriminate.
    reflexivity.
  - exists "("%char. by split.
Qed.

(** The function name is read in any case: [=hyperlink(...)] or
    [=Hyperlink(...)] parse as [=HYPERLINK(...)] does. *)
Theorem parse_reads_name_in_any_case (name rest : string) :
  upper name = "=HYPERLINK(" ->
  parse_hyperlink_formula (name +:+ rest)
  = parse_hyperlink_formula ("=HYPERLINK(" +:+ rest).
Proof.
  intros Hname.
  assert (Hs : forall n, upper n = "=HYPERLINK(" ->
             let s := strip (n +:+ rest) in
             s = n +:+ rstrip rest
             /\ startswith (upper s) "=HYPERLINK(" = true
             /\ drop (Z.to_nat (find_char "(" s + 1)) s = rstrip rest).
  { intros n Hn.
    destruct (inside_any_case n (rstrip rest) Hn)
      as (Hl & Hup & Hin & k & Hk & Hsp).
    assert (Hstrip : strip (n +:+ rest) = n +:+ rstrip rest).
    { unfold strip, rstrip at 1.
      rewrite (rstrip_by_app_kept _ _ _ k Hk Hsp). exact Hl. }
    simpl. by rewrite Hstrip. }
  destruct (Hs name Hname) as (E1 & T1 & D1).
  destruct (Hs "=HYPERLINK(" eq_refl) as (E2 & T2 & D2).
  unfold parse_hyperlink_formula. cbv zeta in *.
  rewrite T1, T2, D1, D2. reflexivity.
Qed.

Lemma parse_reads_name_in_any_case_witness :
  parse_hyperlink_formula
    ("=Hyperlink(" +:+ two_arguments "https://x/y" "," " " "Label" +:+ ")")
  = parse_hyperlink_formula label_formula.
Proof.
  apply (parse_reads_name_in_any_case "=Hyperlink("). reflexivity.
Defined.

End ParseFacts.

(** ** More facts about the stability poll *)

Module PollFacts.
Import Gate Samples.
Local Open Scope Z_scope.

Implicit Types (fuel k d j : nat) (last same n : Z).

Section Settled.

Variable obs : nat -> sample.
Variable stable_secs : Z.

(** the size [n] the file settles at *)
Variable n : Z.
Hypothesis positive : 0 < n.

(** with [n] as the last size seen, [d] more samples of size [n] that
    fill the window end the loop with [True] *)
Lemma stable_loop_counts_up d :
  forall fuel same k,
    (forall i : nat, (k <= i < k + d)%nat -> obs i = Size n) ->
    stable_secs <= same + Z.of_nat d -> (d < fuel)%nat ->
    exists k', stable_loop fuel obs stable_secs n same k = Returned true k'
               /\ (k' <= k + d)%nat.
Proof.
  induction d as [|d IH]; intros fuel same k Hobs Hwin Hfuel;
    (destruct fuel as [|fuel]; [lia|]); cbn [stable_loop];
    destruct (Z.ltb_spec same stable_secs) as [Hlt|Hge];
    try (exists k; split; [reflexivity | lia]); [lia|].
  rewrite (Hobs k) by lia. rewrite Z.eqb_refl.
  destruct (Z.gtb_spec n 0) as [_|]; [|lia]. cbn [andb].
  destruct (IH fuel (same + 1) (S k)) as (k' & Hk' & Hle);
    [intros i Hi; apply Hobs; lia | lia | lia |].
  exists k'. split; [exact Hk' | lia].
Qed.

(** from any round up to [j]: sizes until [j], then the size [n] from
    sample [j] to sample [j + stable_secs] *)
Lemma stable_loop_settles j (w : nat) d :
  stable_secs <= Z.of_nat w ->
  (forall i : nat, (i < j)%nat -> exists a, obs i = Size a) ->
  (forall i : nat, (j <= i <= j + w)%nat -> obs i = Size n) ->
  forall fuel last same k,
    0 <= same -> (k + d = j)%nat -> (d + w + 1 < fuel)%nat ->
    exists k', stable_loop fuel obs stable_secs last same k = Returned true k'
               /\ (k' <= j + w + 1)%nat.
Proof.
  intros Hw Hbefore Hafter.
  induction d as [|d IH]; intros fuel last same k Hsame Hk Hfuel;
    (destruct fuel as [|fuel]; [lia|]); cbn [stable_loop];
    destruct (Z.ltb_spec same stable_secs) as [Hlt|Hge];
    try (exists k; split; [reflexivity | lia]).
  - assert (k = j) as -> by lia. rewrite (Hafter j) by lia.
    destruct ((n =? last) && (n >? 0)) eqn:Hc.
    + apply andb_true_iff in Hc as [He _]. apply Z.eqb_eq in He. subst last.
      destruct (stable_loop_counts_up w fuel (same + 1) (S j))
        as (k' & Hk' & Hle);
        [intros i Hi; apply Hafter; lia | lia | lia |].
      exists k'. split; [exact Hk' | lia].
    + destruct (stable_loop_counts_up w fuel 0 (S j)) as (k' & Hk' & Hle);
        [intros i Hi; apply Hafter; lia | lia | lia |].
      exists k'. split; [exact Hk' | lia].
  - destruct (Hbefore k) as [a ->]; [lia|].
    destruct ((a =? last) && (a >? 0));
      (edestruct (IH fuel) as (k' & Hk' & Hle);
       [| | | exists k'; split; [exact Hk' | exact Hle]]; lia).
Qed.

End Settled.

(** Once the file is there with one non-zero size from sample [j] to
    sample [j + w], with [w] at least the window, and was there at every
    sample before, the poll accepts it, after at most [j + w + 1]
    sleeps. *)
Theorem poll_accepts_settled_file (obs : nat -> sample) (stable_secs n : Z)
    (j w fuel : nat) :
  0 < n -> stable_secs <= Z.of_nat w ->
  (forall i : nat, (i < j)%nat -> exists a, obs i = Size a) ->
  (forall i : nat, (j <= i <= j + w)%nat -> obs i = Size n) ->
  (j + w + 1 < fuel)%nat ->
  exists k, is_file_stable fuel obs stable_secs = Returned true k
            /\ (k <= j + w + 1)%nat.
Proof.
  intros Hn Hw Hbefore Hafter Hfuel. unfold is_file_stable.
  apply (stable_loop_settles obs stable_secs n Hn j w j Hw Hbefore Hafter);
    lia.
Qed.

Lemma poll_accepts_settled_file_witness :
  exists k, is_file_stable 20 late_settling 5 = Returned true k
            /\ (k <= 3 + 5 + 1)%nat.
Proof.
  apply (poll_accepts_settled_file late_settling 5 40 3 5 20).
  - lia.
  - lia.
  - intros i Hi. unfold late_settling. eexists. reflexivity.
  - intros i Hi. unfold late_settling.
    destruct (Nat.ltb_spec i 3); [lia | reflexivity].
  - lia.
Defined.

End PollFacts.

(** ** More facts about the per-file handler *)

Module HandlerFacts.
Import PyStr Sheet Pipeline Samples.
Local Open Scope Z_scope.

Lemma bind_returns {A B} (m : M A) (k : A -> M B) (tr tr' : list event)
    (a : A) :
  m tr = (tr', Returns a) -> bind m k tr = k a tr'.
Proof. intros H. unfold bind. by rewrite H. Qed.

Lemma bind_log {B} (l : level) (m : message) (k : unit -> M B)
    (tr : list event) :
  bind (log l m) k tr = k tt (tr ++ [Log l m])%list.
Proof. reflexivity. Qed.

(** the conversion when Excel is there and every call succeeds *)
Lemma excel_xls_to_xlsx_ok (w : env) (tr : list event) :
  win32 w = true -> dispatch w = None -> wb_open w = None ->
  save_as w = None -> wb_close w = None -> app_quit w = None ->
  excel_xls_to_xlsx w tr
  = ((tr ++ [EnsureDispatch; SetVisible; WorkbooksOpen; SaveAs; WbClose;
             AppQuit])%list, Returns ".xlsx").
Proof.
  intros Hwin Hd Ho Hs Hc Hq.
  unfold excel_xls_to_xlsx, call, bind, emit, ret.
  rewrite Hwin, Hd, Ho, Hs, Hc, Hq. cbn. by rewrite <- !app_assoc.
Qed.

(** the steps from the extension check on, when every call succeeds *)
Lemma transform_and_publish_ok (w : env) (cfg : config) (sfx : string)
    (wb wb' : workbook) (n : Z) (tr : list event) :
  lower sfx = ".xlsx" -> load w = Ok wb ->
  Sheet.transform_workbook wb (start_row cfg) (col_b cfg) (sep cfg)
    = Ok (wb', n) ->
  save w = None -> copy_processed w = None -> mkdir w = None ->
  copy_dest w = None ->
  transform_and_publish w cfg sfx tr
  = ((tr ++ [Log INFO TransformingWorkbook; LoadWorkbook; SaveWorkbook wb';
             Log INFO (TransformComplete n); CopyProcessed; Mkdir;
             CopyToSharePoint; Log INFO CopiedToSharePoint])%list,
     Returns tt).
Proof.
  intros Hsfx Hload Hrun Hsave Hcopy Hmk Hdest.
  unfold transform_and_publish, Pipeline.transform_workbook,
    copy_to_sharepoint, call, log, bind, emit, ret.
  rewrite Hsfx, Hload, Hrun, Hsave, Hcopy, Hmk, Hdest. cbn.
  by rewrite <- !app_assoc.
Qed.

(** the gate of a fresh candidate that the poll accepts *)
Lemma process_body_gate (fuel : nat) (cfg : config) (w : env) (k : nat) :
  is_dir w = false -> matches w = true ->
  Gate.is_file_fresh_enough (mtime w) (now w) MAX_FILE_AGE_HOURS = true ->
  Gate.is_file_stable fuel (samples w) 5 = Gate.Returned true k ->
  process_body fuel cfg w []
  = (if String.eqb (lower (suffix w)) ".xls" then
       if negb (win32 w) then log ERROR ExcelUnavailable
       else
         log INFO ConvertingXls ;;
         src_suffix <- excel_xls_to_xlsx w ;;
         log INFO ConvertedTo ;;
         transform_and_publish w cfg src_suffix
     else transform_and_publish w cfg (suffix w))
      (Log INFO DetectedCandidate :: repeat Sleep k).
Proof.
  intros Hdir Hmatch Hfresh Hpoll.
  unfold process_body, is_file_stable. rewrite Hdir, Hmatch, Hfresh, Hpoll.
  cbn [negb]. unfold bind at 1. unfold log at 1, emit at 1. cbn [app].
  unfold bind at 1. unfold bind at 1.
  rewrite PipelineFacts.sleeps_trace. reflexivity.
Qed.

(** A fresh [.xlsx] candidate that the poll accepts, on a host where
    every call succeeds, is loaded, transformed, saved, copied under the
    stamped name and copied to the SharePoint folder, in this order,
    with one log line per step; the handler returns. *)
Theorem xlsx_candidate_is_transformed_then_published (fuel : nat)
    (cfg : config) (w : env) (k : nat) (wb wb' : workbook) (n : Z) :
  is_dir w = false -> matches w = true ->
  Gate.is_file_fresh_enough (mtime w) (now w) MAX_FILE_AGE_HOURS = true ->
  Gate.is_file_stable fuel (samples w) 5 = Gate.Returned true k ->
  lower (suffix w) = ".xlsx" -> load w = Ok wb ->
  Sheet.transform_workbook wb (start_row cfg) (col_b cfg) (sep cfg)
    = Ok (wb', n) ->
  save w = None -> copy_processed w = None -> mkdir w = None ->
  copy_dest w = None ->
  run fuel cfg w
  = ((Log INFO DetectedCandidate :: repeat Sleep k
      ++ [Log INFO TransformingWorkbook; LoadWorkbook; SaveWorkbook wb';
          Log INFO (TransformComplete n); CopyProcessed; Mkdir;
          CopyToSharePoint; Log INFO CopiedToSharePoint])%list,
     Returns tt).
Proof.
  intros Hdir Hmatch Hfresh Hpoll Hsfx Hload Hrun Hsave Hcopy Hmk Hdest.
  unfold run, _process, try_except.
  rewrite (process_body_gate fuel cfg w k Hdir Hmatch Hfresh Hpoll), Hsfx.
  cbn [String.eqb Ascii.eqb Bool.eqb].
  by rewrite (transform_and_publish_ok w cfg (suffix w) wb wb' n _
                Hsfx Hload Hrun Hsave Hcopy Hmk Hdest).
Qed.

Lemma xlsx_candidate_is_transformed_then_published_witness :
  run 10 defaults calm
  = ((Log INFO DetectedCandidate :: repeat Sleep 6
      ++ [Log INFO TransformingWorkbook; LoadWorkbook;
          SaveWorkbook [sample_sheet_after];
          Log INFO (TransformComplete 2); CopyProcessed; Mkdir;
          CopyToSharePoint; Log INFO CopiedToSharePoint])%list,
     Returns tt).
Proof.
  apply (xlsx_candidate_is_transformed_then_published 10 defaults calm 6
           [sample_sheet] [sample_sheet_after] 2);
    reflexivity.
Defined.

(** A fresh legacy [.xls] candidate that the poll accepts is converted
    by Excel first and the converted [.xlsx] then goes through the same
    steps; where the Excel automation is missing the handler logs an
    error and does nothing else. *)
Theorem xls_candidate_is_converted_first (fuel : nat) (cfg : config)
    (w : env) (k : nat) :
  is_dir w = false -> matches w = true ->
  Gate.is_file_fresh_enough (mtime w) (now w) MAX_FILE_AGE_HOURS = true ->
  Gate.is_file_stable fuel (samples w) 5 = Gate.Returned true k ->
  lower (suffix w) = ".xls" ->
  (win32 w = false ->
   run fuel cfg w
   = ((Log INFO DetectedCandidate :: repeat Sleep k
       ++ [Log ERROR ExcelUnavailable])%list, Returns tt))
  /\ (forall (wb wb' : workbook) (n : Z),
        win32 w = true -> dispatch w = None -> wb_open w = None ->
        save_as w = None -> wb_close w = None -> app_quit w = None ->
        load w = Ok wb ->
        Sheet.transform_workbook wb (start_row cfg) (col_b cfg) (sep cfg)
          = Ok (wb', n) ->
        save w = None -> copy_processed w = None -> mkdir w = None ->
        copy_dest w = None ->
        run fuel cfg w
        = ((Log INFO DetectedCandidate :: repeat Sleep k
            ++ [Log INFO ConvertingXls; EnsureDispatch; SetVisible;
                WorkbooksOpen; SaveAs; WbClose; AppQuit; Log INFO ConvertedTo;
                Log INFO TransformingWorkbook; LoadWorkbook; SaveWorkbook wb';
                Log INFO (TransformComplete n); CopyProcessed; Mkdir;
                CopyToSharePoint; Log INFO CopiedToSharePoint])%list,
           Returns tt)).
Proof.
  intros Hdir Hmatch Hfresh Hpoll Hsfx.
  unfold run, _process, try_except.
  rewrite (process_body_gate fuel cfg w k Hdir Hmatch Hfresh Hpoll), Hsfx.
  cbn [String.eqb Ascii.eqb Bool.eqb]. split.
  - intros ->. reflexivity.
  - intros wb wb' n Hwin Hd Ho Hs Hc Hq Hload Hrun Hsave Hcopy Hmk Hdest.
    rewrite Hwin. cbn [negb].
    erewrite bind_returns by reflexivity.
    erewrite bind_returns by (by apply excel_xls_to_xlsx_ok).
    erewrite bind_returns by reflexivity.
    rewrite (transform_and_publish_ok w cfg ".xlsx" wb wb' n)
      by (assumption || reflexivity).
    cbn [app]. by rewrite <- !app_assoc.
Qed.

Lemma xls_candidate_is_converted_first_witness :
  run 10 defaults (with_excel calm None None None)
  = ((Log INFO DetectedCandidate :: repeat Sleep 6
      ++ [Log INFO ConvertingXls; EnsureDispatch; SetVisible;
          WorkbooksOpen; SaveAs; WbClose; AppQuit; Log INFO ConvertedTo;
          Log INFO TransformingWorkbook; LoadWorkbook;
          SaveWorkbook [sample_sheet_after];
          Log INFO (TransformComplete 2); CopyProcessed; Mkdir;
          CopyToSharePoint; Log INFO CopiedToSharePoint])%list,
     Returns tt).
Proof.
  destruct (xls_candidate_is_converted_first 10 defaults
              (with_excel calm None None None) 6) as [_ Hok];
    [reflexivity | reflexivity | reflexivity | reflexivity | reflexivity |].
  apply (Hok [sample_sheet] [sample_sheet_after] 2); reflexivity.
Defined.

(** *** What reaches the SharePoint folder *)

(** the publish copy inside [transform_and_publish] comes after a load,
    a transform and a save that succeeded *)
Lemma transform_and_publish_copy (w : env) (cfg : config) (sfx : string)
    (tr : list event) :
  In CopyToSharePoint (transform_and_publish w cfg sfx tr).1 ->
  In CopyToSharePoint tr
  \/ (lower sfx = ".xlsx"
      /\ exists (wb wb' : workbook) (n : Z),
           load w = Ok wb
           /\ Sheet.transform_workbook wb (start_row cfg) (col_b cfg) (sep cfg)
              = Ok (wb', n)
           /\ save w = None /\ copy_processed w = None /\ mkdir w = None
           /\ In (SaveWorkbook wb') (transform_and_publish w cfg sfx tr).1).
Proof.
  unfold transform_and_publish, Pipeline.transform_workbook,
    copy_to_sharepoint, call, log, bind, emit, ret, raise.
  destruct (String.eqb_spec (lower sfx) ".xlsx") as [Hsfx|Hsfx]; cbn [negb].
  2:{ cbn. rewrite in_app_iff. cbn. intros [H|[H|[]]]; [by left | discriminate]. }
  destruct (load w) as [wb|e] eqn:Hload.
  2:{ cbn. rewrite !in_app_iff. cbn. intuition discriminate. }
  destruct (Sheet.transform_workbook wb _ _ _) as [[wb' n]|e] eqn:Hrun.
  2:{ cbn. rewrite !in_app_iff. cbn. intuition discriminate. }
  destruct (save w) as [e|] eqn:Hsave.
  { cbn. rewrite !in_app_iff. cbn. intuition discriminate. }
  destruct (copy_processed w) as [e|] eqn:Hcopy.
  { cbn. rewrite !in_app_iff. cbn. intuition discriminate. }
  destruct (mkdir w) as [e|] eqn:Hmk.
  { cbn. rewrite !in_app_iff. cbn. intuition discriminate. }
  intros _. right. split; [exact Hsfx|]. exists wb, wb', n.
  repeat split; try reflexivity; try assumption.
  destruct (copy_dest w); cbn; rewrite !in_app_iff; cbn; tauto.
Qed.

Lemma excel_xls_to_xlsx_copy (w : env) (tr : list event) :
  In CopyToSharePoint (excel_xls_to_xlsx w tr).1 -> In CopyToSharePoint tr.
Proof.
  unfold excel_xls_to_xlsx, call, bind, emit, ret, raise.
  destruct (negb (win32 w)); [trivial|].
  destruct (dispatch w), (wb_open w), (save_as w), (wb_close w), (app_quit w);
    cbn; rewrite !in_app_iff; cbn; intuition discriminate.
Qed.

Lemma excel_xls_to_xlsx_returns (w : env) (tr : list event) (sfx : string) :
  (excel_xls_to_xlsx w tr).2 = Returns sfx -> sfx = ".xlsx".
Proof.
  unfold excel_xls_to_xlsx, call, bind, emit, ret, raise.
  destruct (negb (win32 w)); [discriminate|].
  destruct (dispatch w), (wb_open w), (save_as w), (wb_close w), (app_quit w);
    cbn; congruence.
Qed.

Lemma not_in_gate_trace (k : nat) (l : list event) :
  In CopyToSharePoint (Log INFO DetectedCandidate :: repeat Sleep k ++ l) ->
  In CopyToSharePoint l.
Proof.
  intros [H|H]; [discriminate|]. apply in_app_iff in H as [H|H]; [|exact H].
  apply repeat_spec in H. discriminate.
Qed.

(** A file is copied to the SharePoint folder only if it is no
    directory, its name matches, it is fresh, the poll accepted it, it
    has (or was converted to) the [.xlsx] extension, and its workbook
    was loaded, transformed and saved and the stamped copy and the
    folder were made: the trace then holds the save of the transformed
    workbook. *)
Theorem published_only_after_gate_and_save (fuel : nat) (cfg : config)
    (w : env) :
  In CopyToSharePoint (run fuel cfg w).1 ->
  is_dir w = false /\ matches w = true
  /\ Gate.is_file_fresh_enough (mtime w) (now w) MAX_FILE_AGE_HOURS = true
  /\ (exists k, Gate.is_file_stable fuel (samples w) 5 = Gate.Returned true k)
  /\ (lower (suffix w) = ".xlsx" \/ (lower (suffix w) = ".xls" /\ win32 w = true))
  /\ exists (wb wb' : workbook) (n : Z),
       load w = Ok wb
       /\ Sheet.transform_workbook wb (start_row cfg) (col_b cfg) (sep cfg)
          = Ok (wb', n)
       /\ save w = None /\ copy_processed w = None /\ mkdir w = None
       /\ In (SaveWorkbook wb') (run fuel cfg w).1.
Proof.
  unfold run, _process, try_except.
  destruct (process_body fuel cfg w []) as [tr o] eqn:Hbody.
  intros Hin.
  assert (Hin' : In CopyToSharePoint tr).
  { revert Hin. destruct o as [[]|e|]; cbn; try tauto.
    unfold emit. cbn. rewrite in_app_iff. cbn.
    intros [H|[H|[]]]; [exact H | discriminate]. }
  assert (Hsave : forall wb', In (SaveWorkbook wb') tr ->
            In (SaveWorkbook wb')
               (match o with
                | Returns a => (tr, Returns a)
                | Raises e => emit (LogException (ErrorProcessingFile e)) tr
                | Diverges => (tr, Diverges)
                end).1).
  { intros wb' H. destruct o as [[]|e|]; cbn; try exact H.
    apply in_app_iff. by left. }
  clear Hin. revert Hbody. unfold process_body, is_file_stable.
  destruct (is_dir w); [intros [= <- _]; destruct Hin'|].
  destruct (matches w); cbn [negb]; [|intros [= <- _]; destruct Hin'].
  destruct (Gate.is_file_fresh_enough _ _ _); cbn [negb];
    [|intros [= <- _]; cbn in Hin'; intuition discriminate].
  erewrite bind_log.
  destruct (Gate.is_file_stable fuel (samples w) 5) as [b k|e k|] eqn:Hpoll.
  3:{ intros [= <- _]. cbn in Hin'. intuition discriminate. }
  2:{ unfold bind. rewrite PipelineFacts.sleeps_trace. intros [= <- _].
      cbn [app] in Hin'. rewrite <- (app_nil_r (repeat Sleep k)) in Hin'.
      apply not_in_gate_trace in Hin'. destruct Hin'. }
  unfold bind at 1. unfold bind at 1. rewrite PipelineFacts.sleeps_trace.
  unfold ret at 1. cbn [app].
  destruct b; cbn [negb].
  2:{ intros [= <- _]. apply not_in_gate_trace in Hin'.
      cbn in Hin'. intuition discriminate. }
  intros Hbody. repeat split; [by exists k | |].
  - revert Hbody Hin'.
    destruct (String.eqb_spec (lower (suffix w)) ".xls") as [Hxls|Hxls].
    + destruct (win32 w); [by right|]. cbn [negb].
      intros [= <- _] Hin'. apply not_in_gate_trace in Hin'.
      cbn in Hin'. intuition discriminate.
    + intros Hbody Hin'. left.
      pose proof (transform_and_publish_copy w cfg (suffix w)
                    (Log INFO DetectedCandidate :: repeat Sleep k)) as Hcopy.
      rewrite Hbody in Hcopy. destruct (Hcopy Hin') as [H|[H _]]; [|exact H].
      rewrite <- (app_nil_r (repeat Sleep k)) in H.
      apply not_in_gate_trace in H. destruct H.
  - revert Hbody Hin'.
    destruct (String.eqb (lower (suffix w)) ".xls").
    + destruct (win32 w); cbn [negb].
      2:{ intros [= <- _] Hin'. apply not_in_gate_trace in Hin'.
          cbn in Hin'. intuition discriminate. }
      erewrite bind_log. unfold bind at 1.
      pose proof (excel_xls_to_xlsx_copy w
                    ((Log INFO DetectedCandidate :: repeat Sleep k)
                     ++ [Log INFO ConvertingXls])%list) as Hxl.
      pose proof (excel_xls_to_xlsx_returns w
                    ((Log INFO DetectedCandidate :: repeat Sleep k)
                     ++ [Log INFO ConvertingXls])%list) as Hret.
      destruct (excel_xls_to_xlsx w _) as [tr1 [sfx|e|]].
      2,3: intros [= <- _] Hin'; apply Hxl in Hin'; cbn in Hin';
        apply not_in_gate_trace in Hin'; cbn in Hin'; intuition discriminate.
      erewrite bind_log. intros Hbody Hin'.
      pose proof (transform_and_publish_copy w cfg sfx
                    (tr1 ++ [Log INFO ConvertedTo])%list) as Hcopy.
      rewrite Hbody in Hcopy. destruct (Hcopy Hin') as [H|[_ H]].
      * apply in_app_iff in H as [H|H]; [|cbn in H; intuition discriminate].
        apply Hxl in H. cbn in H. apply not_in_gate_trace in H.
        cbn in H. intuition discriminate.
      * destruct H as (wb & wb' & n & H1 & H2 & H3 & H4 & H5 & H6).
        exists wb, wb', n. repeat split; try assumption. by apply Hsave.
    + intros Hbody Hin'.
      pose proof (transform_and_publish_copy w cfg (suffix w)
                    (Log INFO DetectedCandidate :: repeat Sleep k)) as Hcopy.
      rewrite Hbody in Hcopy. destruct (Hcopy Hin') as [H|[_ H]].
      * rewrite <- (app_nil_r (repeat Sleep k)) in H.
        apply not_in_gate_trace in H. destruct H.
      * destruct H as (wb & wb' & n & H1 & H2 & H3 & H4 & H5 & H6).
        exists wb, wb', n. repeat split; try assumption. by apply Hsave.
Qed.

Lemma published_only_after_gate_and_save_witness :
  In CopyToSharePoint (run 10 defaults calm).1
  /\ is_dir calm = false /\ save calm = None
  /\ In (SaveWorkbook [sample_sheet_after]) (run 10 defaults calm).1.
Proof.
  assert (Hin : In CopyToSharePoint (run 10 defaults calm).1).
  { vm_compute. repeat (first [left; reflexivity | right]). }
  split; [exact Hin|].
  destruct (published_only_after_gate_and_save 10 defaults calm Hin)
    as (Hdir & _ & _ & _ & _ & wb & wb' & n & Hload & Hpass & Hsave & _ & _
        & Hsaved).
  split; [exact Hdir|]. split; [exact Hsave|].
  injection Hload as <-. vm_compute in Hpass. injection Hpass as <- _.
  exact Hsaved.
Defined.

(** *** Skips and failures *)

(** A fresh, stable candidate whose extension is neither [.xls] nor
    [.xlsx] (in any case) gets one warning: nothing is loaded, converted,
    saved or copied. *)
Theorem unsupported_extension_is_only_warned (fuel : nat) (cfg : config)
    (w : env) (k : nat) :
  is_dir w = false -> matches w = true ->
  Gate.is_file_fresh_enough (mtime w) (now w) MAX_FILE_AGE_HOURS = true ->
  Gate.is_file_stable fuel (samples w) 5 = Gate.Returned true k ->
  lower (suffix w) <> ".xls" -> lower (suffix w) <> ".xlsx" ->
  run fuel cfg w
  = ((Log INFO DetectedCandidate :: repeat Sleep k
      ++ [Log WARNING UnsupportedExtension])%list, Returns tt).
Proof.
  intros Hdir Hmatch Hfresh Hpoll Hxls Hxlsx.
  unfold run, _process, try_except.
  rewrite (process_body_gate fuel cfg w k Hdir Hmatch Hfresh Hpoll).
  destruct (String.eqb_spec (lower (suffix w)) ".xls") as [E|_];
    [contradiction|].
  unfold transform_and_publish.
  destruct (String.eqb_spec (lower (suffix w)) ".xlsx") as [E|_];
    [contradiction|].
  reflexivity.
Qed.

Lemma unsupported_extension_is_only_warned_witness :
  run 10 defaults text_upload
  = ((Log INFO DetectedCandidate :: repeat Sleep 6
      ++ [Log WARNING UnsupportedExtension])%list, Returns tt).
Proof.
  apply (unsupported_extension_is_only_warned 10 defaults text_upload 6);
    first [reflexivity | discriminate].
Defined.

(** When the copy into the SharePoint folder fails, the failure is
    logged and the handler returns. Nothing is undone: the workbook was
    rewritten on disk and the stamped copy was made before, and the
    success line is not logged. *)
Theorem failed_publish_is_logged_not_undone (fuel : nat) (cfg : config)
    (w : env) (k : nat) (wb wb' : workbook) (n : Z) (e : exn) :
  is_dir w = false -> matches w = true ->
  Gate.is_file_fresh_enough (mtime w) (now w) MAX_FILE_AGE_HOURS = true ->
  Gate.is_file_stable fuel (samples w) 5 = Gate.Returned true k ->
  lower (suffix w) = ".xlsx" -> load w = Ok wb ->
  Sheet.transform_workbook wb (start_row cfg) (col_b cfg) (sep cfg)
    = Ok (wb', n) ->
  save w = None -> copy_processed w = None -> mkdir w = None ->
  copy_dest w = Some e ->
  run fuel cfg w
  = ((Log INFO DetectedCandidate :: repeat Sleep k
      ++ [Log INFO TransformingWorkbook; LoadWorkbook; SaveWorkbook wb';
          Log INFO (TransformComplete n); CopyProcessed; Mkdir;
          CopyToSharePoint; LogException (ErrorProcessingFile e)])%list,
     Returns tt).
Proof.
  intros Hdir Hmatch Hfresh Hpoll Hsfx Hload Hrun Hsave Hcopy Hmk Hdest.
  unfold run, _process, try_except.
  rewrite (process_body_gate fuel cfg w k Hdir Hmatch Hfresh Hpoll), Hsfx.
  cbn [String.eqb Ascii.eqb Bool.eqb].
  unfold transform_and_publish, Pipeline.transform_workbook,
    copy_to_sharepoint, call, log, bind, emit, ret, raise.
  rewrite Hsfx, Hload, Hrun, Hsave, Hcopy, Hmk, Hdest. cbn.
  by rewrite <- !app_assoc.
Qed.

Lemma failed_publish_is_logged_not_undone_witness :
  run 10 defaults publish_fails
  = ((Log INFO DetectedCandidate :: repeat Sleep 6
      ++ [Log INFO TransformingWorkbook; LoadWorkbook;
          SaveWorkbook [sample_sheet_after];
          Log INFO (TransformComplete 2); CopyProcessed; Mkdir;
          CopyToSharePoint; LogException (ErrorProcessingFile OSError)])%list,
     Returns tt).
Proof.
  apply (failed_publish_is_logged_not_undone 10 defaults publish_fails 6
           [sample_sheet] [sample_sheet_after] 2 OSError);
    reflexivity.
Defined.

(** *** The trace only grows *)













End HandlerFacts.

(** ** Facts about the first-run setup *)

Module ConfigFacts.
Import PyStr Config Samples.
Local Open Scope Z_scope.

Implicit Types (d : desk) (cfg : gmap string json) (key : string).

Lemma folder_missing_false d cfg key :
  folder_missing d cfg key = Some false <-> folder_ready d cfg key.
Proof.
  unfold folder_missing, folder_ready. split.
  - destruct (cfg !! key) as [j|]; [|discriminate].
    destruct (json_truthy j) eqn:Hj; [|discriminate]. simpl.
    destruct j as [| | |s|]; try discriminate.
    intros [= He]. exists s. split; [reflexivity|].
    split; [|by apply negb_false_iff].
    simpl in Hj. intros ->. discriminate.
  - intros (s & -> & Hne & Hex). simpl.
    destruct (String.eqb_spec s ""); [congruence|]. simpl. by rewrite Hex.
Qed.

Lemma folder_ready_insert_ne d cfg key key' (j : json) :
  key <> key' -> folder_ready d cfg key -> folder_ready d (<[key' := j]> cfg) key.
Proof.
  intros Hne (s & Hs & H). exists s. by rewrite lookup_insert_ne.
Qed.

Lemma sharepoint_step_done d (st st' : gmap string json * bool) asked :
  sharepoint_step d st = (asked, inl st') ->
  step_done d "sharepoint_folder" st st' asked.
Proof.
  destruct st as [cfg changed]. unfold sharepoint_step.
  destruct (folder_missing d cfg "sharepoint_folder") as [[|]|] eqn:Hm;
    [| |discriminate].
  - unfold prompt_explain_and_pick_sharepoint.
    destruct (String.eqb_spec (picked_sharepoint d) "") as [|Hne];
      [discriminate|].
    destruct (path_exists d (picked_sharepoint d)) eqn:Hex; [|discriminate].
    simpl. intros [= <- <-]. split; [|split].
    + exists (picked_sharepoint d). simpl. by rewrite lookup_insert_eq.
    + intros k Hk. simpl. by rewrite lookup_insert_ne.
    + right. split; [discriminate|]. split; [reflexivity|].
      intros c [H|[H|[]]]; discriminate.
  - intros [= <- <-]. split; [by apply folder_missing_false|].
    split; [reflexivity | by left].
Qed.

Lemma watch_step_done d (st st' : gmap string json * bool) asked :
  downloads d <> "" ->
  watch_step d st = (asked, inl st') ->
  step_done d "watch_folder" st st' asked.
Proof.
  intros Hdl. destruct st as [cfg changed]. unfold watch_step.
  destruct (folder_missing d cfg "watch_folder") as [[|]|] eqn:Hm;
    [| |discriminate].
  - destruct (prompt_optional_watch_folder d (downloads d)) as [a wf] eqn:Hp.
    destruct (path_exists d wf) eqn:Hex; [|discriminate].
    simpl. intros [= <- <-].
    assert (Hwf : wf <> "" /\ a <> [] /\ forall c, ~ In (SaveSettings c) a).
    { revert Hp. unfold prompt_optional_watch_folder.
      destruct (other_watch_folder d).
      - destruct (String.eqb_spec (picked_watch d) "");
          intros [= <- <-]; (split; [assumption|]); (split; [discriminate|]);
          intros c [H|[H|[]]]; discriminate.
      - intros [= <- <-]. split; [assumption|]. split; [discriminate|].
        intros c [H|[]]; discriminate. }
    destruct Hwf as (Hne & Ha & Hsave). split; [|split].
    + exists wf. simpl. by rewrite lookup_insert_eq.
    + intros k Hk. simpl. by rewrite lookup_insert_ne.
    + right. by repeat split.
  - intros [= <- <-]. split; [by apply folder_missing_false|].
    split; [reflexivity | by left].
Qed.

Lemma fill_default_spec key (v : json) (st : gmap string json * bool) :
  let st' := fill_default key v st in
  is_Some (st'.1 !! key)
  /\ (forall k w, st.1 !! k = Some w -> st'.1 !! k = Some w)
  /\ (forall k, k <> key -> st'.1 !! k = st.1 !! k)
  /\ (st.1 !! key = None -> st'.1 !! key = Some v /\ st'.2 = true)
  /\ (is_Some (st.1 !! key) -> st' = st).
Proof.
  unfold fill_default. destruct (st.1 !! key) as [w|] eqn:Hk; simpl.
  - split; [by rewrite Hk|]. split; [done|]. split; [done|].
    split; [discriminate | done].
  - split; [rewrite lookup_insert_eq; by eexists|].
    split; [|split; [|split]].
    + intros k w Hw. destruct (decide (key = k)) as [<-|Hne]; [congruence|].
      by rewrite lookup_insert_ne.
    + intros k Hne. by rewrite lookup_insert_ne.
    + intros _. by rewrite lookup_insert_eq.
    + intros [w Hw]. discriminate.
Qed.

Lemma fill_defaults_spec (st : gmap string json * bool) :
  let st' := fill_defaults st in
  (forall k, k ∈ default_keys -> is_Some (st'.1 !! k))
  /\ (forall k w, st.1 !! k = Some w -> st'.1 !! k = Some w)
  /\ (forall k, k ∉ default_keys -> st'.1 !! k = st.1 !! k)
  /\ ((forall k, k ∈ default_keys -> is_Some (st.1 !! k)) -> st' = st)
  /\ (st.2 = true -> st'.2 = true).
Proof.
  unfold fill_defaults.
  set (s1 := fill_default "pattern" (JStr DEFAULT_WATCH_GLOB) st).
  set (s2 := fill_default "start_row" (JNum 19) s1).
  set (s3 := fill_default "col_b" (JNum 2) s2).
  destruct (fill_default_spec "pattern" (JStr DEFAULT_WATCH_GLOB) st)
    as (P1 & K1 & O1 & _ & I1).
  destruct (fill_default_spec "start_row" (JNum 19) s1)
    as (P2 & K2 & O2 & _ & I2).
  destruct (fill_default_spec "col_b" (JNum 2) s2) as (P3 & K3 & O3 & _ & I3).
  destruct (fill_default_spec "separator" (JStr " ### ") s3)
    as (P4 & K4 & O4 & _ & I4).
  fold s1 in P1, K1, O1, I1. fold s2 in P2, K2, O2, I2.
  fold s3 in P3, K3, O3, I3. cbv zeta in *.
  set (s4 := fill_default "separator" (JStr " ### ") s3) in *.
  assert (Hkeep : forall k w, st.1 !! k = Some w -> s4.1 !! k = Some w)
    by (intros k w H; by apply K4, K3, K2, K1).
  split; [|split; [|split; [|split]]].
  - intros k Hk. unfold default_keys in Hk.
    repeat (apply elem_of_cons in Hk as [-> | Hk]).
    + destruct P1 as [w Hw]. exists w. by apply K4, K3, K2.
    + destruct P2 as [w Hw]. exists w. by apply K4, K3.
    + destruct P3 as [w Hw]. exists w. by apply K4.
    + exact P4.
    + by apply elem_of_nil in Hk.
  - exact Hkeep.
  - intros k Hk. unfold default_keys in Hk.
    rewrite O4, O3, O2, O1; [reflexivity| | | |];
      intros ->; apply Hk; set_solver.
  - intros Hall.
    assert (E1 : s1 = st) by (apply I1, Hall; set_solver).
    assert (E2 : s2 = s1) by (apply I2; rewrite E1; apply Hall; set_solver).
    assert (E3 : s3 = s2)
      by (apply I3; rewrite E2, E1; apply Hall; set_solver).
    assert (E4 : s4 = s3)
      by (apply I4; rewrite E3, E2, E1; apply Hall; set_solver).
    congruence.
  - intros Hch. subst s4 s3 s2 s1. unfold fill_default.
    repeat (destruct (_ !! _); simpl; try assumption; try reflexivity).
Qed.

(** a folder entry that is ready needs no dialog *)
Lemma sharepoint_step_ready d cfg (changed : bool) :
  folder_ready d cfg "sharepoint_folder" ->
  sharepoint_step d (cfg, changed) = ([], inl (cfg, changed)).
Proof.
  intros H. apply folder_missing_false in H. unfold sharepoint_step.
  by rewrite H.
Qed.

Lemma watch_step_ready d cfg (changed : bool) :
  folder_ready d cfg "watch_folder" ->
  watch_step d (cfg, changed) = ([], inl (cfg, changed)).
Proof.
  intros H. apply folder_missing_false in H. unfold watch_step.
  by rewrite H.
Qed.

(** a folder step stops with an exit or a [TypeError], never with the
    settings *)
Lemma sharepoint_step_stops d (st : gmap string json * bool) asked cfg :
  sharepoint_step d st = (asked, inr (Configured cfg)) -> False.
Proof.
  destruct st as [c ch]. unfold sharepoint_step,
    prompt_explain_and_pick_sharepoint.
  destruct (folder_missing d c "sharepoint_folder") as [[|]|];
    try discriminate.
  destruct (String.eqb (picked_sharepoint d) ""); [discriminate|].
  destruct (negb (path_exists d (picked_sharepoint d))); discriminate.
Qed.

Lemma watch_step_stops d (st : gmap string json * bool) asked cfg :
  watch_step d st = (asked, inr (Configured cfg)) -> False.
Proof.
  destruct st as [c ch]. unfold watch_step.
  destruct (folder_missing d c "watch_folder") as [[|]|]; try discriminate.
  destruct (prompt_optional_watch_folder d (downloads d)) as [a wf].
  destruct (negb (path_exists d wf)); discriminate.
Qed.

(** the steps of a call that returns the settings *)
Lemma ensure_config_configured d (file : settings_file) (reset : bool)
    (asked : list dialog) cfg :
  ensure_config d file reset = (asked, Configured cfg) ->
  exists (cfg0 : gmap string json) (st1 st2 : gmap string json * bool)
         (a1 a2 a3 : list dialog),
    (if reset then Some ∅ else load_settings file) = Some cfg0
    /\ sharepoint_step d (cfg0, false) = (a1, inl st1)
    /\ watch_step d st1 = (a2, inl st2)
    /\ save_and_return d (fill_defaults st2) = (a3, Configured cfg)
    /\ asked = (a1 ++ a2 ++ a3)%list.
Proof.
  unfold ensure_config.
  destruct (if reset then Some ∅ else load_settings file) as [cfg0|];
    [|discriminate].
  destruct (sharepoint_step d (cfg0, false)) as [a1 [st1|stop]] eqn:H1.
  2:{ intros [= <- ->]. destruct (sharepoint_step_stops d (cfg0, false) a1 _ H1). }
  destruct (watch_step d st1) as [a2 [st2|stop]] eqn:H2.
  2:{ intros [= <- ->]. destruct (watch_step_stops d st1 a2 _ H2). }
  destruct (save_and_return d (fill_defaults st2)) as [a3 ending] eqn:H3.
  intros [= <- ->]. by exists cfg0, st1, st2, a1, a2, a3.
Qed.

Lemma fill_defaults_unmarked (st : gmap string json * bool) :
  (fill_defaults st).2 = false -> fill_defaults st = st.
Proof.
  unfold fill_defaults, fill_default. destruct st as [cfg ch]. simpl.
  repeat (match goal with
          | |- context [match ?m !! ?k with _ => _ end] =>
              destruct (m !! k) eqn:?; simpl
          end); try discriminate; reflexivity || (intros ->; reflexivity).
Qed.

Lemma save_and_return_configured d (st : gmap string json * bool) a3 cfg :
  save_and_return d st = (a3, Configured cfg) ->
  cfg = st.1 /\ a3 = (if st.2 then [SaveSettings cfg] else []).
Proof.
  destruct st as [c ch]. unfold save_and_return. destruct ch.
  - destruct (write_fails d); [discriminate|]. by intros [= <- <-].
  - by intros [= <- <-].
Qed.

(** everything known about a call that returns the settings *)
Lemma configured_facts d (file : settings_file) (reset : bool)
    (asked : list dialog) cfg :
  downloads d <> "" ->
  ensure_config d file reset = (asked, Configured cfg) ->
  exists (cfg0 : gmap string json) (st1 st2 : gmap string json * bool)
         (a1 a2 : list dialog),
    (if reset then Some ∅ else load_settings file) = Some cfg0
    /\ step_done d "sharepoint_folder" (cfg0, false) st1 a1
    /\ step_done d "watch_folder" st1 st2 a2
    /\ cfg = (fill_defaults st2).1
    /\ asked = (a1 ++ a2
                ++ if (fill_defaults st2).2 then [SaveSettings cfg] else [])%list.
Proof.
  intros Hdl Hrun.
  apply ensure_config_configured in Hrun
    as (cfg0 & st1 & st2 & a1 & a2 & a3 & H0 & H1 & H2 & H3 & ->).
  apply sharepoint_step_done in H1. apply (watch_step_done d _ _ _ Hdl) in H2.
  apply save_and_return_configured in H3 as [-> ->].
  by exists cfg0, st1, st2, a1, a2.
Qed.

(** The settings that [ensure_config] returns are complete: both folder
    entries are non-empty paths that exist, and the pattern, the start
    row, the column and the separator are set. *)
Theorem ensure_config_returns_complete_settings d (file : settings_file)
    (reset : bool) (asked : list dialog) cfg :
  downloads d <> "" ->
  ensure_config d file reset = (asked, Configured cfg) ->
  folder_ready d cfg "sharepoint_folder"
  /\ folder_ready d cfg "watch_folder"
  /\ forall k, k ∈ default_keys -> is_Some (cfg !! k).
Proof.
  intros Hdl Hrun.
  destruct (configured_facts d file reset asked cfg Hdl Hrun)
    as (cfg0 & st1 & st2 & a1 & a2 & _ & (R1 & _) & (R2 & O2 & _) & -> & _).
  destruct (fill_defaults_spec st2) as (Hkeys & Hkeep & _).
  split; [|split; [|exact Hkeys]].
  - destruct R1 as (s & Hs & Hne & Hex). exists s.
    split; [|by split]. apply Hkeep. by rewrite O2.
  - destruct R2 as (s & Hs & Hne & Hex). exists s.
    split; [|by split]. by apply Hkeep.
Qed.

Lemma ensure_config_returns_complete_settings_witness :
  folder_ready office office_settings "sharepoint_folder"
  /\ folder_ready office office_settings "watch_folder"
  /\ forall k, k ∈ default_keys -> is_Some (office_settings !! k).
Proof.
  apply (ensure_config_returns_complete_settings office NoFile false
           [ShowInfo; AskSharePointFolder; AskYesNo;
            SaveSettings office_settings]).
  - discriminate.
  - vm_compute. reflexivity.
Defined.

(** What the user stored is kept: without [--reset], every stored entry
    other than the two folders is returned as stored, and a stored
    folder that is a non-empty existing path is kept too. *)
Theorem ensure_config_keeps_stored_settings d (file : settings_file)
    (stored : gmap string json) (asked : list dialog) cfg :
  downloads d <> "" ->
  load_settings file = Some stored ->
  ensure_config d file false = (asked, Configured cfg) ->
  (forall k v, k <> "sharepoint_folder" -> k <> "watch_folder" ->
     stored !! k = Some v -> cfg !! k = Some v)
  /\ (folder_ready d stored "sharepoint_folder" ->
      cfg !! "sharepoint_folder" = stored !! "sharepoint_folder")
  /\ (folder_ready d stored "watch_folder" ->
      cfg !! "watch_folder" = stored !! "watch_folder").
Proof.
  intros Hdl Hload Hrun.
  apply ensure_config_configured in Hrun
    as (cfg0 & st1 & st2 & a1 & a2 & a3 & H0 & S1 & S2 & S3 & _).
  rewrite Hload in H0. injection H0 as <-.
  pose proof (sharepoint_step_done d _ _ _ S1) as (_ & O1 & _).
  pose proof (watch_step_done d _ _ _ Hdl S2) as (_ & O2 & _).
  apply save_and_return_configured in S3 as [-> _].
  destruct (fill_defaults_spec st2) as (_ & Hkeep & Hother & _).
  assert (Hsp : "sharepoint_folder" ∉ default_keys)
    by (unfold default_keys; set_solver).
  assert (Hwf : "watch_folder" ∉ default_keys)
    by (unfold default_keys; set_solver).
  split; [|split].
  - intros k v Hk1 Hk2 Hv. apply Hkeep. rewrite O2, O1 by assumption. exact Hv.
  - intros Hready. rewrite (sharepoint_step_ready d stored false Hready) in S1.
    injection S1 as _ <-. rewrite (Hother _ Hsp). by apply O2.
  - intros Hready. rewrite (Hother _ Hwf).
    assert (Hready1 : folder_ready d st1.1 "watch_folder").
    { destruct Hready as (x & Hx & H). exists x. split; [|exact H].
      rewrite O1; [exact Hx | discriminate]. }
    destruct st1 as [c1 ch1].
    rewrite (watch_step_ready d c1 ch1 Hready1) in S2. injection S2 as _ <-.
    by apply O1.
Qed.

Lemma ensure_config_keeps_stored_settings_witness :
  exists (asked : list dialog) (cfg : gmap string json),
    ensure_config office (Holds (Some custom_settings)) false
      = (asked, Configured cfg)
    /\ cfg !! "start_row" = Some (JNum 5)
    /\ cfg !! "separator" = Some (JStr " | ")
    /\ cfg !! "col_b" = Some (JNum 2).
Proof.
  eexists _, _. split; [vm_compute; reflexivity|].
  destruct (ensure_config_keeps_stored_settings office
              (Holds (Some custom_settings)) custom_settings
              [AskYesNo; SaveSettings
                 (<["watch_folder" := JStr "C:/Users/u/Downloads"]>
                    (<["col_b" := JNum 2]>
                       (<["pattern" := JStr "ETSA-TSA-*.xls"]>
                          custom_settings)))]
              (<["watch_folder" := JStr "C:/Users/u/Downloads"]>
                 (<["col_b" := JNum 2]>
                    (<["pattern" := JStr "ETSA-TSA-*.xls"]> custom_settings))))
    as (Hkeep & _).
  - discriminate.
  - reflexivity.
  - vm_compute. reflexivity.
  - split; [|split].
    + apply Hkeep; [discriminate | discriminate | reflexivity].
    + apply Hkeep; [discriminate | discriminate | reflexivity].
    + vm_compute. reflexivity.
Defined.

(** A second start asks nothing and writes nothing: run on the settings
    it returned, [ensure_config] returns them again without any dialog
    and without saving. *)
Theorem ensure_config_second_run_is_silent d (file : settings_file)
    (reset : bool) (asked : list dialog) cfg :
  downloads d <> "" ->
  ensure_config d file reset = (asked, Configured cfg) ->
  ensure_config d (Holds (Some cfg)) false = ([], Configured cfg).
Proof.
  intros Hdl Hrun.
  destruct (configured_facts d file reset asked cfg Hdl Hrun)
    as (cfg0 & st1 & st2 & a1 & a2 & _ & (R1 & _) & (R2 & O2 & _) & -> & _).
  destruct (fill_defaults_spec st2) as (Hkeys & Hkeep & _).
  set (cfg := (fill_defaults st2).1) in *.
  assert (Hsp : folder_ready d cfg "sharepoint_folder").
  { destruct R1 as (s & Hs & H). exists s. split; [|exact H].
    apply Hkeep. by rewrite O2. }
  assert (Hwf : folder_ready d cfg "watch_folder").
  { destruct R2 as (s & Hs & H). exists s. split; [|exact H]. by apply Hkeep. }
  unfold ensure_config, load_settings.
  rewrite (sharepoint_step_ready d cfg false Hsp),
    (watch_step_ready d cfg false Hwf).
  destruct (fill_defaults_spec (cfg, false)) as (_ & _ & _ & Hsame & _).
  rewrite Hsame by exact Hkeys. reflexivity.
Qed.

Lemma ensure_config_second_run_is_silent_witness :
  ensure_config office (Holds (Some office_settings)) false
  = ([], Configured office_settings).
Proof.
  apply (ensure_config_second_run_is_silent office NoFile false
           [ShowInfo; AskSharePointFolder; AskYesNo;
            SaveSettings office_settings]).
  - discriminate.
  - vm_compute. reflexivity.
Defined.

(** Dialogs and saving go together: either nothing was asked, nothing
    is written and the stored settings are returned as they are, or the
    settings file is written once, last, with exactly the settings that
    are returned. *)
Theorem ensure_config_saves_what_it_returns d (file : settings_file)
    (reset : bool) (asked : list dialog) cfg :
  downloads d <> "" ->
  ensure_config d file reset = (asked, Configured cfg) ->
  (asked = [] /\ reset = false /\ load_settings file = Some cfg)
  \/ (exists shown, asked = (shown ++ [SaveSettings cfg])%list
                    /\ forall c, ~ In (SaveSettings c) shown).
Proof.
  intros Hdl Hrun.
  destruct (configured_facts d file reset asked cfg Hdl Hrun)
    as (cfg0 & st1 & st2 & a1 & a2 & H0 & (R1 & _ & C1) & (_ & _ & C2)
        & Hcfg & ->).
  assert (Hshown : forall c, ~ In (SaveSettings c) (a1 ++ a2)).
  { intros c Hin. apply in_app_iff in Hin as [Hin|Hin].
    - destruct C1 as [[-> _] | (_ & _ & H)]; [destruct Hin | by apply H in Hin].
    - destruct C2 as [[-> _] | (_ & _ & H)]; [destruct Hin | by apply H in Hin]. }
  destruct (fill_defaults st2).2 eqn:Hch.
  { right. exists (a1 ++ a2)%list. split; [by rewrite app_assoc | exact Hshown]. }
  left. pose proof (fill_defaults_unmarked st2 Hch) as Hsame.
  destruct (fill_defaults_spec st2) as (_ & _ & _ & _ & Hmark).
  assert (Hst2 : st2.2 = false)
    by (destruct st2.2; [by rewrite Hmark in Hch | reflexivity]).
  destruct C2 as [[-> ->] | (_ & Hm & _)]; [|congruence].
  destruct C1 as [[-> ->] | (_ & Hm & _)]; [|congruence].
  rewrite Hsame in Hcfg. simpl in Hcfg. subst cfg0.
  destruct reset; [|by repeat split].
  injection H0 as <-. destruct R1 as (s & Hs & _). simpl in Hs.
  by rewrite lookup_empty in Hs.
Qed.

Lemma ensure_config_saves_what_it_returns_witness :
  exists shown,
    [ShowInfo; AskSharePointFolder; AskYesNo; SaveSettings office_settings]
    = (shown ++ [SaveSettings office_settings])%list
    /\ forall c, ~ In (SaveSettings c) shown.
Proof.
  destruct (ensure_config_saves_what_it_returns office NoFile false
              [ShowInfo; AskSharePointFolder; AskYesNo;
               SaveSettings office_settings] office_settings)
    as [(H & _) | H].
  - discriminate.
  - vm_compute. reflexivity.
  - discriminate H.
  - exact H.
Defined.

(** A setup that exits has written nothing: the exit code is 0 after
    the folder dialog was closed without a choice, and 1 after a chosen
    folder was found missing (an error box was shown). *)
Theorem ensure_config_exit_writes_nothing d (file : settings_file)
    (reset : bool) (asked : list dialog) (code : Z) :
  ensure_config d file reset = (asked, Exit code) ->
  (forall c, ~ In (SaveSettings c) asked)
  /\ ((code = 0 /\ picked_sharepoint d = "" /\ In ShowWarning asked)
      \/ (code = 1 /\ In ShowError asked)).
Proof.
  unfold ensure_config.
  destruct (if reset then Some ∅ else load_settings file) as [cfg0|];
    [|discriminate].
  destruct (sharepoint_step d (cfg0, false)) as [a1 [st1|stop]] eqn:H1.
  - pose proof (sharepoint_step_done d _ _ _ H1) as (_ & _ & C1).
    assert (Hno1 : forall c, ~ In (SaveSettings c) a1).
    { intros c Hin.
      destruct C1 as [[-> _] | (_ & _ & H)]; [destruct Hin | by apply H in Hin]. }
    destruct (watch_step d st1) as [a2 [st2|stop]] eqn:H2.
    + destruct (save_and_return d (fill_defaults st2)) as [a3 ending] eqn:H3.
      intros [= <- ->]. exfalso. revert H3. unfold save_and_return.
      destruct (fill_defaults st2) as [c [|]]; [|discriminate].
      destruct (write_fails d); discriminate.
    + intros [= <- ->]. revert H2. destruct st1 as [c1 ch1]. unfold watch_step.
      destruct (folder_missing d c1 "watch_folder") as [[|]|];
        try discriminate.
      unfold prompt_optional_watch_folder.
      destruct (other_watch_folder d);
        (destruct (negb (path_exists d _)); [|discriminate]);
        intros [= <- <-]; (split; [|right; split; [reflexivity|]]).
      * intros c Hin. apply in_app_iff in Hin as [Hin|Hin];
          [by apply Hno1 in Hin|].
        cbn in Hin. intuition discriminate.
      * rewrite in_app_iff. right. cbn. tauto.
      * intros c Hin. apply in_app_iff in Hin as [Hin|Hin];
          [by apply Hno1 in Hin|].
        cbn in Hin. intuition discriminate.
      * rewrite in_app_iff. right. cbn. tauto.
  - intros [= <- ->]. revert H1. unfold sharepoint_step,
      prompt_explain_and_pick_sharepoint.
    destruct (folder_missing d cfg0 "sharepoint_folder") as [[|]|];
      try discriminate.
    destruct (String.eqb_spec (picked_sharepoint d) "") as [Hp|Hp].
    + intros [= <- <-]. split.
      * intros c Hin. cbn in Hin. intuition discriminate.
      * left. repeat split; [exact Hp|]. cbn. tauto.
    + destruct (negb (path_exists d (picked_sharepoint d))); [|discriminate].
      intros [= <- <-]. split.
      * intros c Hin. cbn in Hin. intuition discriminate.
      * right. split; [reflexivity|]. cbn. tauto.
Qed.

Lemma ensure_config_exit_writes_nothing_witness :
  (forall c, ~ In (SaveSettings c) [ShowInfo; AskSharePointFolder; ShowWarning])
  /\ ((0 = 0 /\ picked_sharepoint cancelling = ""
       /\ In ShowWarning [ShowInfo; AskSharePointFolder; ShowWarning])
      \/ (0 = 1 /\ In ShowError [ShowInfo; AskSharePointFolder; ShowWarning])).
Proof.
  apply (ensure_config_exit_writes_nothing cancelling NoFile false).
  vm_compute. reflexivity.
Defined.

Lemma fill_default_absent key (v : json) cfg (ch : bool) :
  cfg !! key = None -> fill_default key v (cfg, ch) = (<[key := v]> cfg, true).
Proof. unfold fill_default. simpl. by intros ->. Qed.

(** With [--reset] the stored settings do not matter: the call behaves
    as on a missing settings file, the user is asked for the SharePoint
    folder again, and the returned processing settings are the
    defaults. *)
Theorem ensure_config_reset_gives_defaults d (file : settings_file)
    (asked : list dialog) cfg :
  ensure_config d file true = (asked, Configured cfg) ->
  ensure_config d file true = ensure_config d NoFile false
  /\ In AskSharePointFolder asked
  /\ cfg !! "sharepoint_folder" = Some (JStr (picked_sharepoint d))
  /\ cfg !! "pattern" = Some (JStr DEFAULT_WATCH_GLOB)
  /\ cfg !! "start_row" = Some (JNum 19)
  /\ cfg !! "col_b" = Some (JNum 2)
  /\ cfg !! "separator" = Some (JStr " ### ").
Proof.
  intros Hrun. split; [reflexivity|]. revert Hrun.
  unfold ensure_config, sharepoint_step, watch_step,
    prompt_explain_and_pick_sharepoint, prompt_optional_watch_folder,
    save_and_return.
  change (folder_missing d ∅ "sharepoint_folder") with (Some true).
  destruct (String.eqb (picked_sharepoint d) ""); [discriminate|].
  destruct (negb (path_exists d (picked_sharepoint d))); [discriminate|].
  change (folder_missing d (<["sharepoint_folder" := JStr (picked_sharepoint d)]> ∅)
            "watch_folder") with (Some true).
  destruct (other_watch_folder d);
    (destruct (negb (path_exists d _)); [discriminate|]);
    unfold fill_defaults;
    rewrite !fill_default_absent
      by (repeat rewrite lookup_insert_ne by discriminate; apply lookup_empty);
    (destruct (write_fails d); [discriminate|]);
    intros [= <- <-];
    (split; [cbn; tauto|]);
    repeat split;
    repeat (first [apply lookup_insert_eq
                  | rewrite lookup_insert_ne by discriminate]).
Qed.

Lemma ensure_config_reset_gives_defaults_witness :
  office_settings !! "start_row" = Some (JNum 19)
  /\ office_settings !! "separator" = Some (JStr " ### ").
Proof.
  destruct (ensure_config_reset_gives_defaults office
              (Holds (Some custom_settings))
              [ShowInfo; AskSharePointFolder; AskYesNo;
               SaveSettings office_settings] office_settings)
    as (_ & _ & _ & _ & Hrow & _ & Hsep).
  - vm_compute. reflexivity.
  - by split.
Defined.

(** *** Crashes *)






End ConfigFacts.
